(** * Verification of the documentation-table builder and of the Explorer

    Two programs are embedded here:
    - [docs/build_tables.py]: the comment-driven parser that turns the
      default configuration text into one YAML table per section;
    - [ultralytics/data/explorer/explorer.py]: the [Explorer] class that
      orchestrates the embedding model and the vector store.

    Python [str] values are [string]s, one [ascii] per character: the
    characters are the code points below 256.  Python [float]s are binary64
    primitive floats, Python [int]s are [Z]; the components of a torch
    tensor are binary32 values, carried by the binary64 floats that
    represent them, and torch's arithmetic on them rounds to binary32, in
    an order of operations that is torch's own.  An
    exception is an explicit [Raise] result.  The Explorer runs in a state
    monad over the object, the database behind its connection and the log
    of the calls made to the model and the store; what the model, the
    dataset code and the store compute is taken from a class of
    collaborators.  Of the plotting wrappers of the Explorer,
    [plot_similarity_index] is embedded, as the data it hands to the plot;
    the others are left out. *)

From Stdlib Require Import ZArith String Ascii List Bool Lia.
From Stdlib Require Import Floats.
From stdpp Require Import base option list gmap strings.

Import ListNotations.
Local Open Scope string_scope.
Local Open Scope Z_scope.

Set Default Proof Using "Type".

(** ** Results of fallible Python code *)

Inductive exn : Type :=
| ValueError (msg : string)
| IndexError
| AttributeError
| OverflowError
| NameError (msg : string)
| RuntimeError (msg : string)
| StoreError.

Inductive result (A : Type) : Type :=
| Ok (a : A)
| Raise (e : exn).
Arguments Ok {A} a.
Arguments Raise {A} e.

Definition is_raise {A} (r : result A) : bool :=
  match r with Ok _ => false | Raise _ => true end.

(** ** Python [str] methods used by the sources *)

Module Py.

Definition nl : string := String (ascii_of_nat 10) "".

(** [s.startswith(p)] *)
Definition startswith (s p : string) : bool := String.prefix p s.

(** [sub in s] *)
Fixpoint contains (sub s : string) : bool :=
  String.prefix sub s ||
  match s with
  | EmptyString => false
  | String _ s' => contains sub s'
  end.

(** [s.find(sub)]: index of the first occurrence, [-1] when absent. *)
Fixpoint find_from (sub s : string) (i : Z) : Z :=
  if String.prefix sub s then i
  else match s with
       | EmptyString => -1
       | String _ s' => find_from sub s' (i + 1)
       end.

Definition find (s sub : string) : Z := find_from sub s 0.

Definition len (s : string) : Z := Z.of_nat (String.length s).

(** Normalisation of a slice bound: a negative bound counts from the
    end, and every bound is clamped to [0, len]. *)
Definition clamp_index (n i : Z) : Z :=
  if i <? 0 then Z.max (i + n) 0 else Z.min i n.

(** [s[lo:hi]] *)
Definition slice (s : string) (lo hi : Z) : string :=
  let l := clamp_index (len s) lo in
  let h := clamp_index (len s) hi in
  substring (Z.to_nat l) (Z.to_nat (h - l)) s.

(** [s[lo:]] *)
Definition slice_from (s : string) (lo : Z) : string :=
  let l := clamp_index (len s) lo in
  substring (Z.to_nat l) (Z.to_nat (len s - l)) s.

Definition in_chars (c : ascii) (chars : string) : bool :=
  existsb (Ascii.eqb c) (list_ascii_of_string chars).

Fixpoint lstrip (s chars : string) : string :=
  match s with
  | EmptyString => EmptyString
  | String c s' => if in_chars c chars then lstrip s' chars else s
  end.

Fixpoint rstrip (s chars : string) : string :=
  match s with
  | EmptyString => EmptyString
  | String c s' =>
      match rstrip s' chars with
      | EmptyString => if in_chars c chars then EmptyString else String c EmptyString
      | r => String c r
      end
  end.

(** [s.strip(chars)] *)
Definition strip (s chars : string) : string := rstrip (lstrip s chars) chars.

(** The characters [str.strip()] removes, those for which
    [str.isspace] holds: tab, line feed, vertical tab, form feed, carriage
    return, the four separators 0x1c-0x1f, the space, next line (U+0085)
    and the no-break space (U+00A0). *)
Definition whitespace : string :=
  string_of_list_ascii
    (map ascii_of_nat [9; 10; 11; 12; 13; 28; 29; 30; 31; 32; 133; 160]%nat).

(** [s.strip()] *)
Definition strip_ws (s : string) : string := strip s whitespace.

(** The line boundaries of [str.splitlines()]: line feed, vertical tab,
    form feed, carriage return, the separators 0x1c-0x1e and next line
    (U+0085). *)
Definition is_line_break (c : ascii) : bool :=
  existsb (Nat.eqb (nat_of_ascii c)) [10; 11; 12; 13; 28; 29; 30; 133]%nat.

(** [s.splitlines()]: the lines without their boundaries; a carriage
    return followed by a line feed is one boundary, and nothing follows a
    final boundary. *)
Fixpoint splitlines (s : string) : list string :=
  match s with
  | EmptyString => []
  | String c s' =>
      if is_line_break c then
        EmptyString ::
          match s' with
          | String c' s'' =>
              if (nat_of_ascii c =? 13)%nat && (nat_of_ascii c' =? 10)%nat
              then splitlines s''
              else splitlines s'
          | EmptyString => []
          end
      else
        match splitlines s' with
        | x :: xs => String c x :: xs
        | [] => [String c EmptyString]
        end
  end.

(** [s.split(sep)] for a non-empty [sep] (every call site passes a
    literal).  [skip] counts the characters of a matched separator that
    are still to be dropped. *)
Fixpoint split_go (sep : string) (skip : nat) (s : string) : list string :=
  match s with
  | EmptyString => [EmptyString]
  | String c s' =>
      match skip with
      | S k => split_go sep k s'
      | O =>
          if String.prefix sep s
          then EmptyString :: split_go sep (String.length sep - 1) s'
          else match split_go sep 0 s' with
               | x :: xs => String c x :: xs
               | [] => [String c EmptyString]
               end
      end
  end.

Definition split (s sep : string) : list string := split_go sep 0 s.

(** [s.replace(old, new)]: the non-overlapping occurrences of [old],
    leftmost first.  With an empty [old] Python inserts [new] around
    every character. *)
Fixpoint replace_go (old new : string) (skip : nat) (s : string) : string :=
  match s with
  | EmptyString => EmptyString
  | String c s' =>
      match skip with
      | S k => replace_go old new k s'
      | O =>
          if String.prefix old s
          then new ++ replace_go old new (String.length old - 1) s'
          else String c (replace_go old new 0 s')
      end
  end.

Fixpoint intersperse_after (new s : string) : string :=
  match s with
  | EmptyString => EmptyString
  | String c s' => String c (new ++ intersperse_after new s')
  end.

Definition replace (s old new : string) : string :=
  match old with
  | EmptyString => new ++ intersperse_after new s
  | _ => replace_go old new 0 s
  end.

(** [s.count(sub)]: non-overlapping occurrences of a non-empty [sub]. *)
Fixpoint count_go (sub : string) (skip : nat) (s : string) : nat :=
  match s with
  | EmptyString => 0%nat
  | String c s' =>
      match skip with
      | S k => count_go sub k s'
      | O =>
          if String.prefix sub s
          then S (count_go sub (String.length sub - 1) s')
          else count_go sub 0 s'
      end
  end.

Definition count (s sub : string) : nat := count_go sub 0 s.

(** ["c" * n] *)
Fixpoint repeat_str (s : string) (n : nat) : string :=
  match n with
  | O => EmptyString
  | S k => s ++ repeat_str s k
  end.

(** [l.index(x)] on a list of strings; [None] stands for [ValueError]. *)
Fixpoint index_of (x : string) (l : list string) : option nat :=
  match l with
  | [] => None
  | y :: l' => if String.eqb x y then Some 0%nat
               else option_map S (index_of x l')
  end.

(** [x in l] on a list of strings. *)
Definition mem (x : string) (l : list string) : bool :=
  existsb (String.eqb x) l.

End Py.

(** ** docs/build_tables.py *)

Module BuildTables.

Definition cfg_sections : list string :=
  [ "Train settings";
    "Segmentation train settings";
    "Classification train settings";
    "Val/Test settings";
    "Predict settings";
    "Visualize settings";
    "Export settings";
    "Hyperparameters";
    "Augmentation";
    "Segmentation Augmentations";
    "Classification Augmentations";
    "Custom config.yaml";
    "Tracker" ].

(** [txt]: the lines of the configuration text, empty lines dropped
    ([any(l)] holds for every non-empty [str]), each stripped of spaces
    and dashes at both ends. *)
Definition txt_of_lines (lines : list string) : list string :=
  map (fun l => Py.strip l " -")
      (List.filter (fun l => negb (String.eqb l "")) lines).

Definition n_section (N : nat) : string := Py.repeat_str "#" N ++ " ".

Definition section_depth (section : string) : nat :=
  Py.count (hd "" (Py.split section " ")) "#".

Definition find_sections (txt_data : list string) (max_repeats : nat)
  : list string :=
  flat_map
    (fun ss => map (fun l => Py.strip l " -")
                   (List.filter (fun l => Py.startswith l ss) txt_data))
    (map (fun i => Py.repeat_str "#" i ++ " ") (seq 1 max_repeats)).

Definition text_2_key (line : string) : string :=
  Py.strip line "# -" ++ ": ".

Definition extract_type (line : string) : string * string :=
  let l := Py.find line "(" in
  let r := Py.find line ")" in
  let l_type := Py.strip (Py.slice line l r) ")(" in
  let line := Py.strip_ws (Py.slice_from line (r + 1)) in
  let l_type :=
    fold_left (fun t r => Py.replace t (fst r) (snd r))
              [("|", "or"); ("optional", ""); (", ", "")] l_type in
  (l_type, line).

Definition sections (txt : list string) : list string :=
  List.filter (fun x => Py.mem (Py.strip x "# ") cfg_sections)
         (find_sections txt 2).

Definition unpack_error (got : nat) : exn :=
  ValueError
    (if (got <? 2)%nat then "not enough values to unpack (expected 2, got 1)"
     else "too many values to unpack (expected 2)").

(** One section entry: the two unpacking assignments and the comment
    processing of the loop body, in the order of the source. *)
Definition parse_entry (line : string)
  : result (string * string * string * string) :=
  match Py.split line "# " with
  | [entry; comment] =>
      let comment :=
        Py.replace (hd "" (Py.split comment "http")) ":" " -" in
      let '(v_type, comment) := extract_type comment in
      match Py.split entry ": " with
      | [k; v] => Ok (k, v, v_type, comment)
      | parts => Raise (unpack_error (length parts))
      end
  | parts => Raise (unpack_error (length parts))
  end.

Definition entry_text (is_sub : bool) (sub_d : nat)
           (k v v_type comment : string) : string :=
  if negb is_sub then
    Py.nl ++ "  " ++ k ++ ": " ++ Py.nl ++ "    value: " ++ v
      ++ Py.nl ++ "    type: " ++ v_type ++ Py.nl ++ "    desc: " ++ comment
  else
    let indent := Py.repeat_str (Py.repeat_str " " sub_d) 2 in
    Py.nl ++ indent ++ k ++ ": " ++ Py.nl ++ indent ++ "value: " ++ v
      ++ Py.nl ++ indent ++ "type: " ++ v_type
      ++ Py.nl ++ indent ++ "desc: " ++ comment.

(** The inner [for line in txt[idx + 1:]] loop, with its three loop
    variables. *)
Fixpoint collect (lines : list string) (is_sub : bool) (sub_d : nat)
         (section_text : string) : result string :=
  match lines with
  | [] => Ok section_text
  | line :: rest =>
      let n := section_depth line in
      if (n =? 0)%nat then
        match parse_entry line with
        | Ok (k, v, v_type, comment) =>
            collect rest is_sub sub_d
                    (section_text ++ entry_text is_sub sub_d k v v_type comment)
        | Raise e => Raise e
        end
      else if (n =? 1)%nat then Ok section_text
      else
        collect rest true n
                (section_text ++ Py.nl
                   ++ Py.repeat_str (Py.repeat_str " " (n - 1)) 2
                   ++ text_2_key line)
  end.

(** The text handed to [yaml.safe_load] for section [s]. *)
Definition section_table (txt : list string) (s : string) : result string :=
  match Py.index_of s txt with
  | None => Raise (ValueError "is not in list")
  | Some idx => collect (skipn (S idx) txt) false 0 (text_2_key s)
  end.

Fixpoint all_ok {A} (l : list (result A)) : result (list A) :=
  match l with
  | [] => Ok []
  | Ok a :: l' =>
      match all_ok l' with Ok r => Ok (a :: r) | Raise e => Raise e end
  | Raise e :: _ => Raise e
  end.

Section Tables.
(** [yaml.safe_load], the parser of the YAML library. *)
Context {Y : Type} (yaml_safe_load : string -> result Y).

(** The run of the module on the text of the configuration file: [cfg]
    is loaded from the whole text first, then [txt] is prepared and one
    table is loaded per section.  The value is that of [tables], or the
    first exception raised. *)
Definition tables (text : string) : result (list Y) :=
  match yaml_safe_load text with
  | Raise e => Raise e
  | Ok cfg =>
      let txt := txt_of_lines (Py.splitlines text) in
      all_ok
        (map (fun s =>
                match section_table txt s with
                | Ok section_text => yaml_safe_load section_text
                | Raise e => Raise e
                end)
             (sections txt))
  end.
End Tables.

End BuildTables.


(** ** Python [float] (binary64) *)

Module PyFloat.

(** [bool(x)]: a float is falsy exactly when it compares equal to zero
    (so -0.0 is falsy and NaN is truthy). *)
Definition truthy (x : float) : bool := negb (x =? 0)%float.

(** [float(n)] as used by [x * n]: the nearest binary64, ties to even;
    an integer beyond the binary64 range raises. *)
Definition of_int (n : Z) : result float :=
  let f := SF2Prim (binary_normalize prec emax n 0 false) in
  if is_infinity f then Raise OverflowError else Ok f.

(** [int(x)]: truncation towards zero. *)
Definition to_int (x : float) : result Z :=
  match Prim2SF x with
  | S754_zero _ => Ok 0
  | S754_infinity _ => Raise OverflowError
  | S754_nan => Raise (ValueError "cannot convert float NaN to integer")
  | S754_finite s m e =>
      let v := if 0 <=? e then Z.pos m * 2 ^ e else Z.pos m / 2 ^ (- e) in
      Ok (if s then - v else v)
  end.

(** [x * n] for a float [x] and an int [n]. *)
Definition mul_int (x : float) (n : Z) : result float :=
  match of_int n with
  | Ok f => Ok (x * f)%float
  | Raise e => Raise e
  end.

End PyFloat.

(** ** ultralytics/data/explorer/explorer.py *)

Module Explorer.

(** A one-dimensional tensor: an embedding vector.  Its components are
    binary32 values, each carried by the binary64 float that represents
    it. *)
Definition tensor : Type := list float.

(** An image held in memory ([np.ndarray]). *)
Definition ndarray : Type := list (list (list Z)).

Inductive image : Type :=
| ImPath (f : string)
| ImArray (a : ndarray).

(** The values the [imgs] / [img] arguments take. *)
Inductive imgs_arg : Type :=
| ArgNone
| ArgStr (f : string)
| ArgArray (a : ndarray)
| ArgList (l : list image).

(** The values the [idx] argument takes. *)
Inductive idx_arg : Type :=
| IdxNone
| IdxInt (i : Z)
| IdxList (l : list Z).

(** A value of a dataset description: [data_info[split]] is a path or a
    list of paths. *)
Inductive split_paths : Type :=
| OnePath (p : string)
| PathList (l : list string).

(** *** torch *)

(** The binary32 format: 24 bits of precision, exponents up to 128. *)
Definition prec32 : Z := 24.
Definition emax32 : Z := 128.

(** Addition, multiplication and division of binary32 values, rounded to
    binary32 (to nearest, ties to even). *)
Definition f32_add (x y : float) : float :=
  SF2Prim (SFadd prec32 emax32 (Prim2SF x) (Prim2SF y)).
Definition f32_mul (x y : float) : float :=
  SF2Prim (SFmul prec32 emax32 (Prim2SF x) (Prim2SF y)).
Definition f32_div (x y : float) : float :=
  SF2Prim (SFdiv prec32 emax32 (Prim2SF x) (Prim2SF y)).

(** The binary32 value nearest to a count. *)
Definition f32_of_nat (n : nat) : float :=
  SF2Prim (binary_normalize prec32 emax32 (Z.of_nat n) 0 false).

Definition float_of_nat (n : nat) : float :=
  SF2Prim (binary_normalize prec emax (Z.of_nat n) 0 false).

(** [torch.stack(ts)]: the tensors must be there and agree in shape. *)
Definition torch_stack (ts : list tensor) : result (list tensor) :=
  match ts with
  | [] => Raise (RuntimeError "stack expects a non-empty TensorList")
  | t :: _ =>
      if forallb (fun u => (length u =? length t)%nat) ts then Ok ts
      else Raise (RuntimeError "stack expects each tensor to be equal size")
  end.

(** *** Tables *)

(** A row of the embedding table; [B] is the type of the sanitized
    dataset item it was built from. *)
Record emb_row {B : Type} : Type := {
  im_file : string;
  labels : B;
  vector : tensor }.
Arguments emb_row : clear implicits.

(** A row of a search result: the table row and its [_distance]. *)
Record hit {B : Type} : Type := {
  hit_row : emb_row B;
  _distance : float }.
Arguments hit : clear implicits.

(** A row of the similarity index. *)
Record sim_row : Type := {
  sim_idx : Z;
  sim_im_file : string;
  sim_count : Z;
  sim_im_files : list string }.

(** The contents of a table of the database. *)
Inductive table_of {B : Type} : Type :=
| EmbTable (vector_size : nat) (rows : list (emb_row B))
| SimTable (rows : list sim_row).
Arguments table_of : clear implicits.

(** The calls made to the model, the dataset code and the store. *)
Inductive event : Type :=
| EvCheckDataset (data : string)
| EvLoadDataset (choice_set : list string)
| EvEmbed (imgs : list image)
| EvOpenTable (name : string)
| EvCreateTable (name : string)
| EvAdd (name : string) (rows : nat)
| EvScan (name : string)
| EvSearch (name : string) (q : tensor) (limit : Z)
| EvFilter (name : string) (query : string)
| EvTake (name : string) (idx : list Z).

(** An [Explorer] object together with the database behind its
    connection and the calls made so far.  A table handle
    ([LanceTable]) is the name of the table in the database. *)
Record state_of {B : Type} : Type := {
  db : gmap string (table_of B);
  table_name : string;
  data : option string;
  choice_set : option (list string);
  sim_index : option string;
  table : option string;
  trace : list event }.
Arguments state_of : clear implicits.

Definition sim_idx_table_name {B} (s : state_of B) : string :=
  table_name s ++ "_sim_idx".

(** [Explorer.__init__]: [table_name] is [Path(data).stem], computed by
    the caller. *)
Definition init {B} (conn : gmap string (table_of B)) (data_arg stem : string)
  : state_of B :=
  {| db := conn; table_name := stem; data := Some data_arg;
     choice_set := None; sim_index := None; table := None; trace := [] |}.

(** *** The collaborators: dataset code, model and vector store *)

Class Collaborators : Type := {
  (** a dataset item (a dict of arrays) and a parsed dataset description *)
  batch : Type;
  data_info : Type;
  (** [check_det_dataset(data)] *)
  check_det_dataset : string -> result data_info;
  (** [data_info[split]], [None] when the key is absent *)
  data_info_get : data_info -> string -> option split_paths;
  (** [ExplorerDataset(img_path=choice_set, data=data_info, ...,
      task=task)], as the list of its items *)
  explorer_dataset : list string -> data_info -> string -> result (list batch);
  (** [batch.pop(k, None)] and [batch['im_file']] *)
  batch_pop : string -> batch -> batch;
  batch_im_file : batch -> string;
  (** [sanitize_batch(batch, data_info)] *)
  sanitize_batch : batch -> data_info -> batch;
  (** [model.task] and [model.embed(sources)]: one tensor per image found *)
  model_task : string;
  model_embed : list image -> result (list tensor);
  (** [torch.mean(m, 0)] of a stack [m] of vectors: the order in which
      torch adds the rows up is its own *)
  torch_mean0 : list tensor -> tensor;
  (** the store's nearest-neighbour search over the rows of a table, with
      a result limit *)
  store_search :
    list (emb_row batch) -> tensor -> Z -> result (list (hit batch));
  (** the store's predicate push-down *)
  store_filter :
    list (emb_row batch) -> string -> result (list (emb_row batch));
  (** the store's [take] of rows by position *)
  store_take :
    list (emb_row batch) -> list Z -> result (list (emb_row batch))
}.

(** Tables and states over the dataset items of the collaborators. *)
Abbreviation table_data := (table_of batch) (only parsing).
Abbreviation state := (state_of batch) (only parsing).

Section WithCollaborators.
Context `{C : Collaborators}.

(** *** State and exceptions *)

Definition M (A : Type) : Type := state -> result A * state.

Definition ret {A} (a : A) : M A := fun s => (Ok a, s).
Definition raise {A} (e : exn) : M A := fun s => (Raise e, s).
Definition bind {A B} (m : M A) (k : A -> M B) : M B :=
  fun s => match m s with
           | (Ok a, s') => k a s'
           | (Raise e, s') => (Raise e, s')
           end.
Definition gets {A} (f : state -> A) : M A := fun s => (Ok (f s), s).
Definition modify (f : state -> state) : M unit := fun s => (Ok tt, f s).
Definition lift {A} (r : result A) : M A := fun s => (r, s).

Notation "x <- c ;; k" := (bind c (fun x => k))
  (at level 100, c at next level, right associativity).
Notation "c ;;; k" := (bind c (fun _ => k))
  (at level 100, right associativity).

Definition emit (ev : event) : M unit :=
  modify (fun s =>
    {| db := db s; table_name := table_name s; data := data s;
       choice_set := choice_set s; sim_index := sim_index s;
       table := table s; trace := trace s ++ [ev] |}).
Definition set_db (d : gmap string table_data) : M unit :=
  modify (fun s =>
    {| db := d; table_name := table_name s; data := data s;
       choice_set := choice_set s; sim_index := sim_index s;
       table := table s; trace := trace s |}).
Definition set_choice_set (c : list string) : M unit :=
  modify (fun s =>
    {| db := db s; table_name := table_name s; data := data s;
       choice_set := Some c; sim_index := sim_index s;
       table := table s; trace := trace s |}).
Definition set_sim_index (h : string) : M unit :=
  modify (fun s =>
    {| db := db s; table_name := table_name s; data := data s;
       choice_set := choice_set s; sim_index := Some h;
       table := table s; trace := trace s |}).
Definition set_table (h : string) : M unit :=
  modify (fun s =>
    {| db := db s; table_name := table_name s; data := data s;
       choice_set := choice_set s; sim_index := sim_index s;
       table := Some h; trace := trace s |}).

(** [xs[0]] *)
Definition first {A} (xs : list A) : M A :=
  match xs with
  | [] => raise IndexError
  | x :: _ => ret x
  end.

(** *** The connection and its tables *)

(** [name in connection.table_names()] *)
Definition has_table (name : string) : M bool :=
  gets (fun s => match db s !! name with Some _ => true | None => false end).

(** [connection.open_table(name)] *)
Definition open_table (name : string) : M string :=
  emit (EvOpenTable name) ;;;
  present <- has_table name ;;
  if present then ret name else raise StoreError.

(** [connection.create_table(name, schema=..., mode='overwrite')]: an
    empty table replaces whatever the name held. *)
Definition create_table (name : string) (empty : table_data) : M string :=
  emit (EvCreateTable name) ;;;
  d <- gets db ;;
  set_db (<[name := empty]> d) ;;;
  ret name.

(** The rows behind a handle of the embedding table. *)
Definition emb_rows (h : string) : M (list (emb_row batch)) :=
  d <- gets db ;;
  match d !! h with
  | Some (EmbTable _ rows) => ret rows
  | _ => raise StoreError
  end.

(** [sim_table.to_arrow()] *)
Definition sim_to_arrow (h : string) : M (list sim_row) :=
  d <- gets db ;;
  match d !! h with
  | Some (SimTable rows) => ret rows
  | _ => raise StoreError
  end.

(** [table.add(rows)] on the embedding table: the store refuses a
    generator that yields nothing; the rows are written once the
    generator that produces them is exhausted, and each must fit the
    schema (the vector width the table was created with, see
    [get_table_schema(vector_size)]). *)
Definition add_emb (h : string) (new : list (emb_row batch)) : M unit :=
  emit (EvAdd h (length new)) ;;;
  match new with
  | [] => raise (ValueError "Input iterable is empty")
  | _ =>
      d <- gets db ;;
      match d !! h with
      | Some (EmbTable w rows) =>
          if forallb (fun r => (length (vector r) =? w)%nat) new
          then set_db (<[h := EmbTable w (rows ++ new)]> d)
          else raise StoreError
      | _ => raise StoreError
      end
  end.

(** [sim_table.add(rows)]: the store refuses a generator that yields
    nothing. *)
Definition add_sim (h : string) (new : list sim_row) : M unit :=
  emit (EvAdd h (length new)) ;;;
  match new with
  | [] => raise (ValueError "Input iterable is empty")
  | _ =>
      d <- gets db ;;
      match d !! h with
      | Some (SimTable rows) => set_db (<[h := SimTable (rows ++ new)]> d)
      | _ => raise StoreError
      end
  end.

(** [len(table)] *)
Definition table_len (h : string) : M Z :=
  rows <- emb_rows h ;;
  ret (Z.of_nat (length rows)).

(** [table.search(q).limit(limit)], materialised by [to_arrow()] or
    [to_df()] *)
Definition search (h : string) (q : tensor) (limit : Z)
  : M (list (hit batch)) :=
  emit (EvSearch h q limit) ;;;
  rows <- emb_rows h ;;
  lift (store_search rows q limit).

(** [model.embed(imgs)] *)
Definition embed (imgs : list image) : M (list tensor) :=
  emit (EvEmbed imgs) ;;;
  lift (model_embed imgs).

(** *** Explorer.create_embeddings_table *)

Definition exclude_keys : list string :=
  ["img"; "ratio_pad"; "resized_shape"; "ori_shape"; "batch_idx"].

(** [_yield_batches], as consumed by [table.add]: one row per dataset
    item. *)
Fixpoint _yield_batches (dataset : list batch) (info : data_info)
         (exclude : list string) : M (list (emb_row batch)) :=
  match dataset with
  | [] => ret []
  | b :: rest =>
      let b := fold_left (fun b k => batch_pop k b) exclude b in
      let b := sanitize_batch b info in
      e <- embed [ImPath (batch_im_file b)] ;;
      v <- first e ;;
      rows <- _yield_batches rest info exclude ;;
      ret ({| im_file := batch_im_file b; labels := b; vector := v |}
             :: rows)
  end.

Definition create_embeddings_table (force : bool) (split : string)
  : M unit :=
  t <- gets table ;;
  if (match t with Some _ => true | None => false end) && negb force
  then ret tt
  else
    name <- gets table_name ;;
    present <- has_table name ;;
    if present && negb force
    then (h <- open_table name ;; set_table h)
    else
      d <- gets data ;;
      match d with
      | None =>
          raise (ValueError "Data must be provided to create embeddings table")
      | Some d =>
          info <- (emit (EvCheckDataset d) ;;; lift (check_det_dataset d)) ;;
          match data_info_get info split with
          | None => raise (ValueError "Split is not found in the dataset")
          | Some paths =>
              let choice :=
                match paths with PathList l => l | OnePath p => [p] end in
              set_choice_set choice ;;;
              dataset <- (emit (EvLoadDataset choice) ;;;
                          lift (explorer_dataset choice info model_task)) ;;
              b0 <- first dataset ;;
              e <- embed [ImPath (batch_im_file b0)] ;;
              e0 <- first e ;;
              let vector_size := length e0 in
              tbl <- create_table name (EmbTable vector_size []) ;;
              rows <- _yield_batches dataset info exclude_keys ;;
              add_emb tbl rows ;;;
              set_table tbl
          end
      end.

(** *** Explorer.query *)

Definition query (imgs : imgs_arg) (limit : Z) : M (list (hit batch)) :=
  t <- gets table ;;
  match t with
  | None =>
      raise (ValueError "Table is not created. Please create the table first.")
  | Some tbl =>
      imgs <- match imgs with
              | ArgStr f => ret [ImPath f]
              | ArgList l => ret l
              | _ => raise (ValueError "img must be a string or a list of strings.")
              end ;;
      embeds <- embed imgs ;;
      q <- (if (1 <? length embeds)%nat
            then (m <- lift (torch_stack embeds) ;; ret (torch_mean0 m))
            else first embeds) ;;
      search tbl q limit
  end.

(** *** Explorer.sql_query *)

(** [to_table(filter=query)] already is the arrow table of the rows
    found: it has no [to_arrow] method, and the call made on it raises. *)
Definition sql_query (q : string) : M (list (emb_row batch)) :=
  t <- gets table ;;
  match t with
  | None =>
      raise (ValueError "Table is not created. Please create the table first.")
  | Some tbl =>
      emit (EvFilter tbl q) ;;;
      rows <- emb_rows tbl ;;
      found <- lift (store_filter rows q) ;;
      raise AttributeError
  end.

(** *** Explorer._check_imgs_or_idxs and get_similar *)

Definition is_none_img (a : imgs_arg) : bool :=
  match a with ArgNone => true | _ => false end.
Definition is_none_idx (a : idx_arg) : bool :=
  match a with IdxNone => true | _ => false end.

Definition _check_imgs_or_idxs (img : imgs_arg) (idx : idx_arg)
  : M (list image) :=
  if is_none_img img && is_none_idx idx
  then raise (ValueError "Either img or idx must be provided.")
  else if negb (is_none_img img) && negb (is_none_idx idx)
  then raise (ValueError "Only one of img or idx must be provided.")
  else
    img <- match idx with
           | IdxNone => ret img
           | _ =>
               let idx := match idx with
                          | IdxList l => l
                          | IdxInt i => [i]
                          | IdxNone => []
                          end in
               t <- gets table ;;
               match t with
               | None => raise AttributeError
               | Some tbl =>
                   emit (EvTake tbl idx) ;;;
                   rows <- emb_rows tbl ;;
                   taken <- lift (store_take rows idx) ;;
                   ret (ArgList (map (fun r => ImPath (im_file r)) taken))
               end
           end ;;
    ret match img with
        | ArgList l => l
        | ArgStr f => [ImPath f]
        | ArgArray a => [ImArray a]
        | ArgNone => []
        end.

Definition get_similar (img : imgs_arg) (idx : idx_arg) (limit : Z)
  : M (list (hit batch)) :=
  img <- _check_imgs_or_idxs img idx ;;
  query (ArgList img) limit.

(** *** Explorer.similarity_index *)

(** [df.query(f'_distance <= {max_dist}')]: the formatted bound reads
    back as the same float, [inf] included (a name the query resolves);
    [nan] is a name the expression cannot resolve. *)
Definition df_query_distance_le (max_dist : float) (df : list (hit batch))
  : result (list (hit batch)) :=
  if is_nan max_dist
  then Raise (NameError "name 'nan' is not defined")
  else Ok (List.filter (fun h => (_distance h <=? max_dist)%float) df).

(** [l[i]] *)
Definition getitem {A} (l : list A) (i : nat) : M A :=
  match l !! i with
  | Some x => ret x
  | None => raise IndexError
  end.

(** [_yield_sim_idx], as consumed by [sim_table.add]: one record per
    [i] in [range(len(embeddings))]. *)
Fixpoint _yield_sim_idx (tbl : string) (max_dist : float) (top_k : Z)
         (im_files : list string) (embeddings : list tensor)
         (range : list nat) : M (list sim_row) :=
  match range with
  | [] => ret []
  | i :: range' =>
      e <- getitem embeddings i ;;
      df <- search tbl e top_k ;;
      sim <- lift (df_query_distance_le max_dist df) ;;
      f <- getitem im_files i ;;
      rest <- _yield_sim_idx tbl max_dist top_k im_files embeddings range' ;;
      ret ({| sim_idx := Z.of_nat i; sim_im_file := f;
              sim_count := Z.of_nat (length sim);
              sim_im_files := map (fun h => im_file (hit_row h)) sim |}
             :: rest)
  end.

(** The two assignments to [top_k]: a fraction of the [n] rows, rounded
    towards zero, or all the rows when [top_k] is falsy; at least 1. *)
Definition top_k_limit (top_k : option float) (n : Z) : result Z :=
  match (match top_k with
         | Some k =>
             if PyFloat.truthy k
             then match PyFloat.mul_int k n with
                  | Ok p => PyFloat.to_int p
                  | Raise e => Raise e
                  end
             else Ok n
         | None => Ok n
         end) with
  | Ok top_k => Ok (Z.max top_k 1)
  | Raise e => Raise e
  end.

(** The messages of the two validation errors are kept up to their
    formatted suffix ("Got ..."). *)
Definition similarity_index (max_dist : float) (top_k : option float)
           (force : bool) : M (list sim_row) :=
  t <- gets table ;;
  match t with
  | None =>
      raise (ValueError "Table is not created. Please create the table first.")
  | Some tbl =>
      cached <- gets sim_index ;;
      match cached, force with
      | Some h, false => sim_to_arrow h
      | _, _ =>
          match top_k with
          | Some k =>
              if PyFloat.truthy k && negb ((k <=? 1)%float && (0 <=? k)%float)
              then raise (ValueError "top_k must be between 0.0 and 1.0.")
              else ret tt
          | None => ret tt
          end ;;;
          (if (max_dist <? 0)%float
           then raise (ValueError "max_dist must be greater than 0.")
           else ret tt) ;;;
          n <- table_len tbl ;;
          top_k <- lift (top_k_limit top_k n) ;;
          features <- (emit (EvScan tbl) ;;; emb_rows tbl) ;;
          let im_files := map im_file features in
          let embeddings := map vector features in
          name <- gets sim_idx_table_name ;;
          sim_table <- create_table name (SimTable []) ;;
          rows <- _yield_sim_idx tbl max_dist top_k im_files embeddings
                                 (seq 0 (length embeddings)) ;;
          add_sim sim_table rows ;;;
          set_sim_index sim_table ;;;
          sim_to_arrow sim_table
      end
  end.

End WithCollaborators.
End Explorer.

(** ** A concrete set of collaborators

    An exact store (squared Euclidean distance, nearest first, ties in table
    order) and a toy model, to run the code above on concrete inputs. *)

Module Sample.
Import Explorer.

Fixpoint diff (a b : tensor) : tensor :=
  match a, b with
  | x :: a', y :: b' => (x - y)%float :: diff a' b'
  | _, _ => []
  end.

Definition l2 (a b : tensor) : float :=
  fold_left (fun acc d => (acc + d * d)%float) (diff a b) 0%float.

Fixpoint tensor_add (a b : tensor) : tensor :=
  match a, b with
  | x :: a', y :: b' => f32_add x y :: tensor_add a' b'
  | _, _ => []
  end.

(** A mean over the rows of a stack: the rows are summed from zero, in
    order, and the sum is divided by their number, component by component,
    every operation rounded to binary32. *)
Definition mean0 (m : list tensor) : tensor :=
  match m with
  | [] => []
  | t :: _ =>
      map (fun s => f32_div s (f32_of_nat (length m)))
          (fold_left tensor_add m (map (fun _ => 0%float) t))
  end.

Fixpoint insert_hit {B} (h : hit B) (l : list (hit B)) : list (hit B) :=
  match l with
  | [] => [h]
  | h' :: l' =>
      if (_distance h' <=? _distance h)%float then h' :: insert_hit h l'
      else h :: l
  end.

Definition nearest {B} (rows : list (emb_row B)) (q : tensor) (limit : Z)
  : result (list (hit B)) :=
  if limit <=? 0 then Raise StoreError
  else
    Ok (firstn (Z.to_nat limit)
          (fold_right insert_hit []
             (map (fun r => {| hit_row := r; _distance := l2 q (vector r) |})
                  rows))).

Fixpoint take_rows {B} (rows : list (emb_row B)) (idx : list Z)
  : result (list (emb_row B)) :=
  match idx with
  | [] => Ok []
  | i :: idx' =>
      if i <? 0 then Raise StoreError
      else match rows !! Z.to_nat i, take_rows rows idx' with
           | Some r, Ok rs => Ok (r :: rs)
           | _, _ => Raise StoreError
           end
  end.

(** The toy model: a path embeds as (its length, the code of its first
    character); an in-memory image as (its height, 0). *)
Definition embed_one (i : image) : tensor :=
  match i with
  | ImPath f =>
      [ float_of_nat (String.length f);
        float_of_nat match f with
                     | EmptyString => 0
                     | String c _ => nat_of_ascii c
                     end ]
  | ImArray a => [ float_of_nat (length a); 0%float ]
  end.

#[export] Instance collaborators : Collaborators := {|
  batch := string;
  data_info := list (string * split_paths);
  check_det_dataset d :=
    Ok [("train", PathList [d ++ "/a.jpg"; d ++ "/bb.jpg"]);
        ("val", OnePath (d ++ "/c.jpg"))];
  data_info_get info split :=
    snd <$> List.find (fun kv => String.eqb (fst kv) split) info;
  explorer_dataset choice _ _ := Ok choice;
  batch_pop _ b := b;
  batch_im_file b := b;
  sanitize_batch b _ := b;
  model_task := "detect";
  model_embed imgs := Ok (map embed_one imgs);
  torch_mean0 := mean0;
  store_search := nearest;
  store_filter rows q := Ok (List.filter (fun r => String.eqb (im_file r) q) rows);
  store_take := take_rows
|}.

Definition row (f : string) (v : tensor) : emb_row string :=
  {| im_file := f; labels := f; vector := v |}.

(** An Explorer whose table [name] holds [rows], freshly built. *)
Definition built (name : string) (w : nat) (rows : list (emb_row string))
  : state :=
  {| db := {[ name := EmbTable w rows ]}; table_name := name;
     data := Some (name ++ ".yaml"); choice_set := None;
     sim_index := None; table := Some name; trace := [] |}.

End Sample.

(** ** Vocabulary of the statements *)

Module Vocabulary.

(** [c in s] for a character. *)
Fixpoint has_char (c : ascii) (s : string) : bool :=
  match s with
  | EmptyString => false
  | String x s' => Ascii.eqb x c || has_char c s'
  end.

(** No parenthesis in [s]. *)
Definition no_paren (s : string) : bool :=
  negb (has_char "(" s) && negb (has_char ")" s).

(** The clean-up of a declared type: "|" becomes "or", then "optional"
    goes, then ", " goes. *)
Definition clean_type (t : string) : string :=
  Py.replace (Py.replace (Py.replace t "|" "or") "optional" "") ", " "".

(** The text up to the first occurrence of [sub]. *)
Definition before_first (s sub : string) : string :=
  hd "" (Py.split s sub).

(** Every colon replaced by " -". *)
Definition escape_colons (s : string) : string := Py.replace s ":" " -".

End Vocabulary.

Module ExplorerVocabulary.
Import Explorer.

(** [0.0 <= k <= 1.0] *)
Definition in_unit_interval (k : float) : bool :=
  ((k <=? 1) && (0 <=? k))%float.

(** A [top_k] argument outside [0, 1]. *)
Definition top_k_out_of_range (top_k : option float) : bool :=
  match top_k with
  | Some k => negb (in_unit_interval k)
  | None => false
  end.

(** [max(int(t * n), 1)] *)
Definition fraction_limit (t : float) (n : Z) : result Z :=
  match PyFloat.mul_int t n with
  | Ok p => match PyFloat.to_int p with
            | Ok k => Ok (Z.max k 1)
            | Raise e => Raise e
            end
  | Raise e => Raise e
  end.

(** The components [j] of the rows of a stack. *)
Definition column (j : nat) (m : list tensor) : list float :=
  map (fun t => nth j t 0%float) m.

(** [s] is a binary32 sum of the values [l]: they are added up in some
    order and grouping, zeros (the initial value of an accumulator)
    possibly among them, every addition rounded to binary32. *)
Inductive f32_sum_of : list float -> float -> Prop :=
| f32_sum_zero : f32_sum_of [] 0%float
| f32_sum_one (x : float) : f32_sum_of [x] x
| f32_sum_add (l1 l2 l : list float) (s1 s2 : float) :
    f32_sum_of l1 s1 -> f32_sum_of l2 s2 ->
    Permutation (l1 ++ l2)%list l ->
    f32_sum_of l (f32_add s1 s2).

(** [m] is a binary32 arithmetic mean of the values [l]: a binary32 sum
    of them divided by their number, or multiplied by the reciprocal of
    their number, in binary32. *)
Definition is_f32_mean (l : list float) (m : float) : Prop :=
  exists s,
    f32_sum_of l s /\
    (m = f32_div s (f32_of_nat (length l)) \/
     m = f32_mul s (f32_div 1 (f32_of_nat (length l)))).

(** [mean] computes the mean over the rows of every stack, as
    [torch.mean(m, 0)] does: the result has the width of the rows, and its
    component [j] is a binary32 arithmetic mean of the components [j] of
    the rows. *)
Definition means_rows (mean : list tensor -> tensor) : Prop :=
  forall m : list tensor,
    torch_stack m = Ok m ->
    length (mean m) = length (hd [] m) /\
    forall j, (j < length (hd [] m))%nat ->
              is_f32_mean (column j m) (nth j (mean m) 0%float).

(** The Python floats 0.2 and -0.1. *)
Definition f0_2 : float := 0x1.999999999999ap-3%float.
Definition fm0_1 : float := (-0x1.999999999999ap-4)%float.

Section WithCollaborators.
Context `{C : Collaborators}.

(** The state [s] after the calls [evs], nothing else changed. *)
Definition log (s : state) (evs : list event) : state :=
  {| db := db s; table_name := table_name s; data := data s;
     choice_set := choice_set s; sim_index := sim_index s;
     table := table s; trace := trace s ++ evs |}.

(** The searches among the calls: query vector and limit. *)
Definition searches (evs : list event) : list (tensor * Z) :=
  omap (fun ev => match ev with
                  | EvSearch _ q l => Some (q, l)
                  | _ => None
                  end) evs.

(** The similarity record of row [r] at position [i], given the hits
    its self-query returned: those within [max_dist] are counted and
    listed, the row's own image like any other. *)
Definition sim_record (max_dist : float) (i : nat) (r : emb_row batch)
           (hits : list (hit batch)) : sim_row :=
  let kept := List.filter (fun h => (_distance h <=? max_dist)%float) hits in
  {| sim_idx := Z.of_nat i;
     sim_im_file := im_file r;
     sim_count := Z.of_nat (length kept);
     sim_im_files := map (fun h => im_file (hit_row h)) kept |}.

(** Every self-query of the table succeeds in the store. *)
Definition self_queries_ok (rows : list (emb_row batch)) (L : Z) : bool :=
  forallb (fun r => negb (is_raise (store_search rows (vector r) L))) rows.

(** The number of hits within [max_dist] that are not row [r] itself. *)
Definition count_others (max_dist : float) (r : emb_row batch)
           (hits : list (hit batch)) : Z :=
  Z.of_nat
    (length
       (List.filter (fun h => (_distance h <=? max_dist)%float
                         && negb (String.eqb (im_file (hit_row h)) (im_file r)))
               hits)).

(** The search call of the self-query of position [i]. *)
Definition self_query (tbl : string) (rows : list (emb_row batch))
           (L : Z) (i : nat) : event :=
  EvSearch tbl (nth i (map vector rows) []) L.

(** The state after [similarity_index] created its (empty) table. *)
Definition sim_table_created (s : state) (tbl : string) : state :=
  {| db := <[sim_idx_table_name s := SimTable []]> (db s);
     table_name := table_name s; data := data s;
     choice_set := choice_set s; sim_index := sim_index s;
     table := table s;
     trace := trace s ++ [EvScan tbl; EvCreateTable (sim_idx_table_name s)] |}.

(** The state after [similarity_index] stored the records [recs]. *)
Definition sim_table_stored (s : state) (recs : list sim_row) : state :=
  {| db := <[sim_idx_table_name s := SimTable recs]> (db s);
     table_name := table_name s; data := data s;
     choice_set := choice_set s;
     sim_index := Some (sim_idx_table_name s);
     table := table s;
     trace := trace s ++ [EvAdd (sim_idx_table_name s) (length recs)] |}.

(** The run [run] of [similarity_index] from state [s] issued the
    self-queries of the rows in table order, each with limit [L]: those
    of a first part of the table if it raised, all of them if not. *)
Definition issues_self_queries (s : state)
           (run : result (list sim_row) * state)
           (rows : list (emb_row batch)) (L : Z) : Prop :=
  exists evs k,
    trace (snd run) = (trace s ++ evs)%list /\
    searches evs = firstn k (map (fun r => (vector r, L)) rows) /\
    (is_raise (fst run) = false ->
     searches evs = map (fun r => (vector r, L)) rows).

(** A partial-correctness triple of the state monad: from a state where
    [P] holds, a run of [m] that returns [a] ends in a state where [Q a]
    holds. *)
Definition ensures {A} (P : state -> Prop) (m : M A)
           (Q : A -> state -> Prop) : Prop :=
  forall s, P s -> forall a s', m s = (Ok a, s') -> Q a s'.

(** The name of the table is never reassigned. *)
Definition named (n : string) (s : state) : Prop := table_name s = n.

(** [idx if isinstance(idx, list) else [idx]] *)
Definition indexes (idx : idx_arg) : list Z :=
  match idx with
  | IdxList l => l
  | IdxInt i => [i]
  | IdxNone => []
  end.

(** The paths of the rows a lookup returned. *)
Definition paths_of (rows : list (emb_row batch)) : list image :=
  map (fun r => ImPath (im_file r)) rows.

(** All the vectors have [d] components. *)
Definition all_width (d : nat) (ts : list tensor) : bool :=
  forallb (fun t => (length t =? d)%nat) ts.


End WithCollaborators.
End ExplorerVocabulary.

(** ** Concrete inputs *)

Module Examples.
Import Explorer ExplorerVocabulary Sample.

(** Two images far apart (squared distance 25). *)
Definition two_rows : list (emb_row string) :=
  [row "a.jpg" [0; 0]%float; row "b.jpg" [3; 4]%float].

Definition ten_rows : list (emb_row string) :=
  map (fun i => row ("im" ++ String (ascii_of_nat (48 + i)) ".jpg")
                    [float_of_nat i; 0%float])
      (seq 0 10).

(** No table yet. *)
Definition fresh : state := init ∅ "coco128.yaml" "coco128".

(** A table persisted by an earlier session, not opened yet. *)
Definition persisted : state :=
  init {[ "coco128" := EmbTable 2 two_rows ]} "coco128.yaml" "coco128".

(** The table built, no similarity index. *)
Definition built2 : state := built "coco128" 2 two_rows.
Definition built10 : state := built "coco128" 2 ten_rows.

(** The similarity index of [built2] for [max_dist = 0.2]. *)
Definition indexed_rows : list sim_row :=
  [ {| sim_idx := 0; sim_im_file := "a.jpg"; sim_count := 1;
       sim_im_files := ["a.jpg"] |};
    {| sim_idx := 1; sim_im_file := "b.jpg"; sim_count := 1;
       sim_im_files := ["b.jpg"] |} ].

(** The table built and the similarity index computed. *)
Definition indexed : state := snd (similarity_index f0_2 None true built2).

Definition two_images : list image := [ImPath "a.jpg"; ImPath "bbbbb.jpg"].

End Examples.

(** ** docs/build_tables.py: the helpers the loop does not call *)

Module BuildTablesRest.

(** [l[lo:hi]] on a list. *)
Definition slice_list {A} (l : list A) (lo hi : Z) : list A :=
  let n := Z.of_nat (length l) in
  let a := Py.clamp_index n lo in
  let b := Py.clamp_index n hi in
  firstn (Z.to_nat (b - a)) (skipn (Z.to_nat a) l).

(** [l.index(x)] on a list of (line number, title) pairs. *)
Fixpoint index_of_section (x : Z * string) (l : list (Z * string))
  : option nat :=
  match l with
  | [] => None
  | y :: l' =>
      if (fst x =? fst y) && String.eqb (snd x) (snd y) then Some 0%nat
      else option_map S (index_of_section x l')
  end.

(** The loop of [section_span]: the line number of the first title that
    starts with [next_at], 0 when there is none. *)
Fixpoint first_span (next_at : string) (l : list (Z * string)) : Z :=
  match l with
  | [] => 0
  | (line_num, title) :: l' =>
      if Py.startswith title next_at then line_num
      else first_span next_at l'
  end.

Definition section_span (section : Z * string)
           (section_list : list (Z * string)) (lvl : nat) : result (Z * Z) :=
  match index_of_section section section_list with
  | None => Raise (ValueError "is not in list")
  | Some i =>
      let idx := S i in
      let next_at := Py.repeat_str "#" lvl ++ " " in
      Ok (fst section, first_span next_at (skipn idx section_list))
  end.

(** [any(l)] on a list of strings: some string is not empty. *)
Definition any_str (l : list string) : bool :=
  existsb (fun x => negb (String.eqb x "")) l.

Definition has_subsections (txt_data : list string) (span : Z * Z)
           (next_lvl : nat) : bool :=
  let s := Py.repeat_str "#" next_lvl ++ " " in
  let '(s0, s1) := span in
  any_str (List.filter (fun x => Py.startswith x s)
                       (slice_list txt_data s0 s1)).

End BuildTablesRest.

Module BuildTablesVocabulary.
Import Py.

(** A string that [lstrip] leaves alone: empty, or starting with a
    character that is kept. *)
Definition lstripped (s chars : string) : Prop :=
  match s with
  | EmptyString => True
  | String c _ => in_chars c chars = false
  end.

End BuildTablesVocabulary.


(** ** explorer.py: plot_similarity_index *)

Module ExplorerPlots.
Import Explorer.

Section WithCollaborators.
Context `{C : Collaborators}.

(** [plot_similarity_index]: the value is the pair [(indices, sim_count)]
    the method hands to [plt.bar]. *)
Definition plot_similarity_index (max_dist : float) (top_k : option float)
           (force : bool) : M (list Z * list Z) :=
  bind (similarity_index max_dist top_k force) (fun sim_idx =>
    let sim_count := map sim_count sim_idx in
    let indices := map Z.of_nat (seq 0 (length sim_count)) in
    ret (indices, sim_count)).

End WithCollaborators.
End ExplorerPlots.

(** ** Collaborators that can fail

    As [Sample], with a dataset description that lists an empty file name
    and has an empty split, a dataset that cannot be found, and a model
    that cannot read a file without a name. *)

Module Unreliable.
Import Explorer Sample.

Definition readable (i : image) : bool :=
  match i with
  | ImPath EmptyString => false
  | _ => true
  end.

Definition collaborators : Collaborators := {|
  batch := string;
  data_info := list (string * split_paths);
  check_det_dataset d :=
    if String.eqb d "" then Raise (ValueError "Dataset not found")
    else Ok [("train", PathList [d ++ "/a.jpg"; ""]); ("val", PathList [])];
  data_info_get info split :=
    snd <$> List.find (fun kv => String.eqb (fst kv) split) info;
  explorer_dataset choice _ _ := Ok choice;
  batch_pop _ b := b;
  batch_im_file b := b;
  sanitize_batch b _ := b;
  model_task := "detect";
  model_embed imgs :=
    if forallb readable imgs then Ok (map embed_one imgs)
    else Raise (ValueError "does not exist");
  torch_mean0 := mean0;
  store_search := nearest;
  store_filter rows q := Ok (List.filter (fun r => String.eqb (im_file r) q) rows);
  store_take := take_rows
|}.

End Unreliable.

(** ** Vocabulary: what an operation may change *)

Module ExplorerFrames.
Import Explorer ExplorerVocabulary.

Section WithCollaborators.
Context `{C : Collaborators}.

(** Every run of [m], whether it returns or raises, takes a state to one
    that [R] relates to it. *)
Definition frames {A} (R : state -> state -> Prop) (m : M A) : Prop :=
  forall s, R s (snd (m s)).

(** Calls were logged, nothing else changed. *)
Definition logs_only (s s' : state) : Prop := exists evs, s' = log s evs.

(** Nothing changed but the contents of table [n] and the log. *)
Definition writes_table (n : string) (s s' : state) : Prop :=
  table_name s' = table_name s /\ data s' = data s /\
  choice_set s' = choice_set s /\ sim_index s' = sim_index s /\
  table s' = table s /\
  forall k, k <> n -> db s' !! k = db s !! k.

(** What [create_embeddings_table] may change: [choice_set], the handle
    [table] (to that of the table named [table_name]), the contents of
    that table, and the log. *)
Definition create_frame (s s' : state) : Prop :=
  table_name s' = table_name s /\ data s' = data s /\
  sim_index s' = sim_index s /\
  (table s' = table s \/ table s' = Some (table_name s)) /\
  forall k, k <> table_name s -> db s' !! k = db s !! k.

(** What [similarity_index] may change: the handle [sim_index] (to that
    of the table named [sim_idx_table_name]), the contents of that table,
    and the log. *)
Definition index_frame (s s' : state) : Prop :=
  table_name s' = table_name s /\ data s' = data s /\
  choice_set s' = choice_set s /\ table s' = table s /\
  (sim_index s' = sim_index s \/
   sim_index s' = Some (sim_idx_table_name s)) /\
  forall k, k <> sim_idx_table_name s -> db s' !! k = db s !! k.

(** [R], for the runs that start where [f] is [x]. *)
Definition given {X} (f : state -> X) (x : X) (R : state -> state -> Prop)
           (s s' : state) : Prop :=
  f s = x -> R s s'.

(** The handles the object holds are those of its own two tables. *)
Definition own_handles (s : state) : Prop :=
  (table s = None \/ table s = Some (table_name s)) /\
  (sim_index s = None \/ sim_index s = Some (sim_idx_table_name s)).

(** [choice_set if isinstance(choice_set, list) else [choice_set]] *)
Definition choice_of (paths : split_paths) : list string :=
  match paths with PathList l => l | OnePath p => [p] end.

(** A dataset item as [_yield_batches] stores it: the excluded keys
    popped, then sanitized. *)
Definition stored_item (info : data_info) (b : batch) : batch :=
  sanitize_batch (fold_left (fun b k => batch_pop k b) exclude_keys b) info.

(** [model.embed(f)[0]] *)
Definition embedding_of (f : string) : option tensor :=
  match model_embed [ImPath f] with
  | Ok (v :: _) => Some v
  | _ => None
  end.

(** The row of one dataset item. *)
Definition row_of (info : data_info) (b : batch) : option (emb_row batch) :=
  match embedding_of (batch_im_file (stored_item info b)) with
  | Some v => Some {| im_file := batch_im_file (stored_item info b);
                      labels := stored_item info b; vector := v |}
  | None => None
  end.

(** The rows of a dataset, when the model embeds every item. *)
Fixpoint rows_of (info : data_info) (dataset : list batch)
  : option (list (emb_row batch)) :=
  match dataset with
  | [] => Some []
  | b :: rest =>
      match row_of info b, rows_of info rest with
      | Some r, Some rs => Some (r :: rs)
      | _, _ => None
      end
  end.

(** The calls to the model the loop of [_yield_batches] makes. *)
Definition embed_calls (info : data_info) (dataset : list batch)
  : list event :=
  map (fun b => EvEmbed [ImPath (batch_im_file (stored_item info b))]) dataset.

(** The state once [create_embeddings_table] has created its (empty)
    table: the split is recorded, the dataset was checked and loaded and
    its first item [b0] embedded for the width [w]. *)
Definition table_created (s : state) (d : string) (choice : list string)
           (b0 : batch) (w : nat) : state :=
  {| db := <[table_name s := EmbTable w []]> (db s);
     table_name := table_name s; data := data s;
     choice_set := Some choice; sim_index := sim_index s;
     table := table s;
     trace := trace s ++ [EvCheckDataset d; EvLoadDataset choice;
                          EvEmbed [ImPath (batch_im_file b0)];
                          EvCreateTable (table_name s)] |}.

(** The state once the rows are stored and the handle assigned. *)
Definition table_built (s : state) (d : string) (choice : list string)
           (b0 : batch) (w : nat) (calls : list event)
           (rows : list (emb_row batch)) : state :=
  {| db := <[table_name s := EmbTable w rows]> (db s);
     table_name := table_name s; data := data s;
     choice_set := Some choice; sim_index := sim_index s;
     table := Some (table_name s);
     trace := trace s ++ [EvCheckDataset d; EvLoadDataset choice;
                          EvEmbed [ImPath (batch_im_file b0)];
                          EvCreateTable (table_name s)]
                      ++ calls ++ [EvAdd (table_name s) (length rows)] |}.

(** No table to reuse, or a forced rebuild. *)
Definition rebuilds (force : bool) (s : state) : Prop :=
  force = true \/ (table s = None /\ db s !! table_name s = None).

(** The images [_check_imgs_or_idxs] makes of its [img] argument. *)
Definition as_images (img : imgs_arg) : list image :=
  match img with
  | ArgList l => l
  | ArgStr f => [ImPath f]
  | ArgArray a => [ImArray a]
  | ArgNone => []
  end.

End WithCollaborators.
End ExplorerFrames.

(** ** Concrete inputs for the failing runs *)

Module FailingExamples.
Import Explorer.

(** No table yet, over the collaborators that can fail. *)
Definition fresh : state_of string := init ∅ "coco128.yaml" "coco128".

(** No table and a dataset that cannot be found. *)
Definition lost : state_of string := init ∅ "" "".

(** A table of an earlier session is there. *)
Definition old_rows : list (emb_row string) :=
  [Sample.row "old.jpg" [1; 1]%float].
Definition stale : state_of string :=
  init {[ "coco128" := EmbTable 2 old_rows ]} "coco128.yaml" "coco128".

(** An object whose [data] was reset to [None]. *)
Definition no_data : state_of string :=
  {| db := ∅; table_name := "coco128"; data := None; choice_set := None;
     sim_index := None; table := None; trace := [] |}.

(** What the dataset check of [Unreliable] answers for "coco128.yaml". *)
Definition train : list string := ["coco128.yaml/a.jpg"; ""].
Definition info : list (string * split_paths) :=
  [("train", PathList train); ("val", PathList [])].

End FailingExamples.

(** ** Concrete inputs for the builds *)

Module BuildExamples.
Import Explorer Sample.

(** What the dataset check of [Sample] answers for "coco128.yaml". *)
Definition train : list string :=
  ["coco128.yaml/a.jpg"; "coco128.yaml/bb.jpg"].
Definition info : list (string * split_paths) :=
  [("train", PathList train); ("val", OnePath "coco128.yaml/c.jpg")].

(** The rows of the split "train". *)
Definition train_rows : list (emb_row string) :=
  map (fun f => row f (embed_one (ImPath f))) train.

End BuildExamples.

(** * Facts about the string functions *)

Section PyFacts.
Import Py Vocabulary.

Lemma prefix_cons (p : string) (c : ascii) (s : string) :
  String.prefix p (String c s) =
  match p with
  | EmptyString => true
  | String a p' => if Ascii.ascii_dec a c then String.prefix p' s else false
  end.
Proof. destruct p; reflexivity. Qed.

(** A character that does not occur in [p] stops every match of [p]. *)
Lemma prefix_app_char (p x rest : string) (c : ascii) :
  in_chars c p = false ->
  String.prefix p x = false ->
  String.prefix p (x ++ String c rest) = false.
Proof.
  revert x. induction p as [|a p IH]; intros x Hc Hp.
  - destruct x; discriminate.
  - unfold in_chars in Hc. simpl in Hc.
    apply orb_false_elim in Hc as [Hca Hc].
    destruct x as [|b x]; simpl.
    + destruct (Ascii.ascii_dec a c) as [->|]; [|reflexivity].
      rewrite Ascii.eqb_refl in Hca. discriminate.
    + simpl in Hp. destruct (Ascii.ascii_dec a b); [|reflexivity].
      apply IH; assumption.
Qed.

Lemma hd_split_cons (c : ascii) (l : list string) :
  hd "" (match l with
         | x :: xs => String c x :: xs
         | [] => [String c ""]
         end) = String c (hd "" l).
Proof. destruct l; reflexivity. Qed.

(** The first field of a split runs over a prefix that holds no
    separator and ends in a character foreign to the separator. *)
Lemma hd_split_app_char (sep a rest : string) (c : ascii) :
  in_chars c sep = false ->
  contains sep a = false ->
  hd "" (split_go sep 0 (a ++ String c rest)) =
  a ++ String c (hd "" (split_go sep 0 rest)).
Proof.
  intros Hc. induction a as [|b a IH]; intros Ha.
  - simpl in Ha. apply orb_false_elim in Ha as [Hp _].
    change ("" ++ String c rest) with (String c rest).
    cbn [split_go].
    pose proof (prefix_app_char sep "" rest c Hc Hp) as Hq.
    change ("" ++ String c rest) with (String c rest) in Hq.
    rewrite Hq. apply hd_split_cons.
  - cbn [contains] in Ha. apply orb_false_elim in Ha as [Hp Ha].
    change (String b a ++ String c rest) with (String b (a ++ String c rest)).
    cbn [split_go].
    pose proof (prefix_app_char sep (String b a) rest c Hc Hp) as Hq.
    change (String b a ++ String c rest)
      with (String b (a ++ String c rest)) in Hq.
    rewrite Hq, hd_split_cons, (IH Ha). reflexivity.
Qed.

Lemma str_app_cons (x : ascii) (a b : string) :
  String x a ++ b = String x (a ++ b).
Proof. reflexivity. Qed.

Lemma str_app_nil_l (b : string) : "" ++ b = b.
Proof. reflexivity. Qed.

Lemma str_app_assoc (a b c : string) : (a ++ b) ++ c = a ++ (b ++ c).
Proof.
  induction a as [|x a IH]; [reflexivity|].
  rewrite !str_app_cons. now rewrite IH.
Qed.

Lemma str_app_nil_r (a : string) : a ++ "" = a.
Proof.
  induction a as [|x a IH]; [reflexivity|].
  rewrite str_app_cons. now rewrite IH.
Qed.

Lemma str_length_app (a b : string) :
  String.length (a ++ b) = (String.length a + String.length b)%nat.
Proof.
  induction a as [|x a IH]; [reflexivity|].
  rewrite str_app_cons. simpl. now rewrite IH.
Qed.

Lemma prefix_char (o c : ascii) (s : string) :
  String.prefix (String o "") (String c s) =
  if Ascii.ascii_dec o c then true else false.
Proof.
  simpl. destruct (Ascii.ascii_dec o c); [destruct s|]; reflexivity.
Qed.

(** Replacing a one-character pattern works character by character. *)
Lemma replace_char_app (o : ascii) (new a b : string) :
  replace_go (String o "") new 0 (a ++ b) =
  replace_go (String o "") new 0 a ++ replace_go (String o "") new 0 b.
Proof.
  induction a as [|c a IH]; [reflexivity|].
  change (String c a ++ b) with (String c (a ++ b)).
  cbn [replace_go]. rewrite !prefix_char.
  cbn [String.length Nat.sub].
  destruct (Ascii.ascii_dec o c); rewrite IH.
  - now rewrite str_app_assoc.
  - reflexivity.
Qed.

Lemma has_char_app (c : ascii) (a b : string) :
  has_char c (a ++ b) = has_char c a || has_char c b.
Proof.
  induction a as [|x a IH]; [reflexivity|].
  rewrite str_app_cons. simpl. now rewrite IH, orb_assoc.
Qed.

Lemma has_char_replace (c o : ascii) (new s : string) :
  has_char c new = false ->
  has_char c s = false ->
  has_char c (replace_go (String o "") new 0 s) = false.
Proof.
  intros Hnew. induction s as [|x s IH]; intros Hs; [reflexivity|].
  simpl in Hs. apply orb_false_elim in Hs as [Hx Hs].
  cbn [replace_go]. rewrite prefix_char. cbn [String.length Nat.sub].
  destruct (Ascii.ascii_dec o x).
  - rewrite has_char_app, Hnew, (IH Hs). reflexivity.
  - simpl. rewrite Hx, (IH Hs). reflexivity.
Qed.

(** [find] of a character that first occurs right after [a]. *)
Lemma find_from_app_char (c : ascii) (a rest : string) (i : Z) :
  has_char c a = false ->
  find_from (String c "") (a ++ String c rest) i = i + len a.
Proof.
  revert i. induction a as [|x a IH]; intros i Ha.
  - change ("" ++ String c rest) with (String c rest).
    cbn [find_from]. rewrite prefix_char.
    destruct (Ascii.ascii_dec c c); [|contradiction].
    unfold len. simpl. lia.
  - simpl in Ha. apply orb_false_elim in Ha as [Hx Ha].
    change (String x a ++ String c rest) with (String x (a ++ String c rest)).
    cbn [find_from]. rewrite prefix_char.
    destruct (Ascii.ascii_dec c x) as [<-|].
    + rewrite Ascii.eqb_refl in Hx. discriminate.
    + rewrite (IH _ Ha). unfold len. cbn [String.length]. lia.
Qed.

Lemma substring_app_skip (a b : string) (n : nat) :
  substring (String.length a) n (a ++ b) = substring 0 n b.
Proof.
  induction a as [|x a IH]; [reflexivity|].
  rewrite str_app_cons. simpl. exact IH.
Qed.

Lemma substring_prefix_app (a b : string) :
  substring 0 (String.length a) (a ++ b) = a.
Proof.
  induction a as [|x a IH].
  - destruct b; reflexivity.
  - rewrite str_app_cons. simpl. now rewrite IH.
Qed.

Lemma substring_all (a : string) : substring 0 (String.length a) a = a.
Proof.
  rewrite <- (str_app_nil_r a) at 2. apply substring_prefix_app.
Qed.

(** [s[len(a):len(a)+len(b)]] of [a ++ b ++ c] is [b]. *)
Lemma slice_middle (a b c : string) :
  slice (a ++ b ++ c) (len a) (len a + len b) = b.
Proof.
  unfold slice, clamp_index, len.
  rewrite !str_length_app, !Nat2Z.inj_add.
  destruct (Z.ltb_spec (Z.of_nat (String.length a)) 0); [lia|].
  destruct (Z.ltb_spec
              (Z.of_nat (String.length a) + Z.of_nat (String.length b)) 0);
    [lia|].
  rewrite Z.min_l, Z.min_l by lia.
  rewrite Nat2Z.id.
  replace (Z.to_nat _) with (String.length b) by lia.
  rewrite substring_app_skip. apply substring_prefix_app.
Qed.

(** [s[len(a):]] of [a ++ b] is [b]. *)
Lemma slice_from_app (a b : string) : slice_from (a ++ b) (len a) = b.
Proof.
  unfold slice_from, clamp_index, len.
  rewrite !str_length_app, !Nat2Z.inj_add.
  destruct (Z.ltb_spec (Z.of_nat (String.length a)) 0); [lia|].
  rewrite Z.min_l by lia. rewrite Nat2Z.id.
  replace (Z.to_nat _) with (String.length b) by lia.
  rewrite substring_app_skip. apply substring_all.
Qed.

Lemma in_chars_false_has_char (chars s : string) :
  (forall c, in_chars c chars = true -> has_char c s = false) ->
  lstrip s chars = s /\ rstrip s chars = s.
Proof.
  induction s as [|x s IH]; intros H; [split; reflexivity|].
  assert (Hx : in_chars x chars = false).
  { destruct (in_chars x chars) eqn:E; [|reflexivity].
    specialize (H x E). simpl in H. now rewrite Ascii.eqb_refl in H. }
  destruct IH as [_ IHr].
  { intros c Hc. specialize (H c Hc). simpl in H.
    now apply orb_false_elim in H. }
  split; simpl.
  - now rewrite Hx.
  - rewrite IHr, Hx. destruct s; reflexivity.
Qed.

Lemma no_paren_elim (s : string) :
  no_paren s = true -> has_char "(" s = false /\ has_char ")" s = false.
Proof.
  unfold no_paren. intros H. apply andb_prop in H as [H1 H2].
  split; [now destruct (has_char "(" s) | now destruct (has_char ")" s)].
Qed.

Lemma no_paren_strip (s : string) :
  no_paren s = true -> strip s ")(" = s.
Proof.
  intros H. apply no_paren_elim in H as [Hl Hr].
  destruct (in_chars_false_has_char ")(" s) as [E1 E2].
  - intros c Hc. unfold in_chars in Hc. simpl in Hc.
    rewrite orb_false_r in Hc. apply orb_prop in Hc as [Hc|Hc];
      apply Ascii.eqb_eq in Hc; subst c; assumption.
  - unfold strip. now rewrite E1, E2.
Qed.

Lemma no_paren_escape (s : string) :
  no_paren s = true -> no_paren (escape_colons s) = true.
Proof.
  intros H. apply no_paren_elim in H as [Hl Hr].
  unfold no_paren, escape_colons, replace.
  rewrite !has_char_replace by (assumption || reflexivity). reflexivity.
Qed.

End PyFacts.

(** * The configuration-table builder *)

Section BuildTablesFacts.
Import Py Vocabulary BuildTables.

(** [extract_type] on a comment with one parenthesised group. *)
Lemma extract_type_group (pre t d : string) :
  no_paren pre = true -> no_paren t = true ->
  extract_type (pre ++ "(" ++ t ++ ")" ++ d) = (clean_type t, strip_ws d).
Proof.
  intros Hpre Ht.
  destruct (no_paren_elim _ Hpre) as [Hpl Hpr].
  destruct (no_paren_elim _ Ht) as [Htl Htr].
  unfold extract_type.
  assert (Hl : find (pre ++ "(" ++ t ++ ")" ++ d) "(" = len pre).
  { unfold find. change ("(" ++ t ++ ")" ++ d) with (String "(" (t ++ ")" ++ d)).
    rewrite find_from_app_char by assumption. lia. }
  assert (Hr : find (pre ++ "(" ++ t ++ ")" ++ d) ")"
               = len pre + len ("(" ++ t)).
  { unfold find.
    replace (pre ++ "(" ++ t ++ ")" ++ d)
      with ((pre ++ "(" ++ t) ++ String ")" d)
      by (now rewrite !str_app_assoc).
    rewrite find_from_app_char.
    - unfold len. rewrite !str_length_app. lia.
    - rewrite !has_char_app, Hpr, Htr. reflexivity. }
  rewrite Hl, Hr.
  replace (pre ++ "(" ++ t ++ ")" ++ d)
    with (pre ++ ("(" ++ t) ++ (")" ++ d)) at 1
    by (now rewrite !str_app_assoc).
  rewrite slice_middle.
  replace (len pre + len ("(" ++ t) + 1)
    with (len (pre ++ "(" ++ t ++ ")"))
    by (unfold len; rewrite !str_length_app; simpl; lia).
  replace (pre ++ "(" ++ t ++ ")" ++ d)
    with ((pre ++ "(" ++ t ++ ")") ++ d)
    by (now rewrite !str_app_assoc).
  rewrite slice_from_app.
  replace (strip ("(" ++ t) ")(") with t; [reflexivity|].
  unfold strip. change ("(" ++ t) with (String "(" t).
  cbn [lstrip]. change (in_chars "(" ")(") with true. cbv iota.
  symmetry. apply (no_paren_strip t Ht).
Qed.

Lemma before_first_group (pre t d : string) :
  contains "http" pre = false -> contains "http" t = false ->
  before_first (pre ++ "(" ++ t ++ ")" ++ d) "http" =
  pre ++ "(" ++ t ++ ")" ++ before_first d "http".
Proof.
  intros Hpre Ht. unfold before_first, split.
  change ("(" ++ t ++ ")" ++ d) with (String "(" (t ++ String ")" d)).
  rewrite hd_split_app_char by (assumption || reflexivity).
  rewrite hd_split_app_char by (assumption || reflexivity).
  reflexivity.
Qed.

Lemma escape_colons_group (pre t d : string) :
  escape_colons (pre ++ "(" ++ t ++ ")" ++ d) =
  escape_colons pre ++ "(" ++ escape_colons t ++ ")" ++ escape_colons d.
Proof.
  unfold escape_colons, replace.
  rewrite !replace_char_app. reflexivity.
Qed.

(** C9 (amended).  For an entry line [entry # pre(t)d] whose comment has
    a first parenthesised group [t] free of parentheses, with no "http" in
    or before the group: the loop body first cuts the whole comment at the
    first "http" and replaces every colon of it by " -", and extracts
    after that.  So the declared type is [t] with its colons replaced by
    " -", then "|" replaced by "or", "optional" removed and ", " removed;
    the description is the text after the closing parenthesis, cut at the
    first "http", its colons replaced by " -", stripped of surrounding
    whitespace. *)
Theorem C9_entry_type_and_description (line entry k v pre t d : string) :
  split line "# " = [entry; pre ++ "(" ++ t ++ ")" ++ d] ->
  split entry ": " = [k; v] ->
  no_paren pre = true -> no_paren t = true ->
  contains "http" pre = false -> contains "http" t = false ->
  parse_entry line =
    Ok (k, v, clean_type (escape_colons t),
        strip_ws (escape_colons (before_first d "http"))).
Proof.
  intros Hline Hentry Hpre Ht Hhp Hht.
  unfold parse_entry. rewrite Hline.
  fold (before_first (pre ++ "(" ++ t ++ ")" ++ d) "http").
  rewrite before_first_group by assumption.
  fold (escape_colons (pre ++ "(" ++ t ++ ")" ++ before_first d "http")).
  rewrite escape_colons_group.
  rewrite extract_type_group by (apply no_paren_escape; assumption).
  rewrite Hentry. reflexivity.
Qed.

Lemma C9_entry_type_and_description_witness :
  parse_entry
    "epochs: 100 # (int | list, optional) epochs: see https://docs.x.y/t"
  = Ok ("epochs", "100 ", "int or list", "epochs - see").
Proof.
  apply (C9_entry_type_and_description
           "epochs: 100 # (int | list, optional) epochs: see https://docs.x.y/t"
           "epochs: 100 " "epochs" "100 " ""
           "int | list, optional" " epochs: see https://docs.x.y/t");
    reflexivity.
Defined.

(** C9, as the specification states it, fails on a group that holds a
    colon: the specification reads the type off the group as written
    ("int:list"), the builder off the comment whose colons are already
    replaced ("int -list"). *)
Lemma C9_counterexample :
  split "imgsz: 640 # (int:list) size of images" "# "
    = ["imgsz: 640 "; "(int:list) size of images"] /\
  parse_entry "imgsz: 640 # (int:list) size of images"
    = Ok ("imgsz", "640 ", "int -list", "size of images") /\
  clean_type "int:list" = "int:list" /\
  "int -list" <> "int:list".
Proof. repeat split; try reflexivity. discriminate. Qed.

(** *** The section loop *)

Lemma collect_app_top (l1 l2 : list string) (h : string)
      (is_sub : bool) (sub_d : nat) (acc : string) :
  section_depth h = 1%nat ->
  collect (l1 ++ h :: l2) is_sub sub_d acc = collect l1 is_sub sub_d acc.
Proof.
  intros Hh. revert is_sub sub_d acc.
  induction l1 as [|line l1 IH]; intros is_sub sub_d acc.
  - cbn [app collect]. rewrite Hh. reflexivity.
  - cbn [app collect].
    destruct (section_depth line =? 0)%nat.
    + destruct (parse_entry line) as [[[[k v] ty] desc]|e];
        [apply IH | reflexivity].
    + destruct (section_depth line =? 1)%nat; [reflexivity | apply IH].
Qed.

Lemma index_of_app (s : string) (pre post : list string) :
  In s pre ->
  exists i, index_of s pre = Some i /\ (i < length pre)%nat /\
            index_of s (pre ++ post) = Some i.
Proof.
  induction pre as [|y pre IH]; intros Hin; [destruct Hin|].
  cbn [app index_of]. destruct (String.eqb_spec s y) as [->|Hne].
  - exists 0%nat. cbn [length]. repeat split; lia.
  - destruct Hin as [->|Hin]; [contradiction|].
    destruct (IH Hin) as (i & E1 & Hi & E2).
    exists (S i). rewrite E1, E2. cbn [length]. repeat split; lia.
Qed.

(** C8 (amended).  A heading of depth 1 that follows a section ends the
    entry collection of that section, whatever the section's own depth:
    the section's text is what it would be if the configuration text
    stopped before that heading.  (A heading of depth 2 or more never ends
    the collection: it opens a sub-group and the loop goes on.) *)
Theorem C8_top_level_heading_ends_section
        (pre post : list string) (h s : string) :
  In s pre ->
  section_depth h = 1%nat ->
  section_table (pre ++ h :: post) s = section_table pre s /\
  (forall (g : string) (rest : list string) is_sub sub_d acc,
      (2 <= section_depth g)%nat ->
      collect (g :: rest) is_sub sub_d acc =
      collect rest true (section_depth g)
              (acc ++ nl
                 ++ repeat_str (repeat_str " " (section_depth g - 1)) 2
                 ++ text_2_key g)).
Proof.
  intros Hin Hh. split.
  - unfold section_table.
    destruct (index_of_app s pre (h :: post) Hin) as (i & E1 & Hi & E2).
    rewrite E1, E2.
    rewrite skipn_app.
    replace (S i - length pre)%nat with 0%nat by lia.
    cbn [skipn]. apply collect_app_top, Hh.
  - intros g rest is_sub sub_d acc Hg. cbn [collect].
    destruct (Nat.eqb_spec (section_depth g) 0); [lia|].
    destruct (Nat.eqb_spec (section_depth g) 1); [lia|].
    reflexivity.
Qed.

Lemma C8_top_level_heading_ends_section_witness :
  section_table
    (["# Train settings"; "epochs: 100 # (int) number of epochs"]
       ++ "# Val/Test settings" :: ["val: True # (bool) validate"])
    "# Train settings"
  = section_table
      ["# Train settings"; "epochs: 100 # (int) number of epochs"]
      "# Train settings".
Proof.
  apply (C8_top_level_heading_ends_section
           ["# Train settings"; "epochs: 100 # (int) number of epochs"]
           ["val: True # (bool) validate"]
           "# Val/Test settings" "# Train settings").
  - left. reflexivity.
  - reflexivity.
Defined.

(** C8, as the specification states it, fails for a recognised section
    of depth 2: the next heading of depth 2 does not end it, and the entry
    that follows that heading lands in the section's text. *)
Lemma C8_counterexample :
  let txt := [ "## Augmentation";
               "hsv_h: 0.015 # (float) image HSV-Hue augmentation";
               "## Tracker";
               "tracker: botsort.yaml # (str) tracker type" ] in
  In "## Augmentation" (sections txt) /\
  section_depth "## Augmentation" = 2%nat /\
  section_depth "## Tracker" = 2%nat /\
  section_table txt "## Augmentation" =
    Ok ("Augmentation: "
          ++ nl ++ "  hsv_h: " ++ nl ++ "    value: 0.015 "
          ++ nl ++ "    type: float"
          ++ nl ++ "    desc: image HSV-Hue augmentation"
          ++ nl ++ "  Tracker: "
          ++ nl ++ "    tracker: " ++ nl ++ "    value: botsort.yaml "
          ++ nl ++ "    type: str"
          ++ nl ++ "    desc: tracker type") /\
  section_table txt "## Augmentation" <>
  section_table (firstn 2 txt) "## Augmentation".
Proof.
  cbv zeta. repeat split; try reflexivity.
  - vm_compute. tauto.
  - vm_compute. discriminate.
Qed.

End BuildTablesFacts.

(** * Python floats *)

Section PyFloatFacts.
Import PyFloat ExplorerVocabulary.

Lemma Prim2SF_zero : Prim2SF 0 = S754_zero false.
Proof. reflexivity. Qed.

Lemma Prim2SF_one : Prim2SF 1 = S754_finite false 4503599627370496 (-52).
Proof. reflexivity. Qed.

(** A float that compares equal to zero lies in [0, 1]. *)
Lemma falsy_in_unit_interval (k : float) :
  truthy k = false -> in_unit_interval k = true.
Proof.
  unfold truthy, in_unit_interval. intros H.
  apply negb_false_iff in H.
  rewrite FloatAxioms.eqb_spec in H. rewrite !FloatAxioms.leb_spec.
  rewrite Prim2SF_zero in *. rewrite Prim2SF_one.
  destruct (Prim2SF k) as [sg|sg| |sg m e]; try destruct sg;
    try discriminate H; reflexivity.
Qed.

Lemma out_of_range_truthy (k : float) :
  in_unit_interval k = false -> truthy k = true.
Proof.
  intros H. destruct (truthy k) eqn:E; [reflexivity|].
  apply falsy_in_unit_interval in E. congruence.
Qed.

(** A positive float is truthy and is at least zero. *)
Lemma positive_truthy (k : float) :
  (0 <? k)%float = true -> truthy k = true /\ (0 <=? k)%float = true.
Proof.
  unfold truthy.
  rewrite FloatAxioms.ltb_spec, FloatAxioms.eqb_spec, FloatAxioms.leb_spec,
    Prim2SF_zero.
  destruct (Prim2SF k) as [sg|sg| |sg m e]; try discriminate;
    destruct sg; try discriminate; intros _; split; reflexivity.
Qed.

(** A bound that is at least zero is not negative and is a number. *)
Lemma nonneg_number (m : float) :
  (0 <=? m)%float = true -> (m <? 0)%float = false /\ is_nan m = false.
Proof.
  unfold is_nan.
  rewrite FloatAxioms.leb_spec, FloatAxioms.ltb_spec, FloatAxioms.eqb_spec,
    Prim2SF_zero.
  destruct (Prim2SF m) as [sg|sg| |sg mm e]; try destruct sg;
    try discriminate; intros _; split; try reflexivity.
  unfold SFeqb, SFcompare.
  rewrite Z.compare_refl, Pos.compare_cont_refl. reflexivity.
Qed.

End PyFloatFacts.

(** * The Explorer *)

Section ExplorerFacts.
Import Explorer ExplorerVocabulary.
Context `{C : Collaborators}.

Ltac run :=
  unfold bind, gets, ret, raise, lift, modify; cbn beta iota.

(** C6.  On an Explorer whose table has not been created, [query],
    [sql_query] and [similarity_index] raise the "Table is not created"
    error for every argument, and leave the state as it was: the object,
    the database, and the list of calls made to the model and the store
    (so no search and no embedding took place). *)
Theorem C6_no_table_raises
        (s : state) (imgs : imgs_arg) (limit : Z) (q : string)
        (max_dist : float) (top_k : option float) (force : bool) :
  table s = None ->
  query imgs limit s
    = (Raise (ValueError "Table is not created. Please create the table first."), s)
  /\ sql_query q s
    = (Raise (ValueError "Table is not created. Please create the table first."), s)
  /\ similarity_index max_dist top_k force s
    = (Raise (ValueError "Table is not created. Please create the table first."), s).
Proof.
  intros Hnone. unfold query, sql_query, similarity_index. run.
  rewrite Hnone. auto.
Qed.

(** C10.  Once a similarity index is cached, [similarity_index] with
    [force=False] returns it before it looks at [max_dist] or [top_k]:
    whatever their values (out of range or negative included) the call
    returns the cached rows, raises nothing and changes nothing. *)
Theorem C10_cached_index_before_validation
        (s : state) (tbl h : string) (cached : list sim_row)
        (max_dist : float) (top_k : option float) :
  table s = Some tbl ->
  sim_index s = Some h ->
  db s !! h = Some (SimTable cached) ->
  similarity_index max_dist top_k false s = (Ok cached, s).
Proof.
  intros Ht Hs Hdb. unfold similarity_index, sim_to_arrow. run.
  rewrite Ht, Hs, Hdb. reflexivity.
Qed.

(** C4 (amended).  When [force] is true or no similarity index is
    cached, [similarity_index] with [top_k] outside [0, 1] or with
    [max_dist < 0] raises at once and leaves the state as it was (no table
    created, no search issued, the stored index untouched); the error is
    one of the two validation errors when the embedding table exists (it
    is the "Table is not created" error otherwise). *)
Theorem C4_validation_raises
        (s : state) (max_dist : float) (top_k : option float) (force : bool) :
  force = true \/ sim_index s = None ->
  top_k_out_of_range top_k = true \/ (max_dist <? 0)%float = true ->
  exists msg,
    similarity_index max_dist top_k force s = (Raise (ValueError msg), s) /\
    (table s <> None ->
     msg = "top_k must be between 0.0 and 1.0." \/
     msg = "max_dist must be greater than 0.").
Proof.
  intros Hfresh Hbad. unfold similarity_index. run.
  destruct (table s) as [tbl|] eqn:Ht.
  2:{ eexists. split; [reflexivity | intros H; now destruct H]. }
  assert (Hskip :
    forall k : M (list sim_row),
      match sim_index s, force with
      | Some h, false => sim_to_arrow h
      | _, _ => k
      end = k).
  { intros k. destruct Hfresh as [-> | ->]; [destruct (sim_index s)|];
      reflexivity. }
  rewrite Hskip. clear Hskip.
  destruct top_k as [k|]; cbn [top_k_out_of_range] in Hbad.
  - destruct (in_unit_interval k) eqn:Hk.
    + destruct Hbad as [Hbad|Hbad]; [discriminate|].
      fold (in_unit_interval k). rewrite Hk, andb_false_r. cbn.
      rewrite Hbad. eexists. split; [reflexivity | auto].
    + fold (in_unit_interval k).
      rewrite Hk, (out_of_range_truthy k Hk). cbn.
      eexists. split; [reflexivity | auto].
  - destruct Hbad as [Hbad|Hbad]; [discriminate|]. cbn.
    rewrite Hbad. eexists. split; [reflexivity | auto].
Qed.

(** C7.  With [force] false, [create_embeddings_table] reuses an
    existing table.  A table held by the object: nothing changes at all.
    A table persisted under the Explorer's table name: the object takes
    the handle of that table, the only call made is [open_table], and the
    database (every table, rows included) is what it was; the dataset is
    not read and the model embeds nothing. *)
Theorem C7_existing_table_reused (s : state) (split : string) :
  (forall h, table s = Some h ->
             create_embeddings_table false split s = (Ok tt, s)) /\
  (forall t, table s = None -> db s !! table_name s = Some t ->
             create_embeddings_table false split s =
             (Ok tt,
              {| db := db s; table_name := table_name s; data := data s;
                 choice_set := choice_set s; sim_index := sim_index s;
                 table := Some (table_name s);
                 trace := trace s ++ [EvOpenTable (table_name s)] |})).
Proof.
  split.
  - intros h Ht. unfold create_embeddings_table. run. now rewrite Ht.
  - intros t Ht Hdb.
    unfold create_embeddings_table, has_table, open_table, has_table,
      set_table, emit.
    run. rewrite Ht. cbn. rewrite Hdb. cbn. rewrite Hdb. reflexivity.
Qed.

(** *** Steps of the state monad *)

Lemma log_nil (s : state) : log s [] = s.
Proof. destruct s. unfold log. cbn. now rewrite app_nil_r. Qed.

Lemma log_log (s : state) (a b : list event) :
  log (log s a) b = log s (a ++ b).
Proof. unfold log. cbn. now rewrite app_assoc. Qed.

Lemma emit_run (ev : event) (s : state) : emit ev s = (Ok tt, log s [ev]).
Proof. reflexivity. Qed.

Lemma emb_rows_run (s : state) (tbl : string) (w : nat)
      (rows : list (emb_row batch)) :
  db s !! tbl = Some (EmbTable w rows) -> emb_rows tbl s = (Ok rows, s).
Proof. intros H. unfold emb_rows. run. now rewrite H. Qed.

Lemma search_run (s : state) (tbl : string) (w : nat)
      (rows : list (emb_row batch)) (q : tensor) (limit : Z) :
  db s !! tbl = Some (EmbTable w rows) ->
  search tbl q limit s =
  (store_search rows q limit, log s [EvSearch tbl q limit]).
Proof.
  intros H. unfold search, bind. rewrite emit_run.
  rewrite (emb_rows_run _ _ w rows) by exact H.
  unfold lift. now destruct (store_search rows q limit).
Qed.

(** *** The handle of the embedding table *)

Lemma ensures_bind {A B} (P : state -> Prop) (m : M A)
      (R : A -> state -> Prop) (k : A -> M B) (Q : B -> state -> Prop) :
  ensures P m R -> (forall a, ensures (R a) (k a) Q) ->
  ensures P (bind m k) Q.
Proof.
  intros Hm Hk s HP b s' Hrun. unfold bind in Hrun.
  destruct (m s) as [[a|e] s1] eqn:Hms; [|discriminate Hrun].
  exact (Hk a s1 (Hm s HP a s1 Hms) b s' Hrun).
Qed.

Lemma ensures_weaken {A} (P P' : state -> Prop) (m : M A)
      (Q : A -> state -> Prop) :
  (forall s, P s -> P' s) -> ensures P' m Q -> ensures P m Q.
Proof. intros HPP Hm s HP. apply Hm, HPP, HP. Qed.

Lemma ensures_assume {A} (fact : Prop) (P : state -> Prop) (m : M A)
      (Q : A -> state -> Prop) :
  (fact -> ensures P m Q) -> ensures (fun s => P s /\ fact) m Q.
Proof. intros H s [HP Hfact]. now apply H. Qed.

Lemma ensures_ret {A} (P : state -> Prop) (a : A) (Q : A -> state -> Prop) :
  (forall s, P s -> Q a s) -> ensures P (ret a) Q.
Proof. intros H s HP b s' [= <- <-]. apply H, HP. Qed.

Lemma ensures_raise {A} (P : state -> Prop) (e : exn)
      (Q : A -> state -> Prop) : ensures P (raise e) Q.
Proof. intros s _ b s' Hrun. discriminate Hrun. Qed.

Lemma ensures_gets {A} (P : state -> Prop) (f : state -> A) :
  ensures P (gets f) (fun a s => P s /\ a = f s).
Proof. intros s HP b s' [= <- <-]. auto. Qed.

Lemma ensures_lift {A} (P : state -> Prop) (r : result A) :
  ensures P (lift r) (fun _ s => P s).
Proof. intros s HP b s' [= _ <-]. exact HP. Qed.

Lemma ensures_first {A} (P : state -> Prop) (xs : list A) :
  ensures P (first xs) (fun _ s => P s).
Proof.
  destruct xs; [apply ensures_raise | apply ensures_ret; auto].
Qed.

Lemma named_emit (n : string) (ev : event) :
  ensures (named n) (emit ev) (fun _ s => named n s).
Proof. intros s HP b s' [= _ <-]. exact HP. Qed.

Lemma named_set_choice_set (n : string) (c : list string) :
  ensures (named n) (set_choice_set c) (fun _ s => named n s).
Proof. intros s HP b s' [= _ <-]. exact HP. Qed.

Lemma named_set_table (n h : string) :
  ensures (named n) (set_table h)
          (fun _ s => table s = Some h /\ named n s).
Proof. intros s HP b s' [= _ <-]. split; [reflexivity | exact HP]. Qed.

Lemma named_embed (n : string) (imgs : list image) :
  ensures (named n) (embed imgs) (fun _ s => named n s).
Proof.
  unfold embed. eapply ensures_bind; [apply named_emit|].
  intros ?. apply ensures_lift.
Qed.

Lemma named_has_table (n name : string) :
  ensures (named n) (has_table name) (fun _ s => named n s).
Proof. intros s HP b s' [= _ <-]. exact HP. Qed.

Lemma named_open_table (n name : string) :
  ensures (named n) (open_table name) (fun h s => h = name /\ named n s).
Proof.
  unfold open_table. eapply ensures_bind; [apply named_emit|]. intros ?.
  eapply ensures_bind; [apply named_has_table|]. intros [|].
  - apply ensures_ret. auto.
  - apply ensures_raise.
Qed.

Lemma named_set_db (n : string) (d : gmap string table_data) :
  ensures (named n) (set_db d) (fun _ s => named n s).
Proof. intros s HP b s' [= _ <-]. exact HP. Qed.

Lemma named_create_table (n name : string) (empty : table_data) :
  ensures (named n) (create_table name empty)
          (fun h s => h = name /\ named n s).
Proof.
  unfold create_table. eapply ensures_bind; [apply named_emit|]. intros ?.
  eapply ensures_bind; [apply ensures_gets|]. intros d.
  apply (ensures_weaken _ (named n)); [intros s [H _]; exact H|].
  eapply ensures_bind; [apply named_set_db|]. intros ?.
  apply ensures_ret. auto.
Qed.

Lemma named_add_emb (n h : string) (rows : list (emb_row batch)) :
  ensures (named n) (add_emb h rows) (fun _ s => named n s).
Proof.
  unfold add_emb. eapply ensures_bind; [apply named_emit|]. intros ?.
  destruct rows as [|r rows]; [apply ensures_raise|].
  eapply ensures_bind; [apply ensures_gets|]. intros d.
  destruct (d !! h) as [[w old|old]|]; try apply ensures_raise.
  destruct (forallb _ (r :: rows)); [|apply ensures_raise].
  apply (ensures_weaken _ (named n)); [intros s [H _]; exact H|].
  apply named_set_db.
Qed.

Lemma named_yield_batches (n : string) (dataset : list batch)
      (info : data_info) (exclude : list string) :
  ensures (named n) (_yield_batches dataset info exclude)
          (fun _ s => named n s).
Proof.
  induction dataset as [|b rest IH]; cbn [_yield_batches].
  - apply ensures_ret. auto.
  - eapply ensures_bind; [apply named_embed|]. intros e.
    eapply ensures_bind; [apply ensures_first|]. intros v.
    eapply ensures_bind; [apply IH|]. intros rows.
    apply ensures_ret. auto.
Qed.

(** The handle invariant: when [create_embeddings_table] returns, the
    object holds the handle of the table named [table_name]. *)
Lemma create_embeddings_table_handle (force : bool) (split : string)
      (s s' : state) :
  table s = None \/ table s = Some (table_name s) ->
  create_embeddings_table force split s = (Ok tt, s') ->
  table s' = Some (table_name s') /\ table_name s' = table_name s.
Proof.
  intros Hwf Hrun.
  enough (H : ensures (fun s0 => s0 = s) (create_embeddings_table force split)
                      (fun _ s1 => table s1 = Some (table_name s)
                                   /\ named (table_name s) s1)).
  { destruct (H s eq_refl tt s' Hrun) as [H1 H2]. unfold named in H2.
    split; congruence. }
  unfold create_embeddings_table.
  eapply ensures_bind; [apply ensures_gets|]. intros t.
  destruct ((match t with Some _ => true | None => false end) && negb force)
    eqn:Hreuse.
  { apply ensures_ret. intros s0 [-> ->].
    apply andb_prop in Hreuse as [Hsome _].
    destruct Hwf as [Hwf|Hwf]; rewrite Hwf in Hsome; [discriminate|].
    split; [exact Hwf | reflexivity]. }
  apply (ensures_weaken _ (named (table_name s)));
    [intros s0 [-> _]; reflexivity|].
  eapply ensures_bind; [apply ensures_gets|]. intros name.
  apply (ensures_weaken _ (fun s0 => named (table_name s) s0
                                     /\ name = table_name s));
    [intros s0 [H ->]; split; [exact H | exact H]|].
  apply ensures_assume. intros ->.
  eapply ensures_bind; [apply named_has_table|]. intros present.
  destruct (present && negb force).
  { eapply ensures_bind; [apply named_open_table|]. intros h.
    apply (ensures_weaken _ (fun s0 => named (table_name s) s0
                                       /\ h = table_name s));
      [intros s0 [-> H]; auto|].
    apply ensures_assume. intros ->. apply named_set_table. }
  eapply ensures_bind; [apply ensures_gets|]. intros [d|];
    [|apply ensures_raise].
  apply (ensures_weaken _ (named (table_name s))); [intros s0 [H _]; exact H|].
  eapply ensures_bind.
  { eapply ensures_bind; [apply named_emit|]. intros ?. apply ensures_lift. }
  intros info. destruct (data_info_get info split) as [paths|];
    [|apply ensures_raise].
  eapply ensures_bind; [apply named_set_choice_set|]. intros ?.
  eapply ensures_bind.
  { eapply ensures_bind; [apply named_emit|]. intros ?. apply ensures_lift. }
  intros dataset.
  eapply ensures_bind; [apply ensures_first|]. intros b0.
  eapply ensures_bind; [apply named_embed|]. intros e.
  eapply ensures_bind; [apply ensures_first|]. intros e0.
  eapply ensures_bind; [apply named_create_table|]. intros tbl.
  apply (ensures_weaken _ (fun s0 => named (table_name s) s0
                                     /\ tbl = table_name s));
    [intros s0 [-> H]; auto|].
  apply ensures_assume. intros ->.
  eapply ensures_bind; [apply named_yield_batches|]. intros rows.
  eapply ensures_bind; [apply named_add_emb|]. intros ?.
  apply named_set_table.
Qed.

(** C5.  [get_similar] raises when both [img] and [idx] are given and
    when neither is, without touching the state.  With [idx] alone, the
    indexes (a single one is wrapped in a list) are looked up in the
    embedding table through the store's [take], and the call continues as
    [query] on the list of the file paths of the rows found. *)
Theorem C5_get_similar_img_xor_idx
        (s : state) (img : imgs_arg) (idx : idx_arg) (limit : Z) :
  (is_none_img img = false -> is_none_idx idx = false ->
   get_similar img idx limit s =
   (Raise (ValueError "Only one of img or idx must be provided."), s)) /\
  (is_none_img img = true -> is_none_idx idx = true ->
   get_similar img idx limit s =
   (Raise (ValueError "Either img or idx must be provided."), s)) /\
  (forall tbl w rows taken,
      is_none_img img = true -> is_none_idx idx = false ->
      table s = Some tbl ->
      db s !! tbl = Some (EmbTable w rows) ->
      store_take rows (indexes idx) = Ok taken ->
      get_similar img idx limit s =
      query (ArgList (paths_of taken)) limit
            (log s [EvTake tbl (indexes idx)])).
Proof.
  unfold get_similar, _check_imgs_or_idxs. repeat split.
  - intros Hi Hx. unfold bind. rewrite Hi, Hx. reflexivity.
  - intros Hi Hx. unfold bind. rewrite Hi, Hx. reflexivity.
  - intros tbl w rows taken Hi Hx Ht Hdb Htake.
    unfold bind at 1. unfold bind at 1. rewrite Hi, Hx. cbn [andb negb].
    assert (E :
      (match idx with
       | IdxNone => ret img
       | _ =>
           bind (gets table)
             (fun t => match t with
                       | Some tbl0 =>
                           bind (emit (EvTake tbl0 (indexes idx)))
                             (fun _ =>
                                bind (emb_rows tbl0)
                                  (fun rows0 =>
                                     bind (lift (store_take rows0 (indexes idx)))
                                       (fun taken0 =>
                                          ret (ArgList
                                                 (map (fun r => ImPath (im_file r))
                                                      taken0)))))
                       | None => raise AttributeError
                       end)
       end) s = (Ok (ArgList (paths_of taken)), log s [EvTake tbl (indexes idx)])).
    { destruct idx; [discriminate Hx| |];
        unfold bind at 1; unfold gets; rewrite Ht;
        unfold bind at 1; rewrite emit_run;
        unfold bind at 1; rewrite (emb_rows_run _ _ w rows) by exact Hdb;
        unfold bind, lift; rewrite Htake; reflexivity. }
    destruct idx; [discriminate Hx| |]; cbn [indexes] in *;
      rewrite E; reflexivity.
Qed.

(** *** torch.mean over stacked vectors *)

Lemma map_nth_seq_gen {A} (l : list A) (d : A) :
  map (fun j => nth j l d) (seq 0 (length l)) = l.
Proof.
  apply (nth_ext _ _ d d).
  - now rewrite length_map, length_seq.
  - intros n Hn. rewrite length_map, length_seq in Hn.
    rewrite (nth_indep _ _ (nth 0 l d))
      by now rewrite length_map, length_seq.
    rewrite (map_nth (fun j => nth j l d)).
    now rewrite seq_nth.
Qed.

Lemma all_width_cons (d : nat) (t : tensor) (ts : list tensor) :
  all_width d (t :: ts) = true -> length t = d /\ all_width d ts = true.
Proof.
  unfold all_width. cbn. intros H. apply andb_prop in H as [H1 H2].
  split; [now apply Nat.eqb_eq | exact H2].
Qed.

Lemma torch_stack_ok (d : nat) (ts : list tensor) :
  ts <> [] -> all_width d ts = true -> torch_stack ts = Ok ts.
Proof.
  intros Hne Hw. destruct ts as [|t ts]; [contradiction|].
  unfold torch_stack.
  destruct (all_width_cons _ _ _ Hw) as [Ht _].
  rewrite Ht. fold (all_width d (t :: ts)). now rewrite Hw.
Qed.

(** C3.  [query] embeds the images it is given and asks the store once.
    When the model returns the k >= 2 embeddings of k images (all of one
    width d), the vector the store is asked with is
    [torch.mean(torch.stack(embeds), 0)]; torch.mean being the mean over
    the rows, that vector has d components and its component j is an
    arithmetic mean of the k components j in binary32: their sum, in the
    order torch adds them up, divided by k.  With a single image, given as
    a path or as a one-element list, the store is asked with that image's
    embedding as the model returned it.  In each case the call returns
    what the store answers on the rows of the table for that vector and
    the given limit, and the embedding and that one search are the only
    calls made. *)
Theorem C3_query_searches_mean
        (s : state) (tbl : string) (w : nat) (rows : list (emb_row batch))
        (imgs : list image) (embeds : list tensor) (limit : Z) (d : nat) :
  means_rows torch_mean0 ->
  table s = Some tbl ->
  db s !! tbl = Some (EmbTable w rows) ->
  model_embed imgs = Ok embeds ->
  length embeds = length imgs ->
  all_width d embeds = true ->
  ((2 <= length imgs)%nat ->
   query (ArgList imgs) limit s =
   (store_search rows (torch_mean0 embeds) limit,
    log s [EvEmbed imgs; EvSearch tbl (torch_mean0 embeds) limit]) /\
   length (torch_mean0 embeds) = d /\
   forall j, (j < d)%nat ->
             is_f32_mean (column j embeds)
                         (nth j (torch_mean0 embeds) 0%float)) /\
  (forall e, embeds = [e] ->
             query (ArgList imgs) limit s =
             (store_search rows e limit,
              log s [EvEmbed imgs; EvSearch tbl e limit])) /\
  (forall f e, imgs = [ImPath f] -> embeds = [e] ->
               query (ArgStr f) limit s =
               (store_search rows e limit,
                log s [EvEmbed imgs; EvSearch tbl e limit])).
Proof.
  intros Hmean Ht Hdb Hemb Hlen Hw.
  assert (Hrun : forall l, l = imgs ->
            embed l s = (Ok embeds, log s [EvEmbed imgs])).
  { intros l ->. unfold embed, bind. rewrite emit_run. unfold lift.
    now rewrite Hemb. }
  assert (Hsearch : forall q,
            search tbl q limit (log s [EvEmbed imgs])
            = (store_search rows q limit,
               log s [EvEmbed imgs; EvSearch tbl q limit])).
  { intros q. rewrite (search_run _ tbl w rows) by exact Hdb.
    now rewrite log_log. }
  split; [|split].
  - intros Hk.
    assert (Hne : embeds <> []) by (intros ->; cbn in Hlen; lia).
    pose proof (torch_stack_ok d embeds Hne Hw) as Hstack.
    destruct (Hmean embeds Hstack) as [Hwidth Hcols].
    assert (Hd : length (hd [] embeds) = d).
    { destruct embeds as [|t ts]; [contradiction|].
      now destruct (all_width_cons _ _ _ Hw). }
    rewrite Hd in Hwidth, Hcols.
    split; [|split; assumption].
    unfold query. run. rewrite Ht.
    rewrite (Hrun imgs eq_refl).
    destruct (Nat.ltb_spec 1 (length embeds)) as [_|Hlt]; [|lia].
    rewrite Hstack. apply Hsearch.
  - intros e ->. unfold query. run. rewrite Ht.
    rewrite (Hrun imgs eq_refl). apply Hsearch.
  - intros f e Himgs ->. unfold query. run. rewrite Ht.
    rewrite (Hrun [ImPath f] (eq_sym Himgs)). apply Hsearch.
Qed.

(** *** The loop of similarity_index *)

Lemma getitem_run {A} (l : list A) (i : nat) (x : A) (s : state) :
  l !! i = Some x -> getitem l i s = (Ok x, s).
Proof. intros H. unfold getitem. now rewrite H. Qed.

Lemma nth_vector (rows : list (emb_row batch)) (i : nat) (r : emb_row batch) :
  rows !! i = Some r -> nth i (map vector rows) [] = vector r.
Proof.
  revert i. induction rows as [|x rows IH]; intros [|i] H; try discriminate H.
  - now injection H as ->.
  - cbn. now apply IH.
Qed.

(** One run of the generator over the positions [range]: the calls it
    makes are the self-queries of a prefix of [range], all with limit [L];
    when it completes it made them all and produced one record per
    position, and it completes when the store answers every query. *)
Lemma yield_sim_idx_run (tbl : string) (w : nat) (rows : list (emb_row batch))
      (max_dist : float) (L : Z) (range : list nat) :
  Forall (fun i => (i < length rows)%nat) range ->
  forall s, db s !! tbl = Some (EmbTable w rows) ->
  exists res k,
    _yield_sim_idx tbl max_dist L (map im_file rows) (map vector rows) range s
    = (res, log s (map (self_query tbl rows L) (firstn k range))) /\
    (forall recs, res = Ok recs ->
       firstn k range = range /\
       Forall2 (fun i rec =>
                  exists r hits,
                    rows !! i = Some r /\
                    store_search rows (vector r) L = Ok hits /\
                    rec = sim_record max_dist i r hits) range recs) /\
    (is_nan max_dist = false ->
     self_queries_ok rows L = true ->
     is_raise res = false).
Proof.
  induction 1 as [|i range Hi Hrange IH]; intros s Hdb.
  - exists (Ok []), 0%nat. cbn. rewrite log_nil.
    split; [reflexivity|]. split; [|reflexivity].
    intros recs [= <-]. split; [reflexivity | constructor].
  - destruct (lookup_lt_is_Some_2 rows i Hi) as [r Hr].
    cbn [_yield_sim_idx]. unfold bind at 1.
    rewrite (getitem_run _ i (vector r))
      by (rewrite list_lookup_fmap, Hr; reflexivity).
    unfold bind at 1. rewrite (search_run _ _ w rows) by exact Hdb.
    assert (Hev : [EvSearch tbl (vector r) L]
                  = map (self_query tbl rows L) (firstn 1 (i :: range))).
    { cbn. unfold self_query. now rewrite (nth_vector _ _ _ Hr). }
    destruct (store_search rows (vector r) L) as [hits|e] eqn:Hs.
    2:{ exists (Raise e), 1%nat. rewrite Hev.
        split; [reflexivity|]. split; [discriminate|].
        intros _ Hok. unfold self_queries_ok in Hok.
        rewrite forallb_forall in Hok.
        assert (Hin : In r rows).
        { apply list_elem_of_In. eapply list_elem_of_lookup_2, Hr. }
        specialize (Hok r Hin). now rewrite Hs in Hok. }
    unfold bind at 1, lift at 1, df_query_distance_le.
    destruct (is_nan max_dist) eqn:Hnan.
    { eexists (Raise _), 1%nat. rewrite Hev.
      split; [reflexivity|]. split; discriminate. }
    unfold bind at 1.
    rewrite (getitem_run _ i (im_file r))
      by (rewrite list_lookup_fmap, Hr; reflexivity).
    destruct (IH (log s [EvSearch tbl (vector r) L]) Hdb)
      as (res & k & Hrun & Hok & Htot).
    unfold bind at 1. rewrite Hrun, log_log.
    assert (Hev' : ([EvSearch tbl (vector r) L]
                      ++ map (self_query tbl rows L) (firstn k range))%list
                   = map (self_query tbl rows L) (firstn (S k) (i :: range))).
    { cbn. unfold self_query at 2. now rewrite (nth_vector _ _ _ Hr). }
    rewrite Hev'.
    destruct res as [rest|e].
    + eexists (Ok _), (S k). unfold ret. split; [reflexivity|].
      split; [|reflexivity].
      intros recs [= <-]. destruct (Hok rest eq_refl) as [Hk Hall].
      split; [cbn; now rewrite Hk|].
      constructor; [|exact Hall].
      exists r, hits. repeat split; assumption.
    + exists (Raise e), (S k). split; [reflexivity|].
      split; [discriminate|]. intros _ Hq. apply (Htot eq_refl Hq).
Qed.

Lemma sim_name_fresh (s : state) : table_name s <> sim_idx_table_name s.
Proof.
  unfold sim_idx_table_name. intros H.
  apply (f_equal String.length) in H. rewrite str_length_app in H.
  cbn in H. lia.
Qed.

Lemma not_cached_skip {A} (s : state) (force : bool) (k : A) (f : string -> A) :
  force = true \/ sim_index s = None ->
  match sim_index s, force with
  | Some h, false => f h
  | _, _ => k
  end = k.
Proof.
  intros [-> | ->]; [destruct (sim_index s)|]; reflexivity.
Qed.

(** [similarity_index] past its guards: the scan, the creation of the
    index table, the generator, and the storing of its records. *)
Lemma similarity_index_run
      (s : state) (w : nat) (rows : list (emb_row batch))
      (max_dist : float) (top_k : option float) (force : bool) (L : Z) :
  table s = Some (table_name s) ->
  db s !! table_name s = Some (EmbTable w rows) ->
  rows <> [] ->
  force = true \/ sim_index s = None ->
  top_k_out_of_range top_k = false ->
  (max_dist <? 0)%float = false ->
  top_k_limit top_k (Z.of_nat (length rows)) = Ok L ->
  exists res k,
    similarity_index max_dist top_k force s =
    (let s2 := log (sim_table_created s (table_name s))
                   (map (self_query (table_name s) rows L)
                        (firstn k (seq 0 (length rows)))) in
     match res with
     | Ok recs => (Ok recs, sim_table_stored s2 recs)
     | Raise e => (Raise e, s2)
     end) /\
    (forall recs, res = Ok recs ->
       firstn k (seq 0 (length rows)) = seq 0 (length rows) /\
       Forall2 (fun i rec =>
                  exists r hits,
                    rows !! i = Some r /\
                    store_search rows (vector r) L = Ok hits /\
                    rec = sim_record max_dist i r hits)
               (seq 0 (length rows)) recs) /\
    (is_nan max_dist = false ->
     self_queries_ok rows L = true ->
     is_raise res = false).
Proof.
  intros Ht Hdb Hrows Hfresh Htk Hmd HL.
  set (tbl := table_name s) in *.
  assert (Hs1 : db (sim_table_created s tbl) !! tbl = Some (EmbTable w rows)).
  { cbn. rewrite lookup_insert_ne; [exact Hdb|].
    intros E. symmetry in E. now apply sim_name_fresh in E. }
  assert (Hrange : Forall (fun i => (i < length rows)%nat)
                          (seq 0 (length rows))).
  { apply List.Forall_forall. intros i Hi. apply in_seq in Hi. lia. }
  destruct (yield_sim_idx_run tbl w rows max_dist L _ Hrange _ Hs1)
    as (res & k & Hrun & Hok & Htot).
  exists res, k. split; [|split; assumption].
  unfold similarity_index. unfold bind at 1. unfold gets at 1. rewrite Ht.
  unfold bind at 1. unfold gets at 1.
  rewrite not_cached_skip by exact Hfresh.
  assert (Hval :
    (match top_k with
     | Some k0 =>
         if PyFloat.truthy k0 && negb ((k0 <=? 1)%float && (0 <=? k0)%float)
         then raise (ValueError "top_k must be between 0.0 and 1.0.")
         else ret tt
     | None => ret tt
     end) s = (Ok tt, s)).
  { destruct top_k as [k0|]; [|reflexivity].
    cbn in Htk. fold (in_unit_interval k0). rewrite Htk, andb_false_r.
    reflexivity. }
  unfold bind at 1. rewrite Hval.
  unfold bind at 1. rewrite Hmd. unfold ret at 1.
  unfold bind at 1, table_len. unfold bind at 1.
  rewrite (emb_rows_run _ _ w rows) by exact Hdb. unfold ret at 1.
  unfold bind at 1, lift at 1. rewrite HL.
  unfold bind at 1. unfold bind at 1. rewrite emit_run.
  rewrite (emb_rows_run _ _ w rows) by exact Hdb.
  unfold bind at 1. unfold gets at 1.
  unfold bind at 1.
  replace (create_table (sim_idx_table_name (log s [EvScan tbl]))
                        (SimTable []) (log s [EvScan tbl]))
    with (Ok (sim_idx_table_name s), sim_table_created s tbl).
  2:{ unfold create_table, sim_table_created, log, bind, emit, gets,
        set_db, modify, ret. cbn. now rewrite <- app_assoc. }
  unfold bind at 1. rewrite length_map, Hrun.
  destruct res as [recs|e]; [|reflexivity].
  destruct recs as [|rec recs].
  { destruct (Hok [] eq_refl) as [_ Hall].
    apply Forall2_length in Hall. rewrite length_seq in Hall.
    destruct rows; [contradiction | discriminate Hall]. }
  unfold add_sim, sim_to_arrow, set_sim_index, sim_table_stored, bind, emit,
    gets, modify, ret, raise.
  cbn. rewrite lookup_insert_eq. cbn. rewrite lookup_insert_eq.
  change (sim_idx_table_name (log _ _)) with (sim_idx_table_name s).
  rewrite !insert_insert_eq. reflexivity.
Qed.

(** [similarity_index] past its guards on a table without rows: the
    index table is created, the generator yields nothing and the store
    refuses it. *)
Lemma similarity_index_empty_run
      (s : state) (w : nat)
      (max_dist : float) (top_k : option float) (force : bool) (L : Z) :
  table s = Some (table_name s) ->
  db s !! table_name s = Some (EmbTable w []) ->
  force = true \/ sim_index s = None ->
  top_k_out_of_range top_k = false ->
  (max_dist <? 0)%float = false ->
  top_k_limit top_k 0 = Ok L ->
  similarity_index max_dist top_k force s =
  (Raise (ValueError "Input iterable is empty"),
   log (sim_table_created s (table_name s))
       [EvAdd (sim_idx_table_name s) 0]).
Proof.
  intros Ht Hdb Hfresh Htk Hmd HL.
  set (tbl := table_name s) in *.
  unfold similarity_index. unfold bind at 1. unfold gets at 1. rewrite Ht.
  unfold bind at 1. unfold gets at 1.
  rewrite not_cached_skip by exact Hfresh.
  assert (Hval :
    (match top_k with
     | Some k0 =>
         if PyFloat.truthy k0 && negb ((k0 <=? 1)%float && (0 <=? k0)%float)
         then raise (ValueError "top_k must be between 0.0 and 1.0.")
         else ret tt
     | None => ret tt
     end) s = (Ok tt, s)).
  { destruct top_k as [k0|]; [|reflexivity].
    cbn in Htk. fold (in_unit_interval k0). rewrite Htk, andb_false_r.
    reflexivity. }
  unfold bind at 1. rewrite Hval.
  unfold bind at 1. rewrite Hmd. unfold ret at 1.
  unfold bind at 1, table_len. unfold bind at 1.
  rewrite (emb_rows_run _ _ w []) by exact Hdb. unfold ret at 1.
  unfold bind at 1, lift at 1.
  change (Z.of_nat (length (@nil (emb_row batch)))) with 0. rewrite HL.
  unfold bind at 1. unfold bind at 1. rewrite emit_run.
  rewrite (emb_rows_run _ _ w []) by exact Hdb.
  unfold bind at 1. unfold gets at 1.
  unfold bind at 1.
  replace (create_table (sim_idx_table_name (log s [EvScan tbl]))
                        (SimTable []) (log s [EvScan tbl]))
    with (Ok (sim_idx_table_name s), sim_table_created s tbl).
  2:{ unfold create_table, sim_table_created, log, bind, emit, gets,
        set_db, modify, ret. cbn. now rewrite <- app_assoc. }
  reflexivity.
Qed.

Lemma searches_self_queries (tbl : string) (rows : list (emb_row batch))
      (L : Z) (k : nat) :
  searches (map (self_query tbl rows L) (firstn k (seq 0 (length rows))))
  = firstn k (map (fun r => (vector r, L)) rows).
Proof.
  assert (E : map (fun r => (vector r, L)) rows
              = map (fun i => (nth i (map vector rows) [], L))
                    (seq 0 (length rows))).
  { rewrite <- (map_map vector (fun v => (v, L))).
    rewrite <- (map_nth_seq_gen (map vector rows) []) at 1.
    now rewrite length_map, map_map. }
  rewrite E.
  rewrite (firstn_map (fun i => (nth i (map vector rows) [], L))).
  induction (firstn k (seq 0 (length rows))) as [|i l IH];
    [reflexivity|].
  cbn. unfold searches in IH. now rewrite IH.
Qed.

Lemma searches_app (a b : list event) :
  searches (a ++ b) = (searches a ++ searches b)%list.
Proof. apply omap_app. Qed.

(** What a run of [similarity_index] past its guards issues. *)
Lemma similarity_index_issues
      (s : state) (w : nat) (rows : list (emb_row batch))
      (max_dist : float) (top_k : option float) (force : bool) (L : Z) :
  table s = Some (table_name s) ->
  db s !! table_name s = Some (EmbTable w rows) ->
  force = true \/ sim_index s = None ->
  top_k_out_of_range top_k = false ->
  (max_dist <? 0)%float = false ->
  top_k_limit top_k (Z.of_nat (length rows)) = Ok L ->
  issues_self_queries s (similarity_index max_dist top_k force s) rows L.
Proof.
  intros Ht Hdb Hfresh Htk Hmd HL.
  destruct (decide (rows = [])) as [->|Hne].
  { rewrite (similarity_index_empty_run s w max_dist top_k force L)
      by assumption.
    eexists _, 0%nat. cbn [snd fst log sim_table_created trace].
    split; [rewrite <- !app_assoc; reflexivity|].
    split; [reflexivity | discriminate]. }
  destruct (similarity_index_run s w rows max_dist top_k force L
              Ht Hdb Hne Hfresh Htk Hmd HL) as (res & k & Hrun & Hok & _).
  rewrite Hrun. cbv zeta.
  destruct res as [recs|e].
  - eexists _, k. cbn [snd fst sim_table_stored log sim_table_created trace].
    split; [rewrite <- !app_assoc; reflexivity|].
    rewrite !searches_app, searches_self_queries. cbn.
    rewrite app_nil_r. split; [reflexivity|]. intros _.
    destruct (Hok recs eq_refl) as [Hk _].
    rewrite <- (searches_self_queries (table_name s)), Hk.
    rewrite <- (firstn_all (seq 0 (length rows))) at 1.
    rewrite length_seq, searches_self_queries.
    rewrite <- (length_map (fun r => (vector r, L)) rows).
    apply firstn_all.
  - eexists _, k. cbn [snd fst log sim_table_created trace].
    split; [rewrite <- !app_assoc; reflexivity|].
    rewrite !searches_app, searches_self_queries. cbn.
    split; [reflexivity | discriminate].
Qed.

(** C1 (amended).  On a table that has rows, past its guards (no cached
    index or a forced rebuild, [top_k] in range, [max_dist] at least 0)
    and with a store that answers every self-query, [similarity_index]
    returns and stores one record per row of the embedding table, in table
    order.  The record of row i holds, for the hits the store returned to
    the row's self-query (limit [top_k]), the number of hits whose distance
    is at most [max_dist] and the list of their file paths.  The row's own
    image is not set apart: when the store returns it within [max_dist], it
    is listed and the count is at least 1. *)
Theorem C1_similarity_index_records
        (s : state) (w : nat) (rows : list (emb_row batch))
        (max_dist : float) (top_k : option float) (force : bool) (L : Z) :
  table s = Some (table_name s) ->
  db s !! table_name s = Some (EmbTable w rows) ->
  rows <> [] ->
  force = true \/ sim_index s = None ->
  top_k_out_of_range top_k = false ->
  (0 <=? max_dist)%float = true ->
  top_k_limit top_k (Z.of_nat (length rows)) = Ok L ->
  self_queries_ok rows L = true ->
  exists recs,
    fst (similarity_index max_dist top_k force s) = Ok recs /\
    length recs = length rows /\
    (forall i r hits,
        rows !! i = Some r ->
        store_search rows (vector r) L = Ok hits ->
        recs !! i = Some (sim_record max_dist i r hits)) /\
    (forall i r hits d,
        rows !! i = Some r ->
        store_search rows (vector r) L = Ok hits ->
        In {| hit_row := r; _distance := d |} hits ->
        (d <=? max_dist)%float = true ->
        exists rec,
          recs !! i = Some rec /\
          In (im_file r) (sim_im_files rec) /\ 1 <= sim_count rec) /\
    sim_index (snd (similarity_index max_dist top_k force s))
      = Some (sim_idx_table_name s) /\
    db (snd (similarity_index max_dist top_k force s))
      !! sim_idx_table_name s = Some (SimTable recs).
Proof.
  intros Ht Hdb Hrows Hfresh Htk Hpos HL Hqs.
  destruct (nonneg_number max_dist Hpos) as [Hmd Hnum].
  destruct (similarity_index_run s w rows max_dist top_k force L
              Ht Hdb Hrows Hfresh Htk Hmd HL)
    as (res & k & Hrun & Hok & Htot).
  specialize (Htot Hnum Hqs). rewrite Hrun. cbv zeta.
  destruct res as [recs|e]; [|discriminate Htot].
  destruct (Hok recs eq_refl) as [_ Hall].
  exists recs. cbn [fst snd sim_table_stored sim_index db].
  split; [reflexivity|].
  split; [apply Forall2_length in Hall; now rewrite length_seq in Hall|].
  assert (Hpoint : forall i r hits,
             rows !! i = Some r ->
             store_search rows (vector r) L = Ok hits ->
             recs !! i = Some (sim_record max_dist i r hits)).
  { intros i r hits Hr Hs.
    assert (Hi : (i < length rows)%nat) by (eapply lookup_lt_Some, Hr).
    destruct (Forall2_lookup_l _ _ _ i i Hall)
      as (rec & Hrec & r' & hits' & Hr' & Hs' & ->).
    { rewrite lookup_seq_lt by exact Hi. reflexivity. }
    rewrite Hrec. congruence. }
  split; [exact Hpoint|].
  split; [|split; [reflexivity | apply lookup_insert_eq]].
  intros i r hits d Hr Hs Hin Hd.
  exists (sim_record max_dist i r hits).
  split; [now apply Hpoint|].
  assert (Hkept : In {| hit_row := r; _distance := d |}
                     (List.filter (fun h => (_distance h <=? max_dist)%float)
                                  hits)).
  { apply filter_In. split; [exact Hin | exact Hd]. }
  cbn [sim_record sim_im_files sim_count]. split.
  - apply in_map_iff. eexists. split; [|exact Hkept]. reflexivity.
  - destruct (List.filter _ hits); [destruct Hkept | cbn [length]; lia].
Qed.

End ExplorerFacts.

(** * The mean of the sample collaborators *)

Section SampleFacts.
Import Explorer ExplorerVocabulary Sample.

Lemma length_tensor_add (a b : tensor) :
  length a = length b -> length (tensor_add a b) = length a.
Proof.
  revert b. induction a as [|x a IH]; intros [|y b] H; try discriminate H;
    cbn; [reflexivity|]. f_equal. apply IH. now injection H.
Qed.

Lemma nth_tensor_add (a b : tensor) (j : nat) :
  length a = length b -> (j < length a)%nat ->
  nth j (tensor_add a b) 0%float
  = f32_add (nth j a 0%float) (nth j b 0%float).
Proof.
  revert b j. induction a as [|x a IH]; intros [|y b] j H Hj;
    try discriminate H; cbn in Hj; [lia|].
  destruct j as [|j]; cbn; [reflexivity|].
  apply IH; [now injection H | lia].
Qed.

Lemma length_fold_tensor_add (d : nat) (rest : list tensor) (t : tensor) :
  length t = d -> all_width d rest = true ->
  length (fold_left tensor_add rest t) = d.
Proof.
  revert t. induction rest as [|u rest IH]; intros t Ht Hrest.
  - exact Ht.
  - apply all_width_cons in Hrest as [Hu Hrest]. cbn [fold_left].
    apply IH; [rewrite length_tensor_add; congruence | exact Hrest].
Qed.

(** The column sums, one component at a time. *)
Lemma nth_fold_tensor_add
      (d : nat) (rest : list tensor) (t : tensor) (j : nat) :
  length t = d -> all_width d rest = true -> (j < d)%nat ->
  nth j (fold_left tensor_add rest t) 0%float
  = fold_left f32_add (column j rest) (nth j t 0%float).
Proof.
  revert t. induction rest as [|u rest IH]; intros t Ht Hrest Hj.
  - reflexivity.
  - apply all_width_cons in Hrest as [Hu Hrest]. cbn [fold_left column map].
    fold (column j rest).
    rewrite IH; [|rewrite length_tensor_add; congruence | exact Hrest
                 | exact Hj].
    now rewrite nth_tensor_add by (congruence || lia).
Qed.

Lemma nth_zeros (t : tensor) (j : nat) :
  nth j (map (fun _ => 0%float) t) 0%float = 0%float.
Proof.
  revert j. induction t as [|x t IH]; intros [|j]; cbn; auto.
Qed.

Lemma fold_f32_sum (l l0 : list float) (acc : float) :
  f32_sum_of l0 acc -> f32_sum_of (l0 ++ l)%list (fold_left f32_add l acc).
Proof.
  revert l0 acc. induction l as [|x l IH]; intros l0 acc H.
  - now rewrite app_nil_r.
  - cbn [fold_left].
    replace (l0 ++ x :: l)%list with ((l0 ++ [x]) ++ l)%list
      by now rewrite <- app_assoc.
    apply IH. apply (f32_sum_add l0 [x]); [exact H | constructor|].
    reflexivity.
Qed.

(** The mean of the sample collaborators is a mean over the rows. *)
Lemma mean0_means_rows : means_rows mean0.
Proof.
  intros m Hstack. destruct m as [|t rest]; [discriminate Hstack|].
  assert (Hw : all_width (length t) (t :: rest) = true).
  { unfold torch_stack in Hstack. unfold all_width.
    match type of Hstack with
    | context [if ?b then _ else _] => destruct b
    end; [reflexivity | discriminate Hstack]. }
  assert (Hz : length (map (fun _ : float => 0%float) t) = length t)
    by apply length_map.
  cbn [hd]. unfold mean0. split.
  - rewrite length_map.
    now apply length_fold_tensor_add.
  - intros j Hj.
    exists (fold_left f32_add (column j (t :: rest)) 0%float). split.
    + apply (fold_f32_sum _ []). constructor.
    + left. unfold column at 2. rewrite length_map.
      rewrite (nth_indep _ 0%float
                 (f32_div 0 (f32_of_nat (length (t :: rest)))))
        by (rewrite length_map;
            now rewrite (length_fold_tensor_add (length t))).
      rewrite (map_nth (fun s => f32_div s (f32_of_nat (length (t :: rest))))).
      now rewrite (nth_fold_tensor_add (length t)), nth_zeros.
Qed.

End SampleFacts.

(** * Concrete runs *)

Section Runs.
Import Explorer ExplorerVocabulary Sample Examples.

Lemma C6_no_table_raises_witness :
  query (ArgStr "a.jpg") 25 fresh
    = (Raise (ValueError "Table is not created. Please create the table first."), fresh)
  /\ sql_query "a.jpg" fresh
    = (Raise (ValueError "Table is not created. Please create the table first."), fresh)
  /\ similarity_index f0_2 (Some 0.5%float) true fresh
    = (Raise (ValueError "Table is not created. Please create the table first."), fresh).
Proof.
  exact (C6_no_table_raises fresh (ArgStr "a.jpg") 25 "a.jpg"
                            f0_2 (Some 0.5%float) true eq_refl).
Defined.

Lemma C10_cached_index_before_validation_witness :
  similarity_index fm0_1 (Some 1.5%float) false indexed
  = (Ok indexed_rows, indexed).
Proof.
  exact (C10_cached_index_before_validation
           indexed "coco128" "coco128_sim_idx" indexed_rows
           fm0_1 (Some 1.5%float) eq_refl eq_refl eq_refl).
Defined.

Lemma C4_validation_raises_witness :
  exists msg,
    similarity_index fm0_1 (Some 1.5%float) true indexed
      = (Raise (ValueError msg), indexed) /\
    (table indexed <> None ->
     msg = "top_k must be between 0.0 and 1.0." \/
     msg = "max_dist must be greater than 0.").
Proof.
  exact (C4_validation_raises indexed fm0_1 (Some 1.5%float) true
                              (or_introl eq_refl) (or_introl eq_refl)).
Defined.

(** C4, as the specification states it, fails once an index is cached:
    with [force=False] the call returns the cached index for [top_k = 1.5]
    and [max_dist = -0.1], and raises nothing. *)
Lemma C4_counterexample :
  top_k_out_of_range (Some 1.5%float) = true /\
  (fm0_1 <? 0)%float = true /\
  sim_index indexed = Some "coco128_sim_idx" /\
  fst (similarity_index fm0_1 (Some 1.5%float) false indexed)
    = Ok indexed_rows.
Proof. repeat split; vm_compute; reflexivity. Qed.

Lemma C7_existing_table_reused_witness :
  create_embeddings_table false "train" built2 = (Ok tt, built2) /\
  create_embeddings_table false "train" persisted =
    (Ok tt,
     {| db := db persisted; table_name := table_name persisted;
        data := data persisted; choice_set := choice_set persisted;
        sim_index := sim_index persisted;
        table := Some (table_name persisted);
        trace := trace persisted ++ [EvOpenTable (table_name persisted)] |}).
Proof.
  exact (conj
           (proj1 (C7_existing_table_reused built2 "train")
                  "coco128" eq_refl)
           (proj2 (C7_existing_table_reused persisted "train")
                  (EmbTable 2 two_rows) eq_refl eq_refl)).
Defined.

Lemma C5_get_similar_img_xor_idx_witness :
  get_similar (ArgStr "a.jpg") (IdxInt 0) 25 built2
    = (Raise (ValueError "Only one of img or idx must be provided."), built2)
  /\ get_similar ArgNone IdxNone 25 built2
    = (Raise (ValueError "Either img or idx must be provided."), built2)
  /\ get_similar ArgNone (IdxList [1; 0]) 25 built2
    = query (ArgList (paths_of [row "b.jpg" [3; 4]%float;
                                row "a.jpg" [0; 0]%float])) 25
            (log built2 [EvTake "coco128" (indexes (IdxList [1; 0]))]).
Proof.
  exact (conj
           (proj1 (C5_get_similar_img_xor_idx
                     built2 (ArgStr "a.jpg") (IdxInt 0) 25) eq_refl eq_refl)
           (conj
              (proj1 (proj2 (C5_get_similar_img_xor_idx
                               built2 ArgNone IdxNone 25)) eq_refl eq_refl)
              (proj2 (proj2 (C5_get_similar_img_xor_idx
                               built2 ArgNone (IdxList [1; 0]) 25))
                     "coco128" 2%nat two_rows
                     [row "b.jpg" [3; 4]%float; row "a.jpg" [0; 0]%float]
                     eq_refl eq_refl eq_refl eq_refl eq_refl))).
Defined.

Lemma C3_query_searches_mean_witness :
  (query (ArgList two_images) 5 built2
   = (store_search two_rows (torch_mean0 (map embed_one two_images)) 5,
      log built2
          [EvEmbed two_images;
           EvSearch "coco128" (torch_mean0 (map embed_one two_images)) 5]) /\
   length (torch_mean0 (map embed_one two_images)) = 2%nat /\
   forall j, (j < 2)%nat ->
             is_f32_mean (column j (map embed_one two_images))
                         (nth j (torch_mean0 (map embed_one two_images))
                              0%float))
  /\ torch_mean0 (map embed_one two_images) = [7; 97.5]%float.
Proof.
  split.
  - exact (proj1 (C3_query_searches_mean
                    built2 "coco128" 2%nat two_rows two_images
                    (map embed_one two_images) 5 2%nat
                    mean0_means_rows
                    eq_refl eq_refl eq_refl eq_refl eq_refl)
                 (le_n 2)).
  - vm_compute; reflexivity.
Defined.

(** C2.  The claim fails at the fraction 0, which the validation
    accepts: max(int(0 * 2), 1) is 1, and the two self-queries of a two-row
    table are issued with limit 2, the number of rows ([top_k] is tested
    for truthiness where a test for [None] was meant, and 0.0 is falsy). *)
Lemma C2_zero_fraction_queries_all_rows :
  in_unit_interval 0 = true /\
  fraction_limit 0 (Z.of_nat (length two_rows)) = Ok 1 /\
  searches (trace (snd (similarity_index f0_2 (Some 0%float) true built2)))
    = [([0; 0]%float, 2); ([3; 4]%float, 2)].
Proof. repeat split; vm_compute; reflexivity. Qed.

Lemma C1_similarity_index_records_witness :
  exists recs,
    fst (similarity_index f0_2 None true built2) = Ok recs /\
    length recs = length two_rows /\
    (forall i r hits,
        two_rows !! i = Some r ->
        store_search two_rows (vector r) 2 = Ok hits ->
        recs !! i = Some (sim_record f0_2 i r hits)) /\
    (forall i r hits d,
        two_rows !! i = Some r ->
        store_search two_rows (vector r) 2 = Ok hits ->
        In {| hit_row := r; _distance := d |} hits ->
        (d <=? f0_2)%float = true ->
        exists rec,
          recs !! i = Some rec /\
          In (im_file r) (sim_im_files rec) /\ 1 <= sim_count rec) /\
    sim_index (snd (similarity_index f0_2 None true built2))
      = Some (sim_idx_table_name built2) /\
    db (snd (similarity_index f0_2 None true built2))
      !! sim_idx_table_name built2 = Some (SimTable recs).
Proof.
  exact (C1_similarity_index_records
           built2 2%nat two_rows f0_2 None true 2
           eq_refl eq_refl (fun E : two_rows = [] => nil_cons (eq_sym E))
           (or_introl eq_refl) eq_refl eq_refl eq_refl eq_refl).
Defined.

(** C1, as the specification states it, fails on a table of two images
    25 apart: no other image lies within 0.2 of either, yet each record has
    count 1 and lists the row's own file. *)
Lemma C1_counterexample :
  fst (similarity_index f0_2 None true built2) = Ok indexed_rows /\
  store_search two_rows [0; 0]%float 2
    = Ok [ {| hit_row := row "a.jpg" [0; 0]%float; _distance := 0 |};
           {| hit_row := row "b.jpg" [3; 4]%float; _distance := 25 |} ] /\
  count_others f0_2 (row "a.jpg" [0; 0]%float)
    [ {| hit_row := row "a.jpg" [0; 0]%float; _distance := 0 |};
      {| hit_row := row "b.jpg" [3; 4]%float; _distance := 25 |} ] = 0 /\
  sim_count <$> indexed_rows !! 0%nat = Some 1 /\
  sim_im_files <$> indexed_rows !! 0%nat = Some ["a.jpg"].
Proof. repeat split; vm_compute; reflexivity. Qed.

End Runs.

(** * More on the configuration-table builder *)

Section BuildTablesMore.
Import Py Vocabulary BuildTables BuildTablesRest BuildTablesVocabulary.

Lemma repeat_hash_no_space (n : nat) : has_char " " (repeat_str "#" n) = false.
Proof. induction n as [|n IH]; [reflexivity | exact IH]. Qed.

Lemma count_repeat_hash (n : nat) : count (repeat_str "#" n) "#" = n.
Proof.
  unfold count. induction n as [|n IH]; [reflexivity|].
  change (repeat_str "#" (S n)) with (String "#" (repeat_str "#" n)).
  cbn [count_go]. rewrite prefix_char.
  destruct (Ascii.ascii_dec "#" "#"); [|contradiction].
  cbn [String.length Nat.sub]. now rewrite IH.
Qed.

(** The first field of a split on a space ends at the first space. *)
Lemma hd_split_space (a rest : string) :
  has_char " " a = false ->
  hd "" (split (a ++ String " " rest) " ") = a.
Proof.
  unfold split. induction a as [|c a IH]; intros Ha.
  - rewrite str_app_nil_l. cbn [split_go]. rewrite prefix_char.
    destruct (Ascii.ascii_dec " " " "); [reflexivity | contradiction].
  - simpl in Ha. apply orb_false_elim in Ha as [Hc Ha].
    rewrite str_app_cons. cbn [split_go]. rewrite prefix_char.
    destruct (Ascii.ascii_dec " " c) as [<-|].
    + rewrite Ascii.eqb_refl in Hc. discriminate.
    + rewrite hd_split_cons, (IH Ha). reflexivity.
Qed.

Lemma hd_split_no_space (a : string) :
  has_char " " a = false -> hd "" (split a " ") = a.
Proof.
  unfold split. induction a as [|c a IH]; intros Ha; [reflexivity|].
  simpl in Ha. apply orb_false_elim in Ha as [Hc Ha].
  cbn [split_go]. rewrite prefix_char.
  destruct (Ascii.ascii_dec " " c) as [<-|].
  - rewrite Ascii.eqb_refl in Hc. discriminate.
  - rewrite hd_split_cons, (IH Ha). reflexivity.
Qed.

Lemma section_depth_marker (n : nat) (rest : string) :
  section_depth (repeat_str "#" n ++ String " " rest) = n.
Proof.
  unfold section_depth.
  rewrite hd_split_space by apply repeat_hash_no_space.
  apply count_repeat_hash.
Qed.

(** X1.  A heading written with [n_section N] has depth [N]: [section_depth]
    reads back the number of "#" of the marker, whatever the title. *)
Theorem section_depth_of_n_section (N : nat) (title : string) :
  section_depth (n_section N ++ title) = N.
Proof.
  unfold n_section. rewrite str_app_assoc.
  change (" " ++ title) with (String " " title).
  apply section_depth_marker.
Qed.

(** *** Stripping *)

Lemma rstrip_cons (c : ascii) (s chars : string) :
  rstrip (String c s) chars = "" \/
  exists y, rstrip (String c s) chars = String c y.
Proof.
  cbn [rstrip]. destruct (rstrip s chars).
  - destruct (in_chars c chars); [left | right; eexists]; reflexivity.
  - right. eexists. reflexivity.
Qed.

Lemma rstrip_keep (c : ascii) (s chars : string) :
  in_chars c chars = false ->
  rstrip (String c s) chars = String c (rstrip s chars).
Proof.
  intros Hc. cbn [rstrip]. destruct (rstrip s chars); [now rewrite Hc|].
  reflexivity.
Qed.

Lemma rstrip_idem (s chars : string) :
  rstrip (rstrip s chars) chars = rstrip s chars.
Proof.
  induction s as [|c s IH]; [reflexivity|].
  cbn [rstrip]. destruct (rstrip s chars) as [|d r] eqn:E.
  - destruct (in_chars c chars) eqn:Hc; [reflexivity|].
    cbn [rstrip]. now rewrite Hc.
  - change (rstrip (String c (String d r)) chars)
      with (match rstrip (String d r) chars with
            | EmptyString =>
                if in_chars c chars then EmptyString else String c EmptyString
            | String x y => String c (String x y)
            end).
    rewrite IH. reflexivity.
Qed.

Lemma lstrip_lstripped (s chars : string) : lstripped (lstrip s chars) chars.
Proof.
  induction s as [|c s IH]; [exact I|].
  cbn [lstrip]. destruct (in_chars c chars) eqn:Hc; [exact IH | exact Hc].
Qed.

Lemma lstripped_lstrip (s chars : string) :
  lstripped s chars -> lstrip s chars = s.
Proof. destruct s as [|c s]; [reflexivity|]. cbn. now intros ->. Qed.

Lemma lstripped_rstrip (s chars : string) :
  lstripped s chars -> lstripped (rstrip s chars) chars.
Proof.
  destruct s as [|c s]; [intros _; exact I|]. intros Hc.
  destruct (rstrip_cons c s chars) as [-> | [y ->]]; [exact I | exact Hc].
Qed.

Lemma strip_idem (s chars : string) :
  strip (strip s chars) chars = strip s chars.
Proof.
  unfold strip.
  rewrite (lstripped_lstrip (rstrip (lstrip s chars) chars))
    by apply lstripped_rstrip, lstrip_lstripped.
  apply rstrip_idem.
Qed.

Lemma prefix_split (p s : string) :
  String.prefix p s = true -> exists rest, s = p ++ rest.
Proof.
  revert s. induction p as [|a p IH]; intros s H.
  - exists s. reflexivity.
  - destruct s as [|b s]; [discriminate H|]. simpl in H.
    destruct (Ascii.ascii_dec a b) as [<-|]; [|discriminate H].
    destruct (IH s H) as [rest ->]. exists rest. reflexivity.
Qed.

Lemma rstrip_hashes (n : nat) (s chars : string) :
  in_chars "#" chars = false ->
  rstrip (repeat_str "#" n ++ s) chars = repeat_str "#" n ++ rstrip s chars.
Proof.
  intros Hc. induction n as [|n IH]; [reflexivity|].
  change (repeat_str "#" (S n) ++ s) with (String "#" (repeat_str "#" n ++ s)).
  rewrite rstrip_keep by exact Hc. now rewrite IH.
Qed.

(** The depth of a line that starts with a marker survives the stripping
    of spaces and dashes. *)
Lemma section_depth_strip_marker (n : nat) (l : string) :
  (1 <= n)%nat ->
  startswith l (repeat_str "#" n ++ " ") = true ->
  section_depth (strip l " -") = n.
Proof.
  intros Hn Hl. unfold startswith in Hl.
  destruct (prefix_split _ _ Hl) as [rest ->].
  rewrite str_app_assoc. change (" " ++ rest) with (String " " rest).
  unfold strip.
  rewrite lstripped_lstrip.
  2:{ destruct n as [|n]; [lia|]. reflexivity. }
  rewrite rstrip_hashes by reflexivity.
  destruct (rstrip_cons " " rest " -") as [-> | [y ->]].
  - rewrite str_app_nil_r. unfold section_depth.
    rewrite hd_split_no_space by apply repeat_hash_no_space.
    apply count_repeat_hash.
  - apply section_depth_marker.
Qed.

Lemma find_sections_elim (txt : list string) (m : nat) (s : string) :
  In s (find_sections txt m) ->
  exists n l, (1 <= n <= m)%nat /\ In l txt /\
              startswith l (repeat_str "#" n ++ " ") = true /\
              s = strip l " -".
Proof.
  unfold find_sections. intros H.
  apply in_flat_map in H as (ss & Hss & H).
  apply in_map_iff in Hss as (n & <- & Hn). apply in_seq in Hn.
  apply in_map_iff in H as (l & <- & Hl). apply filter_In in Hl as [Hl Hp].
  exists n, l. repeat split; try assumption; lia.
Qed.

(** X2.  Every heading [find_sections] returns has the depth of the marker
    it was found with, between 1 and [max_repeats]: the stripping of spaces
    and dashes never changes the depth, and no entry line (depth 0) is ever
    taken for a section. *)
Theorem find_sections_depth (txt : list string) (max_repeats : nat)
        (s : string) :
  In s (find_sections txt max_repeats) ->
  (1 <= section_depth s <= max_repeats)%nat.
Proof.
  intros H. apply find_sections_elim in H as (n & l & Hn & _ & Hl & ->).
  rewrite (section_depth_strip_marker n l) by (lia || assumption). exact Hn.
Qed.

Lemma find_sections_depth_witness :
  (1 <= section_depth "## Tracker" <= 2)%nat.
Proof.
  apply (find_sections_depth
           ["# Train settings -----"; "epochs: 100 # (int) epochs";
            "## Tracker --"] 2 "## Tracker").
  vm_compute. tauto.
Defined.

Lemma index_of_In (s : string) (l : list string) :
  In s l -> exists i, index_of s l = Some i /\ (i < length l)%nat.
Proof.
  intros H. destruct (index_of_app s l [] H) as (i & E & Hi & _).
  exists i. split; assumption.
Qed.

Lemma txt_of_lines_stripped (lines : list string) (l : string) :
  In l (txt_of_lines lines) -> strip l " -" = l.
Proof.
  unfold txt_of_lines. intros H.
  apply in_map_iff in H as (l0 & <- & _). apply strip_idem.
Qed.

(** X3.  On the text the module prepares ([txt_of_lines]: empty lines
    dropped, each line stripped of spaces and dashes), every section the
    module selects is itself a line of the text: [txt.index(s)] finds it,
    and the table of the section is the loop run on the lines after it. *)
Theorem sections_are_lines (lines : list string) (s : string) :
  In s (sections (txt_of_lines lines)) ->
  exists idx,
    index_of s (txt_of_lines lines) = Some idx /\
    (idx < length (txt_of_lines lines))%nat /\
    section_table (txt_of_lines lines) s =
    collect (skipn (S idx) (txt_of_lines lines)) false 0 (text_2_key s).
Proof.
  intros H. unfold sections in H. apply filter_In in H as [H _].
  apply find_sections_elim in H as (n & l & _ & Hl & _ & ->).
  rewrite (txt_of_lines_stripped lines l Hl).
  destruct (index_of_In l _ Hl) as (idx & E & Hidx).
  exists idx. unfold section_table. rewrite E. auto.
Qed.

Lemma sections_are_lines_witness :
  exists idx,
    index_of "# Train settings"
             (txt_of_lines ["# Train settings -----"; "";
                            "epochs: 100 # (int) epochs"]) = Some idx /\
    (idx < length (txt_of_lines ["# Train settings -----"; "";
                                 "epochs: 100 # (int) epochs"]))%nat /\
    section_table
      (txt_of_lines ["# Train settings -----"; "";
                     "epochs: 100 # (int) epochs"]) "# Train settings" =
    collect (skipn (S idx)
                   (txt_of_lines ["# Train settings -----"; "";
                                  "epochs: 100 # (int) epochs"]))
            false 0 (text_2_key "# Train settings").
Proof.
  apply (sections_are_lines
           ["# Train settings -----"; ""; "epochs: 100 # (int) epochs"]
           "# Train settings").
  vm_compute. tauto.
Defined.

Lemma lstrip_hashes (n : nat) (s : string) :
  lstrip (repeat_str "#" n ++ s) "# -" = lstrip s "# -".
Proof. induction n as [|n IH]; [reflexivity | exact IH]. Qed.

(** X4.  [text_2_key] undoes [n_section]: the key of a heading built from
    a marker and a title is the title followed by ": ", provided the title
    neither starts nor ends with a space, a dash or a "#". *)
Theorem text_2_key_n_section (N : nat) (title : string) :
  lstripped title "# -" ->
  rstrip title "# -" = title ->
  text_2_key (n_section N ++ title) = title ++ ": ".
Proof.
  intros Hl Hr. unfold text_2_key, n_section, strip.
  rewrite str_app_assoc, lstrip_hashes.
  change (" " ++ title) with (String " " title). cbn [lstrip].
  change (in_chars " " "# -") with true. cbv iota.
  rewrite (lstripped_lstrip _ _ Hl), Hr. reflexivity.
Qed.

Lemma text_2_key_n_section_witness :
  text_2_key (n_section 2 ++ "Val/Test settings") = "Val/Test settings" ++ ": ".
Proof.
  apply (text_2_key_n_section 2 "Val/Test settings"); reflexivity.
Defined.

(** *** Entry lines *)

Lemma split_absent (sep s : string) :
  contains sep s = false -> split s sep = [s].
Proof.
  unfold split. induction s as [|c s IH]; intros H; [reflexivity|].
  cbn [contains] in H. apply orb_false_elim in H as [Hp H].
  cbn [split_go]. rewrite Hp, (IH H). reflexivity.
Qed.

Lemma has_char_hd_split (c : ascii) (sep s : string) (skip : nat) :
  has_char c s = false ->
  has_char c (hd "" (split_go sep skip s)) = false.
Proof.
  revert skip. induction s as [|x s IH]; intros skip H; [reflexivity|].
  simpl in H. apply orb_false_elim in H as [Hx H].
  cbn [split_go]. destruct skip as [|k]; [|apply IH, H].
  destruct (String.prefix sep (String x s)); [reflexivity|].
  rewrite hd_split_cons. simpl. now rewrite Hx, (IH 0%nat H).
Qed.

Lemma find_from_absent (c : ascii) (s : string) (i : Z) :
  has_char c s = false -> find_from (String c "") s i = -1.
Proof.
  revert i. induction s as [|x s IH]; intros i H; [reflexivity|].
  simpl in H. apply orb_false_elim in H as [Hx H].
  cbn [find_from]. rewrite prefix_char.
  destruct (Ascii.ascii_dec c x) as [<-|].
  - rewrite Ascii.eqb_refl in Hx. discriminate.
  - apply IH, H.
Qed.

Lemma substring_zero (n : nat) (s : string) : substring n 0 s = "".
Proof.
  revert s. induction n as [|n IH]; intros [|c s]; try reflexivity.
  apply IH.
Qed.

Lemma slice_minus_one (s : string) : slice s (-1) (-1) = "".
Proof. unfold slice. rewrite Z.sub_diag. apply substring_zero. Qed.

Lemma slice_from_zero (s : string) : slice_from s 0 = s.
Proof.
  unfold slice_from, clamp_index, len. cbn [Z.ltb Z.compare].
  rewrite Z.min_l by lia. rewrite Z.sub_0_r, Nat2Z.id. apply substring_all.
Qed.

(** [extract_type] on a comment that holds no parenthesis. *)
Lemma extract_type_untyped (line : string) :
  no_paren line = true -> extract_type line = ("", strip_ws line).
Proof.
  intros H. apply no_paren_elim in H as [Hl Hr].
  unfold extract_type, find.
  rewrite !find_from_absent by assumption.
  rewrite slice_minus_one. change (-1 + 1) with 0.
  now rewrite slice_from_zero.
Qed.

(** X5.  An entry whose comment declares no type (no parenthesis in it)
    is accepted: the type read is the empty string and the description is
    the whole comment, cut at the first "http", its colons replaced by
    " -", stripped of surrounding whitespace. *)
Theorem parse_entry_untyped (line entry comment k v : string) :
  split line "# " = [entry; comment] ->
  split entry ": " = [k; v] ->
  no_paren comment = true ->
  parse_entry line =
    Ok (k, v, "", strip_ws (escape_colons (before_first comment "http"))).
Proof.
  intros Hline Hentry Hc. unfold parse_entry. rewrite Hline.
  fold (before_first comment "http").
  fold (escape_colons (before_first comment "http")).
  rewrite extract_type_untyped.
  - now rewrite Hentry.
  - apply no_paren_escape. apply no_paren_elim in Hc as [Hl Hr].
    unfold no_paren, before_first, split.
    now rewrite !has_char_hd_split by assumption.
Qed.

Lemma parse_entry_untyped_witness :
  parse_entry "seed: 0 # random seed: see https://x.y"
  = Ok ("seed", "0 ", "", "random seed - see").
Proof.
  apply (parse_entry_untyped "seed: 0 # random seed: see https://x.y"
                             "seed: 0 " "random seed: see https://x.y"
                             "seed" "0 "); reflexivity.
Defined.

Lemma parse_entry_no_comment (line : string) :
  contains "# " line = false -> is_raise (parse_entry line) = true.
Proof.
  intros H. unfold parse_entry. now rewrite (split_absent _ _ H).
Qed.

(** X6.  Malformed entries are not recovered.  When the lines after a
    section hold no top-level heading, one line of depth 0 without the
    "# " separator (an empty line left by a row of dashes, a bare
    [key: value]) makes the loop of the section raise. *)
Theorem malformed_entry_fails (lines : list string) (bad : string)
        (is_sub : bool) (sub_d : nat) (acc : string) :
  In bad lines ->
  section_depth bad = 0%nat ->
  contains "# " bad = false ->
  forallb (fun l => negb (section_depth l =? 1)%nat) lines = true ->
  is_raise (collect lines is_sub sub_d acc) = true.
Proof.
  intros Hin Hdepth Hbad. revert is_sub sub_d acc.
  induction lines as [|l lines IH]; intros is_sub sub_d acc Hno;
    [destruct Hin|].
  cbn [forallb] in Hno. apply andb_prop in Hno as [Hl Hno].
  cbn [collect].
  destruct (section_depth l =? 0)%nat eqn:E0.
  - destruct (parse_entry l) as [[[[k v] ty] desc]|e] eqn:Hp; [|reflexivity].
    destruct Hin as [->|Hin].
    + pose proof (parse_entry_no_comment bad Hbad) as Hr.
      rewrite Hp in Hr. discriminate Hr.
    + apply IH; assumption.
  - apply negb_true_iff in Hl. rewrite Hl.
    destruct Hin as [->|Hin].
    + rewrite Hdepth in E0. discriminate E0.
    + apply IH; assumption.
Qed.

Lemma malformed_entry_fails_witness :
  is_raise (collect ["epochs: 100 # (int) number of epochs"; "";
                     "batch: 16 # (int) images per batch"]
                    false 0 "Train settings: ") = true.
Proof.
  apply (malformed_entry_fails
           ["epochs: 100 # (int) number of epochs"; "";
            "batch: 16 # (int) images per batch"] "" false 0%nat
           "Train settings: ").
  - right. left. reflexivity.
  - reflexivity.
  - reflexivity.
  - reflexivity.
Defined.

Lemma collect_appends (lines : list string) (is_sub : bool) (sub_d : nat)
      (acc out : string) :
  collect lines is_sub sub_d acc = Ok out -> exists body, out = acc ++ body.
Proof.
  revert is_sub sub_d acc.
  induction lines as [|l lines IH]; intros is_sub sub_d acc H.
  - injection H as <-. exists "". now rewrite str_app_nil_r.
  - cbn [collect] in H.
    destruct (section_depth l =? 0)%nat.
    + destruct (parse_entry l) as [[[[k v] ty] desc]|e]; [|discriminate H].
      apply IH in H as [body ->]. rewrite str_app_assoc. eexists. reflexivity.
    + destruct (section_depth l =? 1)%nat.
      * injection H as <-. exists "". now rewrite str_app_nil_r.
      * apply IH in H as [body ->]. rewrite !str_app_assoc.
        eexists. reflexivity.
Qed.

(** X7.  The loop only appends: the text built for a section begins with
    the key of the section ([text_2_key] of its heading), so the mapping
    that is loaded from it has that key at its top. *)
Theorem section_table_starts_with_key (txt : list string) (s out : string) :
  section_table txt s = Ok out ->
  exists body, out = text_2_key s ++ body.
Proof.
  unfold section_table. destruct (index_of s txt); [|discriminate].
  apply collect_appends.
Qed.

Lemma section_table_starts_with_key_witness :
  exists body,
    ("Train settings: " ++ nl ++ "  epochs: " ++ nl ++ "    value: 100 "
       ++ nl ++ "    type: int" ++ nl ++ "    desc: number of epochs")
    = text_2_key "# Train settings" ++ body.
Proof.
  apply (section_table_starts_with_key
           ["# Train settings"; "epochs: 100 # (int) number of epochs"]
           "# Train settings").
  reflexivity.
Defined.

(** *** section_span and has_subsections *)

Lemma marker_not_empty (n : nat) (x : string) :
  startswith x (repeat_str "#" n ++ " ") = true -> String.eqb x "" = false.
Proof.
  intros H. apply prefix_split in H as [rest ->].
  destruct n; reflexivity.
Qed.

(** X8.  [has_subsections] is true exactly when a line of the span
    [txt_data[s0:s1]] starts with the marker of the next level: a line that
    matches is never the empty string, so the [any] over the matches counts
    every match. *)
Theorem has_subsections_spec (txt_data : list string) (s0 s1 : Z)
        (next_lvl : nat) :
  has_subsections txt_data (s0, s1) next_lvl = true <->
  exists x, In x (slice_list txt_data s0 s1) /\
            startswith x (repeat_str "#" next_lvl ++ " ") = true.
Proof.
  unfold has_subsections, any_str. rewrite existsb_exists. split.
  - intros (x & Hx & _). apply filter_In in Hx. exists x. exact Hx.
  - intros (x & Hin & Hx). exists x. split.
    + apply filter_In. split; assumption.
    + now rewrite (marker_not_empty next_lvl x Hx).
Qed.

Lemma slice_list_to_zero {A} (l : list A) (s0 : Z) :
  0 <= s0 -> slice_list l s0 0 = [].
Proof.
  intros H. unfold slice_list, clamp_index.
  destruct (Z.ltb_spec s0 0); [lia|]. cbn [Z.ltb Z.compare].
  rewrite (Z.min_l 0) by lia.
  replace (Z.to_nat (0 - Z.min s0 (Z.of_nat (length l)))) with 0%nat by lia.
  reflexivity.
Qed.

Lemma first_span_none (next_at : string) (l : list (Z * string)) :
  forallb (fun p => negb (startswith (snd p) next_at)) l = true ->
  first_span next_at l = 0.
Proof.
  induction l as [|[n t] l IH]; [reflexivity|]. cbn [forallb snd].
  intros H. apply andb_prop in H as [Ht H]. cbn [first_span].
  apply negb_true_iff in Ht. rewrite Ht. apply IH, H.
Qed.

(** X9.  For a section that no heading of level [lvl] follows,
    [section_span] ends the span at 0; with a start line that is not
    negative the span is then empty, and [has_subsections] answers false
    on it whatever the text holds. *)
Theorem last_section_span (section : Z * string)
        (section_list : list (Z * string)) (lvl i : nat) :
  index_of_section section section_list = Some i ->
  forallb (fun p => negb (startswith (snd p) (repeat_str "#" lvl ++ " ")))
          (skipn (S i) section_list) = true ->
  0 <= fst section ->
  section_span section section_list lvl = Ok (fst section, 0) /\
  forall txt_data next_lvl,
    has_subsections txt_data (fst section, 0) next_lvl = false.
Proof.
  intros Hi Hnone Hpos. split.
  - unfold section_span. rewrite Hi. now rewrite first_span_none.
  - intros txt_data next_lvl. unfold has_subsections.
    now rewrite slice_list_to_zero.
Qed.

Lemma last_section_span_witness :
  section_span (3, "# Tracker") [(0, "# Train settings"); (3, "# Tracker")] 1
    = Ok (3, 0) /\
  forall txt_data next_lvl, has_subsections txt_data (3, 0) next_lvl = false.
Proof.
  apply (last_section_span (3, "# Tracker")
           [(0, "# Train settings"); (3, "# Tracker")] 1 1);
    [reflexivity | reflexivity | simpl; lia].
Defined.

(** *** The loop over the sections *)

Lemma all_ok_spec {A B} (f : A -> result B) (l : list A) (r : list B) :
  all_ok (map f l) = Ok r <-> Forall2 (fun a b => f a = Ok b) l r.
Proof.
  revert r. induction l as [|a l IH]; intros r; cbn [map all_ok].
  - split.
    + intros [= <-]. constructor.
    + intros H. inversion H. reflexivity.
  - destruct (f a) as [b|e] eqn:Ha.
    + destruct (all_ok (map f l)) as [r'|e] eqn:Hl.
      * split.
        -- intros [= <-]. constructor; [exact Ha | now apply IH].
        -- intros H. inversion H as [|a0 b0 l0 r0 Hb Hr]; subst.
           apply IH in Hr. rewrite Ha in Hb.
           injection Hb as <-. now injection Hr as <-.
      * split; [discriminate|].
        intros H. inversion H as [|a0 b0 l0 r0 Hb Hr]; subst.
        apply IH in Hr. discriminate Hr.
    + split; [discriminate|].
      intros H. inversion H as [|a0 b0 l0 r0 Hb Hr]; subst.
      rewrite Ha in Hb. discriminate Hb.
Qed.

(** X10.  The run of the module on the text of the configuration file
    produces its list of tables exactly when the whole text loads as YAML
    (the load of [cfg], made first), every selected section of the prepared
    lines yields a text, and the YAML parser loads each of these texts; the
    tables are then one per selected section, in the order of [sections],
    each the parser's reading of the text of its section.  A text that does
    not load as a whole, or one section that fails, leaves no list at
    all. *)
Theorem tables_one_per_section {Y : Type}
        (yaml_safe_load : string -> result Y)
        (text : string) (ts : list Y) :
  tables yaml_safe_load text = Ok ts <->
  (exists cfg, yaml_safe_load text = Ok cfg) /\
  Forall2 (fun s y => exists section_text,
                        section_table (txt_of_lines (splitlines text)) s
                          = Ok section_text /\
                        yaml_safe_load section_text = Ok y)
          (sections (txt_of_lines (splitlines text))) ts.
Proof.
  unfold tables. destruct (yaml_safe_load text) as [cfg|e] eqn:Hcfg.
  - cbv zeta. rewrite all_ok_spec. split.
    + intros H0. split; [now exists cfg|].
      eapply Forall2_impl; [exact H0|]. intros s y H. cbn beta in H.
      destruct (section_table _ s) as [section_text|e]; [|discriminate H].
      now exists section_text.
    + intros [_ H0]. eapply Forall2_impl; [exact H0|].
      intros s y (section_text & -> & H). exact H.
  - split; [discriminate|]. intros [[cfg H] _]. discriminate H.
Qed.

End BuildTablesMore.

(** * The Explorer: what the operations change *)

Section ExplorerMore.
Import Explorer ExplorerVocabulary ExplorerFrames ExplorerPlots.
Context `{C : Collaborators}.

(** *** The relations are preorders *)

#[local] Instance logs_only_preorder : PreOrder logs_only.
Proof.
  split.
  - intros s. exists []. symmetry. apply log_nil.
  - intros s1 s2 s3 [a ->] [b ->]. exists (a ++ b)%list. apply log_log.
Qed.

#[local] Instance writes_table_preorder (n : string) : PreOrder (writes_table n).
Proof.
  split.
  - intros s. unfold writes_table. auto 10.
  - intros s1 s2 s3 (A1 & A2 & A3 & A4 & A5 & A6) (B1 & B2 & B3 & B4 & B5 & B6).
    unfold writes_table. repeat split; try congruence.
    intros k Hk. rewrite (B6 k Hk). apply A6, Hk.
Qed.

#[local] Instance create_frame_preorder : PreOrder create_frame.
Proof.
  split.
  - intros s. unfold create_frame. auto 10.
  - intros s1 s2 s3 (A1 & A2 & A3 & A4 & A5) (B1 & B2 & B3 & B4 & B5).
    unfold create_frame. split; [congruence|]. split; [congruence|].
    split; [congruence|]. split.
    + destruct B4 as [B4|B4]; [destruct A4 as [A4|A4]|].
      * left. congruence.
      * right. congruence.
      * right. congruence.
    + intros k Hk. rewrite B5 by congruence. apply A5, Hk.
Qed.

Lemma sim_idx_table_name_eq (s s' : state) :
  table_name s' = table_name s ->
  sim_idx_table_name s' = sim_idx_table_name s.
Proof. unfold sim_idx_table_name. now intros ->. Qed.

#[local] Instance index_frame_preorder : PreOrder index_frame.
Proof.
  split.
  - intros s. unfold index_frame. auto 10.
  - intros s1 s2 s3 (A1 & A2 & A3 & A4 & A5 & A6) (B1 & B2 & B3 & B4 & B5 & B6).
    pose proof (sim_idx_table_name_eq _ _ A1) as E.
    unfold index_frame. split; [congruence|]. split; [congruence|].
    split; [congruence|]. split; [congruence|]. split.
    + destruct B5 as [B5|B5]; [destruct A5 as [A5|A5]|].
      * left. congruence.
      * right. congruence.
      * right. congruence.
    + intros k Hk. rewrite B6 by congruence. apply A6, Hk.
Qed.

(** *** Rules *)

Lemma frames_ret {A} (R : state -> state -> Prop) `{!Reflexive R} (a : A) :
  frames R (ret a).
Proof. intros s. reflexivity. Qed.

Lemma frames_raise {A} (R : state -> state -> Prop) `{!Reflexive R} (e : exn) :
  frames R (raise (A := A) e).
Proof. intros s. reflexivity. Qed.

Lemma frames_gets {A} (R : state -> state -> Prop) `{!Reflexive R}
      (f : state -> A) : frames R (gets f).
Proof. intros s. reflexivity. Qed.

Lemma frames_lift {A} (R : state -> state -> Prop) `{!Reflexive R}
      (r : result A) : frames R (lift r).
Proof. intros s. reflexivity. Qed.

Lemma frames_bind {A B} (R : state -> state -> Prop) `{!Transitive R}
      (m : M A) (k : A -> M B) :
  frames R m -> (forall a, frames R (k a)) -> frames R (bind m k).
Proof.
  intros Hm Hk s. unfold bind. specialize (Hm s).
  destruct (m s) as [[a|e] s1]; cbn [snd] in *; [|exact Hm].
  transitivity s1; [exact Hm | apply Hk].
Qed.

(** The continuation may rely on what a completed [m] returns. *)
Lemma frames_bind_returns {A B} (R : state -> state -> Prop) `{!Transitive R}
      (P : A -> Prop) (m : M A) (k : A -> M B) :
  (forall s a s1, m s = (Ok a, s1) -> P a) ->
  frames R m -> (forall a, P a -> frames R (k a)) -> frames R (bind m k).
Proof.
  intros HP Hm Hk s. unfold bind. specialize (Hm s). specialize (HP s).
  destruct (m s) as [[a|e] s1]; cbn [snd] in *; [|exact Hm].
  transitivity s1; [exact Hm | apply Hk, (HP a s1 eq_refl)].
Qed.

Lemma frames_weaken {A} (R R' : state -> state -> Prop) (m : M A) :
  (forall s s', R s s' -> R' s s') -> frames R m -> frames R' m.
Proof. intros H Hm s. apply H, Hm. Qed.

Lemma logs_only_writes (n : string) (s s' : state) :
  logs_only s s' -> writes_table n s s'.
Proof. intros [evs ->]. unfold writes_table. cbn. auto 10. Qed.

Lemma writes_create_frame (s s' : state) :
  writes_table (table_name s) s s' -> create_frame s s'.
Proof.
  intros (A1 & A2 & A3 & A4 & A5 & A6). unfold create_frame. auto 10.
Qed.

Lemma writes_index_frame (s s' : state) :
  writes_table (sim_idx_table_name s) s s' -> index_frame s s'.
Proof.
  intros (A1 & A2 & A3 & A4 & A5 & A6). unfold index_frame. auto 10.
Qed.

(** *** The steps *)

Lemma emit_logs (ev : event) : frames logs_only (emit ev).
Proof. intros s. exists [ev]. reflexivity. Qed.

Lemma first_logs {A} (xs : list A) : frames logs_only (first xs).
Proof. destruct xs; [apply frames_raise | apply frames_ret]; apply _. Qed.

Lemma getitem_logs {A} (l : list A) (i : nat) : frames logs_only (getitem l i).
Proof.
  unfold getitem. destruct (l !! i); [apply frames_ret | apply frames_raise];
    apply _.
Qed.

Lemma has_table_logs (name : string) : frames logs_only (has_table name).
Proof. apply frames_gets, _. Qed.

Lemma open_table_logs (name : string) : frames logs_only (open_table name).
Proof.
  unfold open_table. apply frames_bind; [apply _ | apply emit_logs|].
  intros _. apply frames_bind; [apply _ | apply has_table_logs|].
  intros [|]; [apply frames_ret | apply frames_raise]; apply _.
Qed.

Lemma emb_rows_logs (h : string) : frames logs_only (emb_rows h).
Proof.
  unfold emb_rows. apply frames_bind; [apply _ | apply frames_gets, _|].
  intros d. destruct (d !! h) as [[w rows|rows]|];
    [apply frames_ret | apply frames_raise | apply frames_raise]; apply _.
Qed.

Lemma sim_to_arrow_logs (h : string) : frames logs_only (sim_to_arrow h).
Proof.
  unfold sim_to_arrow. apply frames_bind; [apply _ | apply frames_gets, _|].
  intros d. destruct (d !! h) as [[w rows|rows]|];
    [apply frames_raise | apply frames_ret | apply frames_raise]; apply _.
Qed.

Lemma table_len_logs (h : string) : frames logs_only (table_len h).
Proof.
  unfold table_len. apply frames_bind; [apply _ | apply emb_rows_logs|].
  intros rows. apply frames_ret, _.
Qed.

Lemma search_logs (h : string) (q : tensor) (limit : Z) :
  frames logs_only (search h q limit).
Proof.
  unfold search. apply frames_bind; [apply _ | apply emit_logs|].
  intros _. apply frames_bind; [apply _ | apply emb_rows_logs|].
  intros rows. apply frames_lift, _.
Qed.

Lemma embed_logs (imgs : list image) : frames logs_only (embed imgs).
Proof.
  unfold embed. apply frames_bind; [apply _ | apply emit_logs|].
  intros _. apply frames_lift, _.
Qed.

Lemma set_db_writes (n : string) (t : table_data) (s : state) :
  writes_table n s (snd (set_db (<[n := t]> (db s)) s)).
Proof.
  unfold writes_table. cbn. repeat split; try reflexivity.
  intros k Hk. apply lookup_insert_ne. congruence.
Qed.

Lemma create_table_run (name : string) (empty : table_data) (s : state) :
  create_table name empty s
  = (Ok name,
     {| db := <[name := empty]> (db s); table_name := table_name s;
        data := data s; choice_set := choice_set s;
        sim_index := sim_index s; table := table s;
        trace := trace s ++ [EvCreateTable name] |}).
Proof. reflexivity. Qed.

Lemma create_table_writes (name : string) (empty : table_data) :
  frames (writes_table name) (create_table name empty).
Proof.
  intros s. rewrite create_table_run. unfold writes_table. cbn.
  repeat split; try reflexivity.
  intros k Hk. apply lookup_insert_ne. congruence.
Qed.

Lemma add_emb_writes (h : string) (new : list (emb_row batch)) :
  frames (writes_table h) (add_emb h new).
Proof.
  intros s. unfold add_emb, bind, emit, gets, modify, set_db, raise. cbn.
  destruct new as [|r new]; cbn;
    [apply logs_only_writes; eexists [_]; reflexivity|].
  destruct (db s !! h) as [[w rows|rows]|]; cbn;
    try (apply logs_only_writes; eexists [_]; reflexivity).
  destruct (_ && forallb _ new); cbn;
    [|apply logs_only_writes; eexists [_]; reflexivity].
  unfold writes_table. cbn. repeat split; try reflexivity.
  intros k Hk. apply lookup_insert_ne. congruence.
Qed.

Lemma add_sim_writes (h : string) (new : list sim_row) :
  frames (writes_table h) (add_sim h new).
Proof.
  intros s. unfold add_sim, bind, emit, gets, modify, set_db, raise. cbn.
  destruct new as [|r new]; cbn;
    [apply logs_only_writes; eexists [_]; reflexivity|].
  destruct (db s !! h) as [[w rows|rows]|]; cbn;
    try (apply logs_only_writes; eexists [_]; reflexivity).
  unfold writes_table. cbn. repeat split; try reflexivity.
  intros k Hk. apply lookup_insert_ne. congruence.
Qed.

Lemma yield_batches_logs (dataset : list batch) (info : data_info)
      (exclude : list string) :
  frames logs_only (_yield_batches dataset info exclude).
Proof.
  induction dataset as [|b rest IH]; cbn [_yield_batches].
  - apply frames_ret, _.
  - apply frames_bind; [apply _ | apply embed_logs|]. intros e.
    apply frames_bind; [apply _ | apply first_logs|]. intros v.
    apply frames_bind; [apply _ | apply IH|]. intros rows.
    apply frames_ret, _.
Qed.

Lemma yield_sim_idx_logs (tbl : string) (max_dist : float) (top_k : Z)
      (im_files : list string) (embeddings : list tensor) (range : list nat) :
  frames logs_only
         (_yield_sim_idx tbl max_dist top_k im_files embeddings range).
Proof.
  induction range as [|i range IH]; cbn [_yield_sim_idx].
  - apply frames_ret, _.
  - apply frames_bind; [apply _ | apply getitem_logs|]. intros e.
    apply frames_bind; [apply _ | apply search_logs|]. intros df.
    apply frames_bind; [apply _ | apply frames_lift, _|]. intros sim.
    apply frames_bind; [apply _ | apply getitem_logs|]. intros f.
    apply frames_bind; [apply _ | apply IH|]. intros rest.
    apply frames_ret, _.
Qed.

(** *** Runs that start from a known name *)

Lemma given_preorder {X} (f : state -> X) (x : X)
      (R : state -> state -> Prop) `{!PreOrder R} :
  (forall s s', R s s' -> f s' = f s) -> PreOrder (given f x R).
Proof.
  intros Hf. split.
  - intros s _. reflexivity.
  - intros s1 s2 s3 H12 H23 Hx. specialize (H12 Hx).
    transitivity s2; [exact H12|]. apply H23.
    rewrite (Hf _ _ H12). exact Hx.
Qed.

#[local] Instance given_create_preorder (n : string) :
  PreOrder (given table_name n create_frame).
Proof. apply given_preorder; [apply _|]. now intros s s' [H _]. Qed.

#[local] Instance given_index_preorder (n : string) :
  PreOrder (given sim_idx_table_name n index_frame).
Proof.
  apply given_preorder; [apply _|].
  intros s s' [H _]. now apply sim_idx_table_name_eq.
Qed.

Lemma frames_given_bind {X B} (f : state -> X) (R : state -> state -> Prop)
      (k : X -> M B) :
  (forall x, frames (given f x R) (k x)) -> frames R (bind (gets f) k).
Proof. intros H s. unfold bind, gets. cbn. apply (H (f s) s eq_refl). Qed.

Lemma writes_given_create {A} (n : string) (m : M A) :
  frames (writes_table n) m -> frames (given table_name n create_frame) m.
Proof. intros H s <-. apply writes_create_frame, H. Qed.

Lemma logs_given_create {A} (n : string) (m : M A) :
  frames logs_only m -> frames (given table_name n create_frame) m.
Proof.
  intros H. apply writes_given_create.
  eapply frames_weaken; [apply logs_only_writes | exact H].
Qed.

Lemma writes_given_index {A} (n : string) (m : M A) :
  frames (writes_table n) m ->
  frames (given sim_idx_table_name n index_frame) m.
Proof. intros H s <-. apply writes_index_frame, H. Qed.

Lemma logs_given_index {A} (n : string) (m : M A) :
  frames logs_only m -> frames (given sim_idx_table_name n index_frame) m.
Proof.
  intros H. apply writes_given_index.
  eapply frames_weaken; [apply logs_only_writes | exact H].
Qed.

Lemma set_table_given (n : string) :
  frames (given table_name n create_frame) (set_table n).
Proof. intros s <-. unfold create_frame. cbn. auto 10. Qed.

Lemma set_choice_set_given (n : string) (c : list string) :
  frames (given table_name n create_frame) (set_choice_set c).
Proof. intros s _. unfold create_frame. cbn. auto 10. Qed.

Lemma set_sim_index_given (n : string) :
  frames (given sim_idx_table_name n index_frame) (set_sim_index n).
Proof. intros s <-. unfold index_frame. cbn. auto 10. Qed.

Lemma open_table_returns (name : string) (s : state) (h : string) (s1 : state) :
  open_table name s = (Ok h, s1) -> h = name.
Proof.
  unfold open_table, bind, emit, has_table, gets, modify, ret, raise. cbn.
  destruct (db s !! name); [|discriminate]. now intros [= <- _].
Qed.

Lemma create_table_returns (name : string) (empty : table_data) (s : state)
      (h : string) (s1 : state) :
  create_table name empty s = (Ok h, s1) -> h = name.
Proof. rewrite create_table_run. now intros [= <- _]. Qed.

(** *** The operations *)

Lemma query_logs (imgs : imgs_arg) (limit : Z) :
  frames logs_only (query imgs limit).
Proof.
  unfold query. apply frames_bind; [apply _ | apply frames_gets, _|].
  intros [tbl|]; [|apply frames_raise, _].
  apply frames_bind; [apply _ | |].
  { destruct imgs; (apply frames_ret, _) || (apply frames_raise, _). }
  intros l. apply frames_bind; [apply _ | apply embed_logs|].
  intros embeds. apply frames_bind; [apply _ | | intros q; apply search_logs].
  destruct (1 <? length embeds)%nat; [|apply first_logs].
  apply frames_bind; [apply _ | apply frames_lift, _|].
  intros m. apply frames_ret, _.
Qed.

Lemma sql_query_logs (q : string) : frames logs_only (sql_query q).
Proof.
  unfold sql_query. apply frames_bind; [apply _ | apply frames_gets, _|].
  intros [tbl|]; [|apply frames_raise, _].
  apply frames_bind; [apply _ | apply emit_logs|]. intros _.
  apply frames_bind; [apply _ | apply emb_rows_logs|]. intros rows.
  apply frames_bind; [apply _ | apply frames_lift, _|]. intros found.
  apply frames_raise, _.
Qed.

Lemma check_imgs_or_idxs_logs (img : imgs_arg) (idx : idx_arg) :
  frames logs_only (_check_imgs_or_idxs img idx).
Proof.
  unfold _check_imgs_or_idxs.
  destruct (is_none_img img && is_none_idx idx); [apply frames_raise, _|].
  destruct (negb (is_none_img img) && negb (is_none_idx idx));
    [apply frames_raise, _|].
  assert (Hlookup : forall l : list Z,
    frames logs_only
      (bind (gets table) (fun t =>
         match t with
         | None => raise AttributeError
         | Some tbl =>
             bind (emit (EvTake tbl l)) (fun _ =>
             bind (emb_rows tbl) (fun rows =>
             bind (lift (store_take rows l)) (fun taken =>
             ret (ArgList (map (fun r => ImPath (im_file r)) taken)))))
         end))).
  { intros l. apply frames_bind; [apply _ | apply frames_gets, _|].
    intros [tbl|]; [|apply frames_raise, _].
    apply frames_bind; [apply _ | apply emit_logs|]. intros _.
    apply frames_bind; [apply _ | apply emb_rows_logs|]. intros rows.
    apply frames_bind; [apply _ | apply frames_lift, _|]. intros taken.
    apply frames_ret, _. }
  apply frames_bind; [apply _ | | intros a; apply frames_ret, _].
  destruct idx; [apply frames_ret, _ | apply Hlookup | apply Hlookup].
Qed.

Lemma get_similar_logs (img : imgs_arg) (idx : idx_arg) (limit : Z) :
  frames logs_only (get_similar img idx limit).
Proof.
  unfold get_similar.
  apply frames_bind; [apply _ | apply check_imgs_or_idxs_logs|].
  intros l. apply query_logs.
Qed.

Lemma create_embeddings_table_frames (force : bool) (split : string) :
  frames create_frame (create_embeddings_table force split).
Proof.
  unfold create_embeddings_table.
  apply frames_bind; [apply _ | apply frames_gets, _|]. intros t.
  destruct (_ && negb force); [apply frames_ret, _|].
  apply frames_given_bind. intros n.
  apply frames_bind; [apply _ | apply logs_given_create, has_table_logs|].
  intros present. destruct (present && negb force).
  { apply frames_bind_returns with (P := fun h => h = n);
      [apply _ | apply open_table_returns
       | apply logs_given_create, open_table_logs|].
    intros h ->. apply set_table_given. }
  apply frames_bind; [apply _ | apply frames_gets, _|].
  intros [d|]; [|apply frames_raise, _].
  apply frames_bind; [apply _ | |].
  { apply logs_given_create.
    apply frames_bind; [apply _ | apply emit_logs|]. intros _.
    apply frames_lift, _. }
  intros info. destruct (data_info_get info split) as [paths|];
    [|apply frames_raise, _].
  apply frames_bind; [apply _ | apply set_choice_set_given|]. intros _.
  apply frames_bind; [apply _ | |].
  { apply logs_given_create.
    apply frames_bind; [apply _ | apply emit_logs|]. intros _.
    apply frames_lift, _. }
  intros dataset.
  apply frames_bind; [apply _ | apply logs_given_create, first_logs|].
  intros b0.
  apply frames_bind; [apply _ | apply logs_given_create, embed_logs|].
  intros e.
  apply frames_bind; [apply _ | apply logs_given_create, first_logs|].
  intros e0.
  apply frames_bind_returns with (P := fun h => h = n);
    [apply _ | apply create_table_returns
     | apply writes_given_create, create_table_writes|].
  intros tbl ->.
  apply frames_bind;
    [apply _ | apply logs_given_create, yield_batches_logs|].
  intros rows.
  apply frames_bind;
    [apply _ | apply writes_given_create, add_emb_writes|].
  intros _. apply set_table_given.
Qed.

Lemma similarity_index_frames (max_dist : float) (top_k : option float)
      (force : bool) :
  frames index_frame (similarity_index max_dist top_k force).
Proof.
  unfold similarity_index.
  apply frames_bind; [apply _ | apply frames_gets, _|].
  intros [tbl|]; [|apply frames_raise, _].
  apply frames_bind; [apply _ | apply frames_gets, _|]. intros cached.
  assert (Hcached : forall h, frames index_frame (sim_to_arrow h)).
  { intros h. eapply frames_weaken; [|apply sim_to_arrow_logs].
    intros s s' H. apply writes_index_frame, logs_only_writes, H. }
  assert (Hbuild : frames index_frame
    (bind (match top_k with
           | Some k =>
               if PyFloat.truthy k && negb ((k <=? 1)%float && (0 <=? k)%float)
               then raise (ValueError "top_k must be between 0.0 and 1.0.")
               else ret tt
           | None => ret tt
           end) (fun _ =>
     bind (if (max_dist <? 0)%float
           then raise (ValueError "max_dist must be greater than 0.")
           else ret tt) (fun _ =>
     bind (table_len tbl) (fun n =>
     bind (lift (top_k_limit top_k n)) (fun top_k0 =>
     bind (bind (emit (EvScan tbl)) (fun _ => emb_rows tbl)) (fun features =>
     bind (gets sim_idx_table_name) (fun name =>
     bind (create_table name (SimTable [])) (fun sim_table =>
     bind (_yield_sim_idx tbl max_dist top_k0 (map im_file features)
             (map vector features) (seq 0 (length (map vector features))))
          (fun rows =>
     bind (add_sim sim_table rows) (fun _ =>
     bind (set_sim_index sim_table) (fun _ =>
     sim_to_arrow sim_table)))))))))))).
  { apply frames_bind; [apply _ | |].
    { destruct top_k as [k|]; [|apply frames_ret, _].
      destruct (_ && _); [apply frames_raise, _ | apply frames_ret, _]. }
    intros _. apply frames_bind; [apply _ | |].
    { destruct (max_dist <? 0)%float;
        [apply frames_raise, _ | apply frames_ret, _]. }
    intros _.
    assert (Hlogs : forall A (m : M A), frames logs_only m ->
                                        frames index_frame m).
    { intros A m Hm. eapply frames_weaken; [|exact Hm].
      intros s s' H. apply writes_index_frame, logs_only_writes, H. }
    apply frames_bind; [apply _ | apply Hlogs, table_len_logs|]. intros n.
    apply frames_bind; [apply _ | apply frames_lift, _|]. intros top_k0.
    apply frames_bind; [apply _ | |].
    { apply Hlogs. apply frames_bind; [apply _ | apply emit_logs|].
      intros _. apply emb_rows_logs. }
    intros features. apply frames_given_bind. intros name.
    apply frames_bind_returns with (P := fun h => h = name);
      [apply _ | apply create_table_returns
       | apply writes_given_index, create_table_writes|].
    intros sim_table ->.
    apply frames_bind;
      [apply _ | apply logs_given_index, yield_sim_idx_logs|].
    intros rows.
    apply frames_bind; [apply _ | apply writes_given_index, add_sim_writes|].
    intros _.
    apply frames_bind; [apply _ | apply set_sim_index_given|].
    intros _. apply logs_given_index, sim_to_arrow_logs. }
  destruct cached as [h|], force; solve [apply Hcached | exact Hbuild].
Qed.

(** *** The bulk load of create_embeddings_table *)

Lemma embed_run (imgs : list image) (s : state) :
  embed imgs s = (model_embed imgs, log s [EvEmbed imgs]).
Proof.
  unfold embed, bind. rewrite emit_run. unfold lift.
  now destruct (model_embed imgs).
Qed.

Lemma rows_of_length (info : data_info) (dataset : list batch)
      (rows : list (emb_row batch)) :
  rows_of info dataset = Some rows -> length rows = length dataset.
Proof.
  revert rows. induction dataset as [|b rest IH]; intros rows H; cbn in H.
  - now injection H as <-.
  - destruct (row_of info b); [|discriminate H].
    destruct (rows_of info rest) as [rs|]; [|discriminate H].
    injection H as <-. cbn. f_equal. now apply IH.
Qed.

Lemma yield_batches_run (info : data_info) (dataset : list batch)
      (rows : list (emb_row batch)) (s : state) :
  rows_of info dataset = Some rows ->
  _yield_batches dataset info exclude_keys s
  = (Ok rows, log s (embed_calls info dataset)).
Proof.
  revert rows s. induction dataset as [|b rest IH]; intros rows s H;
    cbn [rows_of] in H.
  - injection H as <-. cbn. unfold ret. now rewrite log_nil.
  - unfold row_of, embedding_of in H. cbn [_yield_batches]. cbv zeta.
    fold (stored_item info b). unfold bind at 1. rewrite embed_run.
    destruct (model_embed [ImPath (batch_im_file (stored_item info b))])
      as [[|v vs]|e]; try discriminate H.
    destruct (rows_of info rest) as [rs|]; [|discriminate H].
    injection H as <-.
    unfold bind at 1, first at 1, ret at 1.
    unfold bind at 1. rewrite (IH rs _ eq_refl), log_log. reflexivity.
Qed.

Lemma create_embeddings_table_load
      (s : state) (force : bool) (split d : string) (info : data_info)
      (paths : split_paths) (b0 : batch) (ds : list batch)
      (e0 : tensor) (es : list tensor) :
  rebuilds force s ->
  data s = Some d ->
  check_det_dataset d = Ok info ->
  data_info_get info split = Some paths ->
  explorer_dataset (choice_of paths) info model_task = Ok (b0 :: ds) ->
  model_embed [ImPath (batch_im_file b0)] = Ok (e0 :: es) ->
  create_embeddings_table force split s =
  bind (_yield_batches (b0 :: ds) info exclude_keys) (fun rows =>
    bind (add_emb (table_name s) rows) (fun _ => set_table (table_name s)))
    (table_created s d (choice_of paths) b0 (length e0)).
Proof.
  intros Hre Hdata Hinfo Hsplit Hds Hemb.
  assert (H1 : (match table s with Some _ => true | None => false end)
               && negb force = false).
  { destruct Hre as [->|[-> _]]; [apply andb_false_r | reflexivity]. }
  assert (H2 : (match db s !! table_name s with
                | Some _ => true | None => false end)
               && negb force = false).
  { destruct Hre as [->|[_ ->]]; [apply andb_false_r | reflexivity]. }
  unfold create_embeddings_table.
  unfold bind at 1, gets at 1. rewrite H1.
  unfold bind at 1, gets at 1. cbn beta.
  unfold bind at 1, has_table at 1, gets at 1. cbn beta. rewrite H2.
  unfold bind at 1, gets at 1. rewrite Hdata.
  unfold bind at 1. unfold bind at 1. rewrite emit_run.
  unfold lift at 1. rewrite Hinfo, Hsplit.
  fold (choice_of paths).
  unfold bind at 1, set_choice_set at 1, modify at 1.
  unfold bind at 1. unfold bind at 1, emit at 1, modify at 1.
  unfold lift at 1. rewrite Hds.
  unfold bind at 1, first at 1, ret at 1.
  unfold bind at 1. rewrite embed_run, Hemb.
  unfold bind at 1, first at 1, ret at 1.
  unfold bind at 1. rewrite create_table_run.
  unfold table_created, log. cbn. rewrite <- !app_assoc. reflexivity.
Qed.

Lemma rows_of_not_empty (info : data_info) (b0 : batch) (ds : list batch)
      (rows : list (emb_row batch)) :
  rows_of info (b0 :: ds) = Some rows -> rows <> [].
Proof.
  intros H ->. apply rows_of_length in H. discriminate H.
Qed.

Lemma add_emb_run (h : string) (w : nat) (old new : list (emb_row batch))
      (s : state) :
  new <> [] ->
  db s !! h = Some (EmbTable w old) ->
  forallb (fun r => (length (vector r) =? w)%nat) new = true ->
  add_emb h new s =
  (Ok tt,
   {| db := <[h := EmbTable w (old ++ new)]> (db s);
      table_name := table_name s; data := data s;
      choice_set := choice_set s; sim_index := sim_index s;
      table := table s;
      trace := trace s ++ [EvAdd h (length new)] |}).
Proof.
  intros Hne Hdb Hfit. destruct new as [|r new]; [contradiction|].
  unfold add_emb, bind, emit, gets, modify, set_db, raise.
  cbn -[forallb]. rewrite Hdb, Hfit. reflexivity.
Qed.

(** X11.  A build that meets no failure.  When there is no table to reuse
    or the rebuild is forced, the dataset is described, has the split and
    at least one item, and the model embeds every item with the width of
    the first sample, [create_embeddings_table] returns and leaves: the
    table named [table_name] holding exactly one row per dataset item, in
    dataset order (whatever it held before is gone); [choice_set] set to
    the paths of the split; the handle assigned.  The model is called once
    for the first item as the dataset gives it, then once per item, and the
    rows are added in one call. *)
Theorem create_embeddings_table_builds
        (s : state) (force : bool) (split d : string) (info : data_info)
        (paths : split_paths) (b0 : batch) (ds : list batch)
        (e0 : tensor) (es : list tensor) (rows : list (emb_row batch)) :
  rebuilds force s ->
  data s = Some d ->
  check_det_dataset d = Ok info ->
  data_info_get info split = Some paths ->
  explorer_dataset (choice_of paths) info model_task = Ok (b0 :: ds) ->
  model_embed [ImPath (batch_im_file b0)] = Ok (e0 :: es) ->
  rows_of info (b0 :: ds) = Some rows ->
  forallb (fun r => (length (vector r) =? length e0)%nat) rows = true ->
  create_embeddings_table force split s =
    (Ok tt, table_built s d (choice_of paths) b0 (length e0)
                        (embed_calls info (b0 :: ds)) rows) /\
  length rows = length (b0 :: ds).
Proof.
  intros Hre Hdata Hinfo Hsplit Hds Hemb Hrows Hfit.
  split; [|now apply (rows_of_length info)].
  rewrite (create_embeddings_table_load s force split d info paths b0 ds e0 es)
    by assumption.
  unfold bind at 1. rewrite (yield_batches_run info _ rows) by exact Hrows.
  unfold bind at 1.
  rewrite (add_emb_run _ (length e0) [] rows);
    [|now apply (rows_of_not_empty info b0 ds)
     |cbn; apply lookup_insert_eq|exact Hfit].
  unfold set_table, modify, table_built. cbn.
  rewrite insert_insert_eq, <- !app_assoc. reflexivity.
Qed.

(** X12.  A load that fails.  Under the same conditions up to the first
    sample, when the call raises (the model fails on an item, or a row does
    not fit the schema), the table named [table_name] has been replaced by
    an empty one of the new width: rows it held before are lost, none of
    the new rows is stored.  The handle [table] is not assigned;
    [choice_set] is. *)
Theorem create_embeddings_table_failed_load
        (s : state) (force : bool) (split d : string) (info : data_info)
        (paths : split_paths) (b0 : batch) (ds : list batch)
        (e0 : tensor) (es : list tensor) (e : exn) :
  rebuilds force s ->
  data s = Some d ->
  check_det_dataset d = Ok info ->
  data_info_get info split = Some paths ->
  explorer_dataset (choice_of paths) info model_task = Ok (b0 :: ds) ->
  model_embed [ImPath (batch_im_file b0)] = Ok (e0 :: es) ->
  fst (create_embeddings_table force split s) = Raise e ->
  db (snd (create_embeddings_table force split s))
    = <[table_name s := EmbTable (length e0) []]> (db s) /\
  table (snd (create_embeddings_table force split s)) = table s /\
  choice_set (snd (create_embeddings_table force split s))
    = Some (choice_of paths).
Proof.
  intros Hre Hdata Hinfo Hsplit Hds Hemb.
  rewrite (create_embeddings_table_load s force split d info paths b0 ds e0 es)
    by assumption.
  set (s3 := table_created s d (choice_of paths) b0 (length e0)).
  unfold bind at 1 3 5 7.
  destruct (yield_batches_logs (b0 :: ds) info exclude_keys s3) as [evs Hevs].
  destruct (_yield_batches (b0 :: ds) info exclude_keys s3) as [[rows|e'] s4];
    cbn [snd] in Hevs; subst s4.
  2:{ intros _. cbn. auto. }
  unfold add_emb, bind, emit, gets, modify, set_db, set_table, raise.
  destruct rows as [|r rows]; [intros _; cbn; auto|].
  cbn -[forallb]. rewrite lookup_insert_eq.
  destruct (forallb _ (r :: rows)); cbn; [discriminate | auto].
Qed.

Ltac start :=
  unfold create_embeddings_table;
  unfold bind at 1, gets at 1;
  match goal with H : _ && negb _ = false |- _ => rewrite H end;
  unfold bind at 1, gets at 1; cbn beta;
  unfold bind at 1, has_table at 1, gets at 1; cbn beta;
  match goal with H : _ && negb _ = false |- _ => rewrite H end;
  unfold bind at 1, gets at 1.

(** X13.  Failures of [create_embeddings_table] before any table is
    created, when there is no table to reuse or the rebuild is forced.
    Without [data] the call raises a ValueError and changes nothing; when
    the dataset description lacks the split it raises a ValueError after
    the dataset check alone; a failing dataset check propagates; for a split
    without items it raises IndexError with [choice_set] already assigned.
    In each case the database is as it was and the model was not called. *)
Theorem create_embeddings_table_early_failures
        (s : state) (force : bool) (split : string) :
  rebuilds force s ->
  (data s = None ->
   create_embeddings_table force split s =
   (Raise (ValueError "Data must be provided to create embeddings table"), s)) /\
  (forall d e,
      data s = Some d -> check_det_dataset d = Raise e ->
      create_embeddings_table force split s =
      (Raise e, log s [EvCheckDataset d])) /\
  (forall d info,
      data s = Some d -> check_det_dataset d = Ok info ->
      data_info_get info split = None ->
      create_embeddings_table force split s =
      (Raise (ValueError "Split is not found in the dataset"),
       log s [EvCheckDataset d])) /\
  (forall d info paths,
      data s = Some d -> check_det_dataset d = Ok info ->
      data_info_get info split = Some paths ->
      explorer_dataset (choice_of paths) info model_task = Ok [] ->
      create_embeddings_table force split s =
      (Raise IndexError,
       {| db := db s; table_name := table_name s; data := data s;
          choice_set := Some (choice_of paths); sim_index := sim_index s;
          table := table s;
          trace := trace s ++ [EvCheckDataset d;
                               EvLoadDataset (choice_of paths)] |})).
Proof.
  intros Hre.
  assert (H1 : (match table s with Some _ => true | None => false end)
               && negb force = false).
  { destruct Hre as [->|[-> _]]; [apply andb_false_r | reflexivity]. }
  assert (H2 : (match db s !! table_name s with
                | Some _ => true | None => false end)
               && negb force = false).
  { destruct Hre as [->|[_ ->]]; [apply andb_false_r | reflexivity]. }
  split; [|split; [|split]].
  - intros Hdata.
    start. now rewrite Hdata.
  - intros d e Hdata Hcheck.
    start.
    rewrite Hdata. unfold bind at 1. unfold bind at 1. rewrite emit_run.
    unfold lift at 1. now rewrite Hcheck.
  - intros d info Hdata Hcheck Hsplit.
    start.
    rewrite Hdata. unfold bind at 1. unfold bind at 1. rewrite emit_run.
    unfold lift at 1. now rewrite Hcheck, Hsplit.
  - intros d info paths Hdata Hcheck Hsplit Hds.
    start.
    rewrite Hdata. unfold bind at 1. unfold bind at 1. rewrite emit_run.
    unfold lift at 1. rewrite Hcheck, Hsplit. fold (choice_of paths).
    unfold bind at 1, set_choice_set at 1, modify at 1.
    unfold bind at 1. unfold bind at 1, emit at 1, modify at 1.
    unfold lift at 1. rewrite Hds. cbn. now rewrite <- app_assoc, Hdata.
Qed.

(** X14.  Whatever its arguments and whether it returns or raises,
    [create_embeddings_table] changes nothing but [choice_set], the handle
    [table] (which it leaves as it was or sets to the table named
    [table_name]), the contents of that one table, and the log of calls:
    [table_name], [data], the handle of the similarity index and every other
    table of the database, the stored similarity index among them, are as
    before. *)
Theorem create_embeddings_table_frame
        (s : state) (force : bool) (split : string) :
  create_frame s (snd (create_embeddings_table force split s)) /\
  db (snd (create_embeddings_table force split s)) !! sim_idx_table_name s
    = db s !! sim_idx_table_name s.
Proof.
  pose proof (create_embeddings_table_frames force split s) as H.
  split; [exact H|].
  destruct H as (_ & _ & _ & _ & H). apply H.
  intros E. symmetry in E. now apply sim_name_fresh in E.
Qed.

(** X15.  [query], [sql_query] and [get_similar] only read: whatever the
    arguments and the outcome, the state after the call is the state
    before it with calls added to the log. *)
Theorem read_operations_only_log
        (s : state) (imgs : imgs_arg) (idx : idx_arg) (limit : Z)
        (q : string) :
  logs_only s (snd (query imgs limit s)) /\
  logs_only s (snd (sql_query q s)) /\
  logs_only s (snd (get_similar imgs idx limit s)).
Proof.
  split; [apply query_logs|]. split; [apply sql_query_logs|].
  apply get_similar_logs.
Qed.

(** X16.  Whatever its arguments and whether it returns or raises,
    [similarity_index] changes nothing but the handle [sim_index] (which it
    leaves as it was or sets to the table named [sim_idx_table_name]), the
    contents of that one table, and the log of calls.  The embedding table
    in particular keeps its rows. *)
Theorem similarity_index_frame
        (s : state) (max_dist : float) (top_k : option float) (force : bool) :
  index_frame s (snd (similarity_index max_dist top_k force s)) /\
  db (snd (similarity_index max_dist top_k force s)) !! table_name s
    = db s !! table_name s.
Proof.
  pose proof (similarity_index_frames max_dist top_k force s) as H.
  split; [exact H|].
  destruct H as (_ & _ & _ & _ & _ & H). apply H, sim_name_fresh.
Qed.

Lemma own_handles_create_frame (s s' : state) :
  create_frame s s' -> own_handles s -> own_handles s'.
Proof.
  intros (A1 & A2 & A3 & A4 & A5) [Ht Hi].
  pose proof (sim_idx_table_name_eq _ _ A1) as E.
  unfold own_handles. rewrite A1, A3, E. split; [|exact Hi].
  destruct A4 as [->| ->]; [exact Ht | now right].
Qed.

Lemma own_handles_index_frame (s s' : state) :
  index_frame s s' -> own_handles s -> own_handles s'.
Proof.
  intros (A1 & A2 & A3 & A4 & A5 & A6) [Ht Hi].
  pose proof (sim_idx_table_name_eq _ _ A1) as E.
  unfold own_handles. rewrite A1, A4, E. split; [exact Ht|].
  destruct A5 as [->| ->]; [exact Hi | now right].
Qed.

Lemma own_handles_logs (s s' : state) :
  logs_only s s' -> own_handles s -> own_handles s'.
Proof. intros [evs ->] H. exact H. Qed.

(** X17.  The handles an Explorer holds are those of its own tables: a
    new object holds none, and after any operation, completed or failed,
    [table] is unset or the handle of the table named [table_name], and
    [sim_index] is unset or the handle of the table named
    [sim_idx_table_name]. *)
Theorem explorer_holds_own_handles
        (s : state) (force : bool) (split : string)
        (max_dist : float) (top_k : option float)
        (imgs : imgs_arg) (idx : idx_arg) (limit : Z) (q : string) :
  own_handles s ->
  own_handles (snd (create_embeddings_table force split s)) /\
  own_handles (snd (similarity_index max_dist top_k force s)) /\
  own_handles (snd (query imgs limit s)) /\
  own_handles (snd (sql_query q s)) /\
  own_handles (snd (get_similar imgs idx limit s)) /\
  forall conn data_arg stem, own_handles (init conn data_arg stem).
Proof.
  intros H.
  split; [eapply own_handles_create_frame, H;
          apply create_embeddings_table_frames|].
  split; [eapply own_handles_index_frame, H; apply similarity_index_frames|].
  split; [eapply own_handles_logs, H; apply query_logs|].
  split; [eapply own_handles_logs, H; apply sql_query_logs|].
  split; [eapply own_handles_logs, H; apply get_similar_logs|].
  intros conn data_arg stem. split; left; reflexivity.
Qed.

(** *** The cached similarity index *)

Lemma cached_index_run (s : state) (tbl h : string) (cached : list sim_row)
      (max_dist : float) (top_k : option float) :
  table s = Some tbl -> sim_index s = Some h ->
  db s !! h = Some (SimTable cached) ->
  similarity_index max_dist top_k false s = (Ok cached, s).
Proof.
  intros Ht Hs Hdb. unfold similarity_index, sim_to_arrow, bind, gets, ret.
  cbn beta iota. rewrite Ht, Hs, Hdb. reflexivity.
Qed.

Lemma forced_create_assigns (split : string) (s s' : state) :
  create_embeddings_table true split s = (Ok tt, s') ->
  table s' = Some (table_name s).
Proof.
  intros Hrun.
  enough (H : ensures (fun s0 => s0 = s) (create_embeddings_table true split)
                      (fun _ s1 => table s1 = Some (table_name s)
                                   /\ named (table_name s) s1))
    by exact (proj1 (H s eq_refl tt s' Hrun)).
  unfold create_embeddings_table.
  eapply ensures_bind; [apply ensures_gets|]. intros t.
  rewrite andb_false_r.
  apply (ensures_weaken _ (named (table_name s)));
    [intros s0 [-> _]; reflexivity|].
  eapply ensures_bind; [apply ensures_gets|]. intros name.
  apply (ensures_weaken _ (fun s0 => named (table_name s) s0
                                     /\ name = table_name s));
    [intros s0 [H ->]; split; [exact H | exact H]|].
  apply ensures_assume. intros ->.
  eapply ensures_bind; [apply named_has_table|]. intros present.
  rewrite andb_false_r.
  eapply ensures_bind; [apply ensures_gets|]. intros [d|];
    [|apply ensures_raise].
  apply (ensures_weaken _ (named (table_name s))); [intros s0 [H _]; exact H|].
  eapply ensures_bind.
  { eapply ensures_bind; [apply named_emit|]. intros ?. apply ensures_lift. }
  intros info. destruct (data_info_get info split) as [paths|];
    [|apply ensures_raise].
  eapply ensures_bind; [apply named_set_choice_set|]. intros ?.
  eapply ensures_bind.
  { eapply ensures_bind; [apply named_emit|]. intros ?. apply ensures_lift. }
  intros dataset.
  eapply ensures_bind; [apply ensures_first|]. intros b0.
  eapply ensures_bind; [apply named_embed|]. intros e.
  eapply ensures_bind; [apply ensures_first|]. intros e0.
  eapply ensures_bind; [apply named_create_table|]. intros tbl.
  apply (ensures_weaken _ (fun s0 => named (table_name s) s0
                                     /\ tbl = table_name s));
    [intros s0 [-> H]; auto|].
  apply ensures_assume. intros ->.
  eapply ensures_bind; [apply named_yield_batches|]. intros rows.
  eapply ensures_bind; [apply named_add_emb|]. intros ?.
  apply named_set_table.
Qed.

(** X18.  A forced rebuild of the embedding table does not invalidate the
    similarity index: the index computed from the old rows stays cached,
    and [similarity_index] with [force=False] keeps returning it, for any
    [max_dist] and [top_k], after the table was rebuilt. *)
Theorem rebuilt_table_keeps_stale_index
        (s s' : state) (split : string) (cached : list sim_row)
        (max_dist : float) (top_k : option float) :
  sim_index s = Some (sim_idx_table_name s) ->
  db s !! sim_idx_table_name s = Some (SimTable cached) ->
  create_embeddings_table true split s = (Ok tt, s') ->
  similarity_index max_dist top_k false s' = (Ok cached, s').
Proof.
  intros Hs Hdb Hrun.
  pose proof (create_embeddings_table_frames true split s) as H.
  rewrite Hrun in H. cbn [snd] in H.
  destruct H as (_ & _ & Hi & _ & Hk).
  apply (cached_index_run s' (table_name s) (sim_idx_table_name s)).
  - apply (forced_create_assigns split), Hrun.
  - congruence.
  - rewrite Hk; [exact Hdb|].
    intros E. symmetry in E. now apply sim_name_fresh in E.
Qed.

Lemma ensures_true {A} (P : state -> Prop) (m : M A) :
  ensures P m (fun _ _ => True).
Proof. intros s _ a s' _. exact I. Qed.

Lemma sim_to_arrow_ensures (P : state -> Prop) (h : string) :
  ensures P (sim_to_arrow h)
          (fun recs s => P s /\ db s !! h = Some (SimTable recs)).
Proof.
  intros s HP recs s' Hrun.
  unfold sim_to_arrow, bind, gets, ret, raise in Hrun. cbn beta iota in Hrun.
  destruct (db s !! h) as [[w rows|rows]|] eqn:E; try discriminate Hrun.
  injection Hrun as <- <-. auto.
Qed.

Lemma set_sim_index_ensures (P : state -> Prop) (h : string) :
  ensures P (set_sim_index h) (fun _ s => sim_index s = Some h).
Proof. intros s _ a s' [= _ <-]. reflexivity. Qed.

(** What [similarity_index] returns is what the handle it holds reads. *)
Lemma similarity_index_returns_cached
      (max_dist : float) (top_k : option float) (force : bool) :
  ensures (fun _ => True) (similarity_index max_dist top_k force)
          (fun recs s' => exists h, sim_index s' = Some h /\
                                    db s' !! h = Some (SimTable recs)).
Proof.
  unfold similarity_index.
  eapply ensures_bind; [apply ensures_gets|].
  intros [tbl|]; [|apply ensures_raise].
  eapply ensures_bind; [apply ensures_gets|]. intros cached.
  assert (Hbuild : forall (pre : M unit) (P : state -> Prop),
    ensures P
      (bind pre (fun _ =>
       bind (if (max_dist <? 0)%float
             then raise (ValueError "max_dist must be greater than 0.")
             else ret tt) (fun _ =>
       bind (table_len tbl) (fun n =>
       bind (lift (top_k_limit top_k n)) (fun top_k0 =>
       bind (bind (emit (EvScan tbl)) (fun _ => emb_rows tbl)) (fun features =>
       bind (gets sim_idx_table_name) (fun name =>
       bind (create_table name (SimTable [])) (fun sim_table =>
       bind (_yield_sim_idx tbl max_dist top_k0 (map im_file features)
               (map vector features) (seq 0 (length (map vector features))))
            (fun rows =>
       bind (add_sim sim_table rows) (fun _ =>
       bind (set_sim_index sim_table) (fun _ =>
       sim_to_arrow sim_table)))))))))))
      (fun recs s' => exists h, sim_index s' = Some h /\
                                db s' !! h = Some (SimTable recs))).
  { intros pre P.
    eapply ensures_bind; [apply ensures_true|]. intros ?.
    eapply ensures_bind; [apply ensures_true|]. intros ?.
    eapply ensures_bind; [apply ensures_true|]. intros n.
    eapply ensures_bind; [apply ensures_true|]. intros top_k0.
    eapply ensures_bind; [apply ensures_true|]. intros features.
    eapply ensures_bind; [apply ensures_true|]. intros name.
    eapply ensures_bind; [apply ensures_true|]. intros sim_table.
    eapply ensures_bind; [apply ensures_true|]. intros rows.
    eapply ensures_bind; [apply ensures_true|]. intros ?.
    eapply ensures_bind; [apply set_sim_index_ensures|]. intros ?.
    intros s0 H0 recs s1 Hrun.
    destruct (sim_to_arrow_ensures (fun s => sim_index s = Some sim_table)
                                   sim_table s0 H0 recs s1 Hrun) as [H1 H2].
    exists sim_table. auto. }
  destruct cached as [h|], force; try apply Hbuild.
  intros s0 [_ H0] recs s1 Hrun.
  destruct (sim_to_arrow_ensures (fun s => Some h = sim_index s) h
                                 s0 H0 recs s1 Hrun) as [H1 H2].
  exists h. auto.
Qed.

Lemma similarity_index_needs_table
      (s : state) (max_dist : float) (top_k : option float) (force : bool)
      (recs : list sim_row) (s' : state) :
  similarity_index max_dist top_k force s = (Ok recs, s') ->
  exists tbl, table s' = Some tbl.
Proof.
  intros Hrun.
  pose proof (similarity_index_frames max_dist top_k force s) as H.
  rewrite Hrun in H. destruct H as (_ & _ & _ & Ht & _). cbn [snd] in Ht.
  rewrite Ht. destruct (table s) as [tbl|] eqn:E; [now exists tbl|].
  unfold similarity_index, bind, gets in Hrun. cbn beta iota in Hrun.
  rewrite E in Hrun. discriminate Hrun.
Qed.

Lemma similarity_index_again
      (s : state) (max_dist : float) (top_k : option float) (force : bool)
      (recs : list sim_row) (s' : state)
      (max_dist' : float) (top_k' : option float) :
  similarity_index max_dist top_k force s = (Ok recs, s') ->
  similarity_index max_dist' top_k' false s' = (Ok recs, s').
Proof.
  intros Hrun.
  destruct (similarity_index_needs_table _ _ _ _ _ _ Hrun) as [tbl Ht].
  destruct (similarity_index_returns_cached max_dist top_k force
              s I recs s' Hrun) as (h & Hs & Hdb).
  now apply (cached_index_run s' tbl h).
Qed.

(** X19.  The index is computed once.  After a call of [similarity_index]
    that returned, with any arguments, every call with [force=False]
    returns the same records and changes nothing, whatever [max_dist] and
    [top_k] it is given. *)
Theorem similarity_index_is_cached
        (s : state) (max_dist : float) (top_k : option float) (force : bool)
        (recs : list sim_row) (s' : state)
        (max_dist' : float) (top_k' : option float) :
  similarity_index max_dist top_k force s = (Ok recs, s') ->
  similarity_index max_dist' top_k' false s' = (Ok recs, s').
Proof.
  intros Hrun.
  destruct (similarity_index_needs_table _ _ _ _ _ _ Hrun) as [tbl Ht].
  destruct (similarity_index_returns_cached max_dist top_k force
              s I recs s' Hrun) as (h & Hs & Hdb).
  unfold similarity_index, sim_to_arrow, bind, gets, ret.
  cbn beta iota. rewrite Ht, Hs, Hdb. reflexivity.
Qed.

(** X20.  [plot_similarity_index], whose [force] defaults to false, after
    a completed [similarity_index]: it computes nothing and changes
    nothing, and the bars it draws are one per record of that index, at
    0, 1, 2, ..., with the counts of the records as heights, whatever
    [max_dist] and [top_k] it is given. *)
Theorem plot_similarity_index_draws_cached
        (s : state) (max_dist : float) (top_k : option float) (force : bool)
        (recs : list sim_row) (s' : state)
        (max_dist' : float) (top_k' : option float) :
  similarity_index max_dist top_k force s = (Ok recs, s') ->
  plot_similarity_index max_dist' top_k' false s' =
  (Ok (map Z.of_nat (seq 0 (length recs)), map sim_count recs), s').
Proof.
  intros Hrun. unfold plot_similarity_index, bind.
  rewrite (similarity_index_again _ _ _ _ _ _ max_dist' top_k' Hrun).
  cbv zeta. now rewrite length_map.
Qed.

(** X21.  A [top_k] that is falsy (0.0 or -0.0) is no bound at all:
    [similarity_index] behaves as when [top_k] is not given, and every row
    is queried for as many neighbours as the table has rows. *)
Theorem similarity_index_falsy_top_k
        (s : state) (max_dist k : float) (force : bool) :
  PyFloat.truthy k = false ->
  similarity_index max_dist (Some k) force s
  = similarity_index max_dist None force s.
Proof.
  intros Hk. unfold similarity_index, top_k_limit. rewrite Hk. reflexivity.
Qed.

(** X25.  For a fraction [t] with 0 < t <= 1, when no index is cached or
    the rebuild is forced and [max_dist] is not negative,
    [similarity_index] issues every per-row query with the limit
    max(int(t * n), 1), [n] being the number of rows of the table (the
    product is the float product, [int] truncates): the rows are queried in
    table order, each with that limit, those of a first part of the table
    if the call raised, all of them if it returned. *)
Theorem similarity_index_fraction_limit
        (s : state) (w : nat) (rows : list (emb_row batch))
        (max_dist t : float) (force : bool) (L : Z) :
  table s = Some (table_name s) ->
  db s !! table_name s = Some (EmbTable w rows) ->
  force = true \/ sim_index s = None ->
  (max_dist <? 0)%float = false ->
  (0 <? t)%float = true -> (t <=? 1)%float = true ->
  fraction_limit t (Z.of_nat (length rows)) = Ok L ->
  issues_self_queries s (similarity_index max_dist (Some t) force s) rows L.
Proof.
  intros Ht Hdb Hfresh Hmd Hpos Hle HL.
  destruct (positive_truthy t Hpos) as [Htruthy Hge].
  apply (similarity_index_issues s w); try assumption.
  - cbn. unfold in_unit_interval. now rewrite Hle, Hge.
  - unfold top_k_limit. rewrite Htruthy.
    unfold fraction_limit in HL.
    destruct (PyFloat.mul_int t (Z.of_nat (length rows))) as [p|e];
      [|discriminate HL].
    destruct (PyFloat.to_int p) as [k|e]; [|discriminate HL].
    exact HL.
Qed.

(** X26.  On an embedding table without rows, when no index is cached or
    the rebuild is forced and the arguments pass the validation,
    [similarity_index] raises the store's ValueError for an empty input:
    the index table has been created empty, no search was made, and
    [sim_index] is left as it was. *)
Theorem similarity_index_empty_table
        (s : state) (w : nat)
        (max_dist : float) (top_k : option float) (force : bool) (L : Z) :
  table s = Some (table_name s) ->
  db s !! table_name s = Some (EmbTable w []) ->
  force = true \/ sim_index s = None ->
  top_k_out_of_range top_k = false ->
  (max_dist <? 0)%float = false ->
  top_k_limit top_k 0 = Ok L ->
  similarity_index max_dist top_k force s =
  (Raise (ValueError "Input iterable is empty"),
   {| db := <[sim_idx_table_name s := SimTable []]> (db s);
      table_name := table_name s; data := data s;
      choice_set := choice_set s; sim_index := sim_index s;
      table := table s;
      trace := trace s ++ [EvScan (table_name s);
                           EvCreateTable (sim_idx_table_name s);
                           EvAdd (sim_idx_table_name s) 0] |}).
Proof.
  intros Ht Hdb Hfresh Htk Hmd HL.
  rewrite (similarity_index_empty_run s w max_dist top_k force L)
    by assumption.
  unfold log, sim_table_created. cbn. now rewrite <- app_assoc.
Qed.

(** *** get_similar and query *)

(** X22.  [get_similar] with images alone is [query] on the list of
    those images: a path and a list are passed as [query] takes them, and
    an image held in memory, that [query] refuses when it is given bare, is
    wrapped in a list and accepted. *)
Theorem get_similar_with_images
        (s : state) (limit : Z) :
  (forall f, get_similar (ArgStr f) IdxNone limit s
             = query (ArgStr f) limit s) /\
  (forall l, get_similar (ArgList l) IdxNone limit s
             = query (ArgList l) limit s) /\
  (forall a, get_similar (ArgArray a) IdxNone limit s
             = query (ArgList [ImArray a]) limit s) /\
  (forall a tbl, table s = Some tbl ->
     query (ArgArray a) limit s =
     (Raise (ValueError "img must be a string or a list of strings."), s)).
Proof.
  split; [reflexivity|]. split; [reflexivity|]. split; [reflexivity|].
  intros a tbl Ht. unfold query, bind, gets, raise. cbn beta iota.
  now rewrite Ht.
Qed.

(** X23.  Without a table, [get_similar] fails in two ways: given
    indexes it raises AttributeError (the lookup is made on the missing
    table), given images it raises the ValueError of [query]; the state is
    unchanged in both cases. *)
Theorem get_similar_without_table
        (s : state) (img : imgs_arg) (idx : idx_arg) (limit : Z) :
  table s = None ->
  (is_none_idx idx = false ->
   get_similar ArgNone idx limit s = (Raise AttributeError, s)) /\
  (is_none_img img = false ->
   get_similar img IdxNone limit s =
   (Raise (ValueError "Table is not created. Please create the table first."),
    s)).
Proof.
  intros Ht. split.
  - intros Hx. unfold get_similar, _check_imgs_or_idxs, bind, gets, raise.
    cbn. rewrite Hx. cbn. destruct idx; [discriminate Hx| |];
      cbn; rewrite Ht; reflexivity.
  - intros Hi. unfold get_similar, _check_imgs_or_idxs, query, bind, gets,
      raise, ret.
    cbn. rewrite Hi. cbn. now rewrite Ht.
Qed.

(** X24.  From construction to the first query.  After a build that met
    no failure, [query] on one image searches exactly the rows the build
    stored, with the image's embedding and the given limit. *)
Theorem query_after_build
        (s : state) (force : bool) (split d : string) (info : data_info)
        (paths : split_paths) (b0 : batch) (ds : list batch)
        (e0 : tensor) (es : list tensor) (rows : list (emb_row batch))
        (f : string) (e : tensor) (limit : Z) :
  rebuilds force s ->
  data s = Some d ->
  check_det_dataset d = Ok info ->
  data_info_get info split = Some paths ->
  explorer_dataset (choice_of paths) info model_task = Ok (b0 :: ds) ->
  model_embed [ImPath (batch_im_file b0)] = Ok (e0 :: es) ->
  rows_of info (b0 :: ds) = Some rows ->
  forallb (fun r => (length (vector r) =? length e0)%nat) rows = true ->
  model_embed [ImPath f] = Ok [e] ->
  bind (create_embeddings_table force split)
       (fun _ => query (ArgStr f) limit) s
  = (store_search rows e limit,
     log (table_built s d (choice_of paths) b0 (length e0)
                      (embed_calls info (b0 :: ds)) rows)
         [EvEmbed [ImPath f]; EvSearch (table_name s) e limit]).
Proof.
  intros Hre Hdata Hinfo Hsplit Hds Hemb Hrows Hfit Hf.
  unfold bind at 1.
  rewrite (create_embeddings_table_load s force split d info paths b0 ds e0 es)
    by assumption.
  unfold bind at 1. rewrite (yield_batches_run info _ rows) by exact Hrows.
  set (s3 := table_created s d (choice_of paths) b0 (length e0)).
  assert (Hadd :
    bind (add_emb (table_name s) rows) (fun _ => set_table (table_name s))
         (log s3 (embed_calls info (b0 :: ds)))
    = (Ok tt, table_built s d (choice_of paths) b0 (length e0)
                          (embed_calls info (b0 :: ds)) rows)).
  { unfold bind at 1.
    rewrite (add_emb_run _ (length e0) [] rows);
      [|now apply (rows_of_not_empty info b0 ds)
       |cbn; apply lookup_insert_eq|exact Hfit].
    unfold set_table, modify, table_built. cbn.
    rewrite insert_insert_eq, <- !app_assoc. reflexivity. }
  rewrite Hadd.
  set (s5 := table_built _ _ _ _ _ _ _).
  unfold query. unfold bind at 1, gets at 1. cbn [table_built table s5].
  unfold s5 at 1. cbn [table table_built].
  unfold bind at 1, ret at 1.
  unfold bind at 1. rewrite embed_run, Hf.
  unfold bind at 1. cbn [length Nat.ltb Nat.leb first]. unfold ret at 1.
  rewrite (search_run _ (table_name s) (length e0) rows).
  - now rewrite log_log.
  - cbn. apply lookup_insert_eq.
Qed.

End ExplorerMore.

(** * Concrete runs of the builds and of the failures *)

Section MoreRuns.
Import Explorer ExplorerVocabulary ExplorerFrames ExplorerPlots.
Import Sample Examples.

Lemma create_embeddings_table_builds_witness :
  create_embeddings_table false "train" fresh =
    (Ok tt, table_built fresh "coco128.yaml"
                        (choice_of (PathList BuildExamples.train))
                        "coco128.yaml/a.jpg" 2
                        (embed_calls BuildExamples.info BuildExamples.train)
                        BuildExamples.train_rows) /\
  length BuildExamples.train_rows = length BuildExamples.train.
Proof.
  exact (create_embeddings_table_builds
           fresh false "train" "coco128.yaml" BuildExamples.info
           (PathList BuildExamples.train)
           "coco128.yaml/a.jpg" ["coco128.yaml/bb.jpg"]
           (embed_one (ImPath "coco128.yaml/a.jpg")) []
           BuildExamples.train_rows
           (or_intror (conj eq_refl eq_refl))
           eq_refl eq_refl eq_refl eq_refl eq_refl eq_refl eq_refl).
Defined.

Lemma create_embeddings_table_failed_load_witness :
  db (snd (create_embeddings_table (C := Unreliable.collaborators)
             true "train" FailingExamples.stale))
    = <["coco128" := EmbTable 2 []]> (db FailingExamples.stale) /\
  table (snd (create_embeddings_table (C := Unreliable.collaborators)
                true "train" FailingExamples.stale))
    = table FailingExamples.stale /\
  choice_set (snd (create_embeddings_table (C := Unreliable.collaborators)
                     true "train" FailingExamples.stale))
    = Some (choice_of (PathList FailingExamples.train)).
Proof.
  exact (create_embeddings_table_failed_load
           (C := Unreliable.collaborators)
           FailingExamples.stale true "train" "coco128.yaml"
           FailingExamples.info (PathList FailingExamples.train)
           "coco128.yaml/a.jpg" [""]
           (embed_one (ImPath "coco128.yaml/a.jpg")) []
           (ValueError "does not exist")
           (or_introl eq_refl)
           eq_refl eq_refl eq_refl eq_refl eq_refl eq_refl).
Defined.

Lemma create_embeddings_table_early_failures_witness :
  create_embeddings_table (C := Unreliable.collaborators)
    false "train" FailingExamples.no_data =
  (Raise (ValueError "Data must be provided to create embeddings table"),
   FailingExamples.no_data) /\
  create_embeddings_table (C := Unreliable.collaborators)
    false "train" FailingExamples.lost =
  (Raise (ValueError "Dataset not found"),
   log (C := Unreliable.collaborators) FailingExamples.lost
       [EvCheckDataset ""]) /\
  create_embeddings_table (C := Unreliable.collaborators)
    false "test" FailingExamples.fresh =
  (Raise (ValueError "Split is not found in the dataset"),
   log (C := Unreliable.collaborators) FailingExamples.fresh
       [EvCheckDataset "coco128.yaml"]) /\
  create_embeddings_table (C := Unreliable.collaborators)
    false "val" FailingExamples.fresh =
  (Raise IndexError,
   {| db := db FailingExamples.fresh;
      table_name := table_name FailingExamples.fresh;
      data := data FailingExamples.fresh;
      choice_set := Some (choice_of (PathList []));
      sim_index := sim_index FailingExamples.fresh;
      table := table FailingExamples.fresh;
      trace := trace FailingExamples.fresh
               ++ [EvCheckDataset "coco128.yaml";
                   EvLoadDataset (choice_of (PathList []))] |}).
Proof.
  exact (conj
    (proj1 (create_embeddings_table_early_failures
              (C := Unreliable.collaborators)
              FailingExamples.no_data false "train"
              (or_intror (conj eq_refl eq_refl))) eq_refl)
    (conj
       (proj1 (proj2 (create_embeddings_table_early_failures
                        (C := Unreliable.collaborators)
                        FailingExamples.lost false "train"
                        (or_intror (conj eq_refl eq_refl))))
              "" (ValueError "Dataset not found") eq_refl eq_refl)
       (conj
          (proj1 (proj2 (proj2 (create_embeddings_table_early_failures
                                  (C := Unreliable.collaborators)
                                  FailingExamples.fresh false "test"
                                  (or_intror (conj eq_refl eq_refl)))))
                 "coco128.yaml" FailingExamples.info
                 eq_refl eq_refl eq_refl)
          (proj2 (proj2 (proj2 (create_embeddings_table_early_failures
                                  (C := Unreliable.collaborators)
                                  FailingExamples.fresh false "val"
                                  (or_intror (conj eq_refl eq_refl)))))
                 "coco128.yaml" FailingExamples.info (PathList [])
                 eq_refl eq_refl eq_refl eq_refl)))).
Defined.

Lemma explorer_holds_own_handles_witness :
  own_handles (snd (create_embeddings_table false "train" fresh)) /\
  own_handles (snd (similarity_index f0_2 None false fresh)) /\
  own_handles (snd (query (ArgStr "a.jpg") 25 fresh)) /\
  own_handles (snd (sql_query "a.jpg" fresh)) /\
  own_handles (snd (get_similar (ArgStr "a.jpg") IdxNone 25 fresh)) /\
  forall conn data_arg stem,
    own_handles (C := collaborators) (init conn data_arg stem).
Proof.
  exact (explorer_holds_own_handles
           fresh false "train" f0_2 None (ArgStr "a.jpg") IdxNone 25 "a.jpg"
           (conj (or_introl eq_refl) (or_introl eq_refl))).
Defined.

Lemma rebuilt_table_keeps_stale_index_witness :
  similarity_index fm0_1 (Some 1.5%float) false
                   (snd (create_embeddings_table true "train" indexed))
  = (Ok indexed_rows, snd (create_embeddings_table true "train" indexed)).
Proof.
  apply (rebuilt_table_keeps_stale_index
           indexed (snd (create_embeddings_table true "train" indexed))
           "train" indexed_rows fm0_1 (Some 1.5%float));
    vm_compute; reflexivity.
Defined.

Lemma similarity_index_is_cached_witness :
  similarity_index f0_2 (Some 0.5%float) false indexed
  = (Ok indexed_rows, indexed).
Proof.
  apply (similarity_index_is_cached
           built2 f0_2 None true indexed_rows indexed
           f0_2 (Some 0.5%float)).
  vm_compute; reflexivity.
Defined.

Lemma plot_similarity_index_draws_cached_witness :
  plot_similarity_index f0_2 None false indexed
  = (Ok ([0; 1], [1; 1]), indexed).
Proof.
  apply (plot_similarity_index_draws_cached
           built2 f0_2 None true indexed_rows indexed f0_2 None).
  vm_compute; reflexivity.
Defined.

Lemma similarity_index_falsy_top_k_witness :
  similarity_index f0_2 (Some 0%float) true built2
  = similarity_index f0_2 None true built2.
Proof.
  exact (similarity_index_falsy_top_k built2 f0_2 0%float true eq_refl).
Defined.

Lemma similarity_index_fraction_limit_witness :
  issues_self_queries built10
    (similarity_index f0_2 (Some 0.5%float) true built10) ten_rows 5.
Proof.
  exact (similarity_index_fraction_limit
           built10 2%nat ten_rows f0_2 0.5%float true 5
           eq_refl eq_refl (or_introl eq_refl) eq_refl
           eq_refl eq_refl eq_refl).
Defined.

Lemma similarity_index_empty_table_witness :
  similarity_index f0_2 None true (built "coco128" 2 []) =
  (Raise (ValueError "Input iterable is empty"),
   {| db := <["coco128_sim_idx" := SimTable []]>
              (db (built "coco128" 2 []));
      table_name := "coco128"; data := Some "coco128.yaml";
      choice_set := None; sim_index := None; table := Some "coco128";
      trace := [EvScan "coco128"; EvCreateTable "coco128_sim_idx";
                EvAdd "coco128_sim_idx" 0] |}).
Proof.
  exact (similarity_index_empty_table
           (built "coco128" 2 []) 2%nat f0_2 None true 1
           eq_refl eq_refl (or_introl eq_refl) eq_refl eq_refl eq_refl).
Defined.

Lemma get_similar_with_images_witness :
  get_similar (ArgStr "a.jpg") IdxNone 5 built2
    = query (ArgStr "a.jpg") 5 built2 /\
  get_similar (ArgList two_images) IdxNone 5 built2
    = query (ArgList two_images) 5 built2 /\
  get_similar (ArgArray [[[0]]]) IdxNone 5 built2
    = query (ArgList [ImArray [[[0]]]]) 5 built2 /\
  query (ArgArray [[[0]]]) 5 built2 =
    (Raise (ValueError "img must be a string or a list of strings."), built2).
Proof.
  exact (conj
    (proj1 (get_similar_with_images built2 5) "a.jpg")
    (conj
       (proj1 (proj2 (get_similar_with_images built2 5)) two_images)
       (conj
          (proj1 (proj2 (proj2 (get_similar_with_images built2 5)))
                 [[[0]]])
          (proj2 (proj2 (proj2 (get_similar_with_images built2 5)))
                 [[[0]]] "coco128" eq_refl)))).
Defined.

Lemma get_similar_without_table_witness :
  get_similar ArgNone (IdxInt 0) 25 fresh = (Raise AttributeError, fresh) /\
  get_similar (ArgStr "a.jpg") IdxNone 25 fresh =
    (Raise (ValueError "Table is not created. Please create the table first."),
     fresh).
Proof.
  exact (conj
    (proj1 (get_similar_without_table fresh (ArgStr "a.jpg") (IdxInt 0) 25
              eq_refl) eq_refl)
    (proj2 (get_similar_without_table fresh (ArgStr "a.jpg") (IdxInt 0) 25
              eq_refl) eq_refl)).
Defined.

Lemma query_after_build_witness :
  bind (create_embeddings_table false "train")
       (fun _ => query (ArgStr "coco128.yaml/bb.jpg") 1) fresh
  = (store_search BuildExamples.train_rows
                  (embed_one (ImPath "coco128.yaml/bb.jpg")) 1,
     log (table_built fresh "coco128.yaml"
                      (choice_of (PathList BuildExamples.train))
                      "coco128.yaml/a.jpg" 2
                      (embed_calls BuildExamples.info BuildExamples.train)
                      BuildExamples.train_rows)
         [EvEmbed [ImPath "coco128.yaml/bb.jpg"];
          EvSearch "coco128" (embed_one (ImPath "coco128.yaml/bb.jpg")) 1]).
Proof.
  exact (query_after_build
           fresh false "train" "coco128.yaml" BuildExamples.info
           (PathList BuildExamples.train)
           "coco128.yaml/a.jpg" ["coco128.yaml/bb.jpg"]
           (embed_one (ImPath "coco128.yaml/a.jpg")) []
           BuildExamples.train_rows
           "coco128.yaml/bb.jpg" (embed_one (ImPath "coco128.yaml/bb.jpg")) 1
           (or_intror (conj eq_refl eq_refl))
           eq_refl eq_refl eq_refl eq_refl eq_refl eq_refl eq_refl eq_refl).
Defined.

End MoreRuns.
